(** * CocktailIQ: molecular profiling, balance scoring and recommendation

    A shallow embedding of the balance pipeline of the repository
    ([src/analysis/molecular_profile.py] and
    [src/recommendation/optimizer.py], [optimizer_v2.py],
    [optimizer_v3.py], [optimizer_v4.py]) together with the properties
    of its specification.

    Conventions of the embedding:
    - Python floats are idealised as real numbers: [==], [<], [>=] on
      floats become the decidable comparisons of [R], [np.sqrt] becomes
      [sqrt], and [round(x, 1)] rounds the exact value.
    - Dictionaries with a fixed key set become records; a dictionary
      that is either an ['error'] entry or a full result becomes a
      two-constructor inductive type; a key that may be absent becomes
      an [option].
    - A Python exception becomes the [Raise] branch of [result]; the
      functions that can raise are written in the error monad.
    - The molecule table and the cocktail database are data loaded from
      files: the first appears as the function [built_profile] of a
      profiler, the second as the list [cocktails] of an analyzer.
    - Keyword and functional-group tables, the complexity score and the
      human-readable [reason] and [summary] strings play no part in the
      balance pipeline and are left out. *)

From Stdlib Require Import String Ascii.
From Stdlib Require Import Reals Lra Psatz List Permutation Sorted Bool Arith Lia ZArith.
Import ListNotations.

Open Scope R_scope.

(** ** Python and NumPy primitives *)

Inductive exn : Type :=
| ZeroDivisionError (msg : string)
| KeyError (key : string)
| IndexError (msg : string)
| TypeError (msg : string)
| AttributeError (attr : string).

Inductive result (A : Type) : Type :=
| Ok (a : A)
| Raise (e : exn).

Arguments Ok {A} a.
Arguments Raise {A} e.

Definition bind {A B : Type} (m : result A) (f : A -> result B) : result B :=
  match m with
  | Ok a => f a
  | Raise e => Raise e
  end.

Notation "x <- m ;; k" := (bind m (fun x => k))
  (at level 61, m at next level, right associativity).

Definition Reqb (x y : R) : bool := if Req_dec_T x y then true else false.
Definition Rltb (x y : R) : bool := if Rlt_dec x y then true else false.
Definition Rgtb (x y : R) : bool := if Rgt_dec x y then true else false.
Definition Rgeb (x y : R) : bool := if Rge_dec x y then true else false.

(** Built-in [sum]: a left fold starting from [0]. *)
Definition sum (l : list R) : R := fold_left Rplus l 0.

(** Float true division [x / y], which raises on a zero divisor. *)
Definition truediv (x y : R) : result R :=
  if Reqb y 0 then Raise (ZeroDivisionError "float division by zero")
  else Ok (x / y).

Definition np_mean (l : list R) : R := sum l / INR (length l).

Definition np_var (l : list R) : R :=
  let m := np_mean l in
  np_mean (map (fun x => (x - m) * (x - m)) l).

Definition np_std (l : list R) : R := sqrt (np_var l).

(** [np.average(a, weights=w)]: the shapes must agree and the weights
    must not sum to zero. *)
Definition np_average (a w : list R) : result R :=
  if negb (Nat.eqb (length a) (length w)) then
    Raise (TypeError "Axis must be specified when shapes of a and weights differ.")
  else
    let scl := sum w in
    if Reqb scl 0 then
      Raise (ZeroDivisionError "Weights sum to zero, can't be normalized")
    else Ok (sum (map (fun aw => fst aw * snd aw) (combine a w)) / scl).

(** ** Data model *)

Inductive dimension : Type := sweet | sour | bitter | savory | aromatic.

(** The [taste_scores] dictionary: keys are the five dimensions, in the
    insertion order [sweet, sour, bitter, savory, aromatic]. *)
Record taste_scores : Type := mkTaste {
  t_sweet : R;
  t_sour : R;
  t_bitter : R;
  t_savory : R;
  t_aromatic : R
}.

Definition taste_dimensions : list dimension :=
  [sweet; sour; bitter; savory; aromatic].

Definition get (ts : taste_scores) (d : dimension) : R :=
  match d with
  | sweet => t_sweet ts
  | sour => t_sour ts
  | bitter => t_bitter ts
  | savory => t_savory ts
  | aromatic => t_aromatic ts
  end.

Definition update (ts : taste_scores) (d : dimension) (v : R) : taste_scores :=
  match d with
  | sweet => mkTaste v (t_sour ts) (t_bitter ts) (t_savory ts) (t_aromatic ts)
  | sour => mkTaste (t_sweet ts) v (t_bitter ts) (t_savory ts) (t_aromatic ts)
  | bitter => mkTaste (t_sweet ts) (t_sour ts) v (t_savory ts) (t_aromatic ts)
  | savory => mkTaste (t_sweet ts) (t_sour ts) (t_bitter ts) v (t_aromatic ts)
  | aromatic => mkTaste (t_sweet ts) (t_sour ts) (t_bitter ts) (t_savory ts) v
  end.

Definition values (ts : taste_scores) : list R := map (get ts) taste_dimensions.

Definition items (ts : taste_scores) : list (dimension * R) :=
  map (fun d => (d, get ts d)) taste_dimensions.

(** An ingredient profile as built by [MolecularProfiler]; the keyword
    and functional-group tables, which the balance pipeline never reads,
    are left out. *)
Record profile : Type := mkProfile {
  ingredient : string;
  num_molecules : nat;
  profile_taste : taste_scores;
  avg_molecular_weight : R
}.

(** A measure dictionary; [value] is [None] when the key is absent. *)
Record measure : Type := mkMeasure { value : option R }.

Record cocktail : Type := mkCocktail {
  name : string;
  category : string;
  ingredients : list string;
  measures : list measure
}.

(** [MolecularProfiler._empty_profile]. *)
Definition _empty_profile : profile :=
  mkProfile EmptyString 0 (mkTaste 0 0 0 0 0) 0.

(** ** CocktailAnalyzer: aggregation and balance *)

Record aggregated_profile : Type := mkAggregated {
  agg_taste_scores : taste_scores;
  agg_avg_molecular_weight : R;
  total_volume : R
}.

(** [[m.get('value', 30.0) for m in measures]]. *)
Definition volumes_of (measures : list measure) : list R :=
  map (fun m => match value m with Some v => v | None => 30 end) measures.

(** Lines 334-339 of [_aggregate_profiles]: the volumes and the total,
    replaced by unit volumes when the total is zero. *)
Definition effective_volumes (profiles : list profile) (measures : list measure)
  : list R * R :=
  let volumes := volumes_of measures in
  let total_volume := sum volumes in
  if Reqb total_volume 0 then
    (repeat 1 (length profiles), INR (length profiles))
  else (volumes, total_volume).

(** Lines 341-348: the weighted average of the taste scores. *)
Definition accumulate (weight : R) (p : profile) (acc : taste_scores) : taste_scores :=
  fold_left (fun acc dim => update acc dim (get acc dim + get (profile_taste p) dim * weight))
            taste_dimensions acc.

Fixpoint aggregate_taste (pvs : list (profile * R)) (total_volume : R)
                         (aggregated_taste : taste_scores) : result taste_scores :=
  match pvs with
  | [] => Ok aggregated_taste
  | (p, volume) :: rest =>
      weight <- truediv volume total_volume ;;
      aggregate_taste rest total_volume (accumulate weight p aggregated_taste)
  end.

Definition has_molecules (p : profile) : bool := Nat.ltb 0 (num_molecules p).

(** [_aggregate_profiles]; [None] is the empty dictionary returned for an
    empty profile list. *)
Definition _aggregate_profiles (profiles : list profile) (measures : list measure)
  : result (option aggregated_profile) :=
  match profiles with
  | [] => Ok None
  | _ =>
      let '(volumes, total_volume) := effective_volumes profiles measures in
      aggregated_taste <-
        aggregate_taste (combine profiles volumes) total_volume (mkTaste 0 0 0 0 0) ;;
      avg_mw <-
        np_average
          (map avg_molecular_weight (filter has_molecules profiles))
          (map snd (filter (fun pv => has_molecules (fst pv)) (combine profiles volumes))) ;;
      Ok (Some (mkAggregated aggregated_taste avg_mw total_volume))
  end.

(** [_compute_overall_balance]. *)
Definition _compute_overall_balance (ts : taste_scores) : R :=
  let scores := values ts in
  if (match scores with [] => true | _ => false end
      || forallb (fun s => Reqb s 0) scores)%bool
  then 0
  else 1 / (1 + np_var scores).

(** ** Strings and lists as Python uses them *)

Definition lower_ascii (c : ascii) : ascii :=
  let n := nat_of_ascii c in
  if (Nat.leb 65 n && Nat.leb n 90)%bool then ascii_of_nat (n + 32) else c.

(** [str.lower], on ASCII letters. *)
Fixpoint lower (s : string) : string :=
  match s with
  | EmptyString => EmptyString
  | String c s' => String (lower_ascii c) (lower s')
  end.

(** [x in l] for a list of strings. *)
Definition str_in (x : string) (l : list string) : bool :=
  existsb (String.eqb x) l.

(** [l.index(x)], for an [x] known to be in [l]. *)
Fixpoint list_index (x : string) (l : list string) : nat :=
  match l with
  | [] => 0
  | y :: l' => if String.eqb y x then 0%nat else S (list_index x l')
  end.

(** [l.pop(idx)], keeping the remaining list. *)
Fixpoint pop {A : Type} (idx : nat) (l : list A) : result (list A) :=
  match idx, l with
  | _, [] => Raise (IndexError "pop index out of range")
  | O, _ :: l' => Ok l'
  | S i, x :: l' => l'' <- pop i l' ;; Ok (x :: l'')
  end.

(** [l[idx]]. *)
Definition getitem {A : Type} (idx : nat) (l : list A) : result A :=
  match nth_error l idx with
  | Some x => Ok x
  | None => Raise (IndexError "list index out of range")
  end.

(** [l[idx] = x], for an index in range. *)
Fixpoint setitem {A : Type} (idx : nat) (x : A) (l : list A) : list A :=
  match idx, l with
  | _, [] => []
  | O, _ :: l' => x :: l'
  | S i, y :: l' => y :: setitem i x l'
  end.

(** [max(xs, key=key)] on a non-empty list: the first element whose key
    no other element exceeds. *)
Fixpoint max_by {A : Type} (key : A -> R) (best : A) (l : list A) : A :=
  match l with
  | [] => best
  | x :: l' => max_by key (if Rgtb (key x) (key best) then x else best) l'
  end.

(** [sorted(xs, key=key, reverse=reverse)]: a stable sort, which keeps
    the original order of elements with equal keys also when reversed. *)
Fixpoint insert_by {A : Type} (key : A -> R) (reverse : bool) (x : A) (l : list A)
  : list A :=
  match l with
  | [] => [x]
  | y :: l' =>
      if (if reverse then Rltb (key x) (key y) else Rgtb (key x) (key y))
      then y :: insert_by key reverse x l'
      else x :: y :: l'
  end.

Fixpoint sorted {A : Type} (key : A -> R) (reverse : bool) (l : list A) : list A :=
  match l with
  | [] => []
  | x :: l' => insert_by key reverse x (sorted key reverse l')
  end.

(** [round(x, 1)]: the nearest multiple of one tenth, a tie going to the
    even one. *)
Definition round_half_even (x : R) : Z :=
  let f := Zfloor x in
  let r := x - IZR f in
  if Rltb r (1 / 2) then f
  else if Rgtb r (1 / 2) then (f + 1)%Z
  else if Z.even f then f else (f + 1)%Z.

Definition round1 (x : R) : R := IZR (round_half_even (x * 10)) / 10.

(** ** CocktailAnalyzer: analysis of a named cocktail *)

(** [MolecularProfiler]: [built_profile] is the profile computed from the
    molecule table, [None] when the table has no molecule for the
    ingredient. *)
Record MolecularProfiler : Type := mkProfiler {
  built_profile : string -> option profile
}.

Definition get_ingredient_profile (self : MolecularProfiler) (ing : string) : profile :=
  match built_profile self ing with
  | Some p => p
  | None => _empty_profile
  end.

Record CocktailAnalyzer : Type := mkAnalyzer {
  analyzer_profiler : MolecularProfiler;
  cocktails : list cocktail
}.

Record analysis : Type := mkAnalysis {
  cocktail_name : string;
  analysis_category : string;
  num_ingredients : nat;
  analysis_ingredients : list string;
  ingredient_profiles : list profile;
  aggregated : aggregated_profile;
  balance_scores : taste_scores;
  overall_balance : R
}.

(** The dictionary returned by [analyze_cocktail]: either the single key
    ['error'] or a full analysis. *)
Inductive analysis_dict : Type :=
| ErrorDict (error : string)
| AnalysisDict (a : analysis).

Definition _find_cocktail (self : CocktailAnalyzer) (name_ : string) : option cocktail :=
  let name_lower := lower name_ in
  find (fun c => String.eqb (lower (name c)) name_lower) (cocktails self).

Definition not_found_message (cocktail_name : string) : string :=
  ("Cocktail '" ++ cocktail_name ++ "' not found")%string.

Definition analyze_cocktail (self : CocktailAnalyzer) (cocktail_name : string)
  : result analysis_dict :=
  match _find_cocktail self cocktail_name with
  | None => Ok (ErrorDict (not_found_message cocktail_name))
  | Some c =>
      let ingredient_profiles :=
        map (get_ingredient_profile (analyzer_profiler self)) (ingredients c) in
      aggregated <- _aggregate_profiles ingredient_profiles (measures c) ;;
      match aggregated with
      | None => Raise (KeyError "taste_scores")
      | Some agg =>
          Ok (AnalysisDict
                (mkAnalysis (name c) (category c) (length (ingredients c))
                   (ingredients c) ingredient_profiles agg
                   (agg_taste_scores agg)
                   (_compute_overall_balance (agg_taste_scores agg))))
      end
  end.

(** ** CocktailModifier *)

Inductive action : Type :=
| add | remove | increase | decrease | substitute
| other_action.

(** A modification dictionary with string-valued names; [amount] is
    [None] when the key is absent. *)
Record modification : Type := mkModification {
  mod_action : action;
  mod_ingredient : string;
  mod_amount : option R;
  substitute_with : string
}.

Record CocktailModifier : Type := mkModifier {
  modifier_profiler : MolecularProfiler;
  modifier_analyzer : CocktailAnalyzer
}.

Definition amount_or (m : modification) (default : R) : R :=
  match mod_amount m with Some a => a | None => default end.

(** [measure['value']]. *)
Definition measure_value (m : measure) : result R :=
  match value m with
  | Some v => Ok v
  | None => Raise (KeyError "value")
  end.

(** One iteration of the loop over [modifications]. *)
Definition apply_modification (m : modification)
    (state : list string * list measure) : result (list string * list measure) :=
  let '(modified_ingredients, modified_measures) := state in
  match mod_action m with
  | add =>
      Ok (modified_ingredients ++ [mod_ingredient m],
          modified_measures ++ [mkMeasure (Some (amount_or m 30))])
  | remove =>
      if str_in (mod_ingredient m) modified_ingredients then
        let idx := list_index (mod_ingredient m) modified_ingredients in
        ingredients' <- pop idx modified_ingredients ;;
        measures' <- pop idx modified_measures ;;
        Ok (ingredients', measures')
      else Ok state
  | increase =>
      if str_in (mod_ingredient m) modified_ingredients then
        let idx := list_index (mod_ingredient m) modified_ingredients in
        entry <- getitem idx modified_measures ;;
        v <- measure_value entry ;;
        Ok (modified_ingredients,
            setitem idx (mkMeasure (Some (v + amount_or m 10))) modified_measures)
      else Ok state
  | decrease =>
      if str_in (mod_ingredient m) modified_ingredients then
        let idx := list_index (mod_ingredient m) modified_ingredients in
        entry <- getitem idx modified_measures ;;
        v <- measure_value entry ;;
        Ok (modified_ingredients,
            setitem idx (mkMeasure (Some (Rmax 0 (v - amount_or m 10)))) modified_measures)
      else Ok state
  | substitute =>
      if str_in (mod_ingredient m) modified_ingredients then
        let idx := list_index (mod_ingredient m) modified_ingredients in
        Ok (setitem idx (substitute_with m) modified_ingredients, modified_measures)
      else Ok state
  | other_action => Ok state
  end.

Fixpoint apply_modifications (mods : list modification)
    (state : list string * list measure) : result (list string * list measure) :=
  match mods with
  | [] => Ok state
  | m :: rest => state' <- apply_modification m state ;; apply_modifications rest state'
  end.

Record snapshot : Type := mkSnapshot {
  snap_ingredients : list string;
  snap_taste_scores : taste_scores;
  snap_overall_balance : R
}.

Record comparison : Type := mkComparison {
  original : snapshot;
  modified : snapshot;
  modifications_applied : list modification;
  balance_change : R;
  balance_improved : bool
}.

(** The dictionary returned by [modify_cocktail]. *)
Inductive modify_dict : Type :=
| ModifyError (error : string)
| ComparisonDict (c : comparison).

Definition modify_cocktail (self : CocktailModifier) (cocktail_name : string)
    (modifications : list modification) : result modify_dict :=
  original_analysis <- analyze_cocktail (modifier_analyzer self) cocktail_name ;;
  match original_analysis with
  | ErrorDict e => Ok (ModifyError e)
  | AnalysisDict a =>
      let modified_ingredients := analysis_ingredients a in
      match _find_cocktail (modifier_analyzer self) cocktail_name with
      | None => Raise (TypeError "'NoneType' object is not subscriptable")
      | Some c =>
          state <- apply_modifications modifications (modified_ingredients, measures c) ;;
          let '(modified_ingredients, modified_measures) := state in
          let modified_profiles :=
            map (get_ingredient_profile (modifier_profiler self)) modified_ingredients in
          modified_aggregated <- _aggregate_profiles modified_profiles modified_measures ;;
          match modified_aggregated with
          | None => Raise (KeyError "taste_scores")
          | Some agg =>
              let modified_balance := _compute_overall_balance (agg_taste_scores agg) in
              let change := modified_balance - overall_balance a in
              Ok (ComparisonDict
                    (mkComparison
                       (mkSnapshot (analysis_ingredients a) (balance_scores a)
                                   (overall_balance a))
                       (mkSnapshot modified_ingredients (agg_taste_scores agg)
                                   modified_balance)
                       modifications change (Rgtb change 0)))
          end
      end
  end.

(** ** Imbalances and suggestions, shared by the optimizers *)

Inductive issue_type : Type := too_high | too_low.
Inductive priority : Type := high | medium.
Inductive direction : Type := dir_increase | dir_decrease.

Record imbalance : Type := mkImbalance {
  imb_dimension : dimension;
  imb_type : issue_type;
  imb_priority : priority;
  current_value : option R
}.

(** [target_map]: [None] for a missing key, [Some None] for the key
    ['balanced'], whose value is [None]. *)
Definition target_map (target : string) : option (option (dimension * direction)) :=
  (if String.eqb target "sweeter" then Some (Some (sweet, dir_increase))
   else if String.eqb target "more_sour" then Some (Some (sour, dir_increase))
   else if String.eqb target "less_bitter" then Some (Some (bitter, dir_decrease))
   else if String.eqb target "more_aromatic" then Some (Some (aromatic, dir_increase))
   else if String.eqb target "balanced" then Some None
   else None)%string.

(** The [if target:] block of [_identify_imbalances], the same text in
    every optimizer; the empty string is falsy. *)
Definition target_imbalances (target : option string) : list imbalance :=
  match target with
  | None => []
  | Some EmptyString => []
  | Some t =>
      match target_map t with
      | Some (Some (dim, dir)) =>
          [mkImbalance dim
             (match dir with dir_increase => too_low | dir_decrease => too_high end)
             high None]
      | _ => []
      end
  end.

Record suggestion : Type := mkSuggestion {
  sug_action : action;
  sug_ingredient : string;
  sug_amount : R;
  ingredient_taste_profile : taste_scores
}.

Record recommendation : Type := mkRecommendation {
  issue : string;
  rec_suggestion : suggestion
}.

Record report : Type := mkReport {
  report_cocktail : string;
  current_balance : taste_scores;
  overall_balance_score : R;
  message : option string;
  identified_issues : list imbalance;
  recommendations : list recommendation
}.

(** The dictionary returned by [recommend_improvements]. *)
Inductive recommend_dict : Type :=
| RecommendError (error : string)
| ReportDict (r : report).

Definition dimension_name (d : dimension) : string :=
  match d with
  | sweet => "sweet" | sour => "sour" | bitter => "bitter"
  | savory => "savory" | aromatic => "aromatic"
  end%string.

(** [f"{dimension} is {issue_type.replace('_', ' ')}"]. *)
Definition issue_text (d : dimension) (t : issue_type) : string :=
  (dimension_name d ++ " is " ++
   match t with too_high => "too high" | too_low => "too low" end)%string.

Definition contrasting (d : dimension) : dimension :=
  match d with
  | sweet => sour
  | sour => sweet
  | bitter => sweet
  | aromatic => sweet
  | savory => sweet
  end.

(** [_find_corrective_ingredients]; the optimizers differ in the table
    [dimension_ingredients] and in the extra filter [available]. *)
Definition find_corrective
    (dimension_ingredients : dimension -> list string) (available : string -> bool)
    (profiler : MolecularProfiler)
    (dim : dimension) (issue_type_ : issue_type) (existing_ingredients : list string)
  : list suggestion :=
  let candidate_ingredients :=
    match issue_type_ with
    | too_low => dimension_ingredients dim
    | too_high => dimension_ingredients (contrasting dim)
    end in
  let available_candidates :=
    filter (fun ing => (available ing &&
                        negb (str_in (lower ing) (map lower existing_ingredients)))%bool)
           candidate_ingredients in
  let suggestions :=
    flat_map (fun ing =>
                let p := get_ingredient_profile profiler ing in
                if Nat.eqb (num_molecules p) 0 then []
                else [mkSuggestion add ing 15 (profile_taste p)])
             available_candidates in
  firstn 5 (sorted (fun s => get (ingredient_taste_profile s) dim)
                   (match issue_type_ with too_low => true | too_high => false end)
                   suggestions).

(** ** FlavorOptimizer (V1) *)

Module FlavorOptimizer.

Record t : Type := mk {
  profiler : MolecularProfiler;
  analyzer : CocktailAnalyzer;
  modifier : CocktailModifier;
  available_ingredients : list string
}.

Definition _identify_imbalances (taste : taste_scores) (target : option string)
  : list imbalance :=
  let imbalances := target_imbalances target in
  let mean_score := np_mean (values taste) in
  let std_score := np_std (values taste) in
  imbalances ++
  flat_map (fun ds =>
              let '(dim, score) := ds in
              if Rgtb score (mean_score + std_score) then
                [mkImbalance dim too_high medium (Some score)]
              else if (Rltb score (mean_score - std_score) && Rltb score 0.3)%bool then
                [mkImbalance dim too_low medium (Some score)]
              else [])
           (items taste).

Definition dimension_ingredients (d : dimension) : list string :=
  match d with
  | sweet => ["simple syrup"; "sugar"; "honey"; "agave syrup"; "grenadine"; "maple syrup"]
  | sour => ["lemon juice"; "lime juice"; "grapefruit juice"; "vinegar"; "citric acid"]
  | bitter => ["angostura bitters"; "campari"; "aperol"; "coffee"; "tonic water"]
  | aromatic => ["mint"; "basil"; "rosemary"; "thyme"; "bitters"; "orange bitters"]
  | savory => ["olive brine"; "celery"; "tomato juice"; "worcestershire sauce"]
  end%string.

Definition _find_corrective_ingredients (self : t) :=
  find_corrective dimension_ingredients
    (fun ing => str_in ing (available_ingredients self)) (profiler self).

Definition recommend_improvements (self : t) (cocktail_name : string)
    (target_balance : option string) : result recommend_dict :=
  a <- analyze_cocktail (analyzer self) cocktail_name ;;
  match a with
  | ErrorDict e => Ok (RecommendError e)
  | AnalysisDict a =>
      let current_scores := balance_scores a in
      let imbalances := _identify_imbalances current_scores target_balance in
      let recommendations :=
        flat_map (fun imb =>
                    let suggestions :=
                      _find_corrective_ingredients self (imb_dimension imb) (imb_type imb)
                        (analysis_ingredients a) in
                    map (mkRecommendation (issue_text (imb_dimension imb) (imb_type imb)))
                        (firstn 3 suggestions))
                 imbalances in
      Ok (ReportDict (mkReport cocktail_name current_scores (overall_balance a) None
                               imbalances recommendations))
  end.

End FlavorOptimizer.

(** [max(...)] over a non-empty sequence of floats. *)
Definition py_max (l : list R) : R :=
  match l with
  | [] => 0
  | x :: l' => fold_left Rmax l' x
  end.

(** ** FlavorOptimizerV2 *)

Module FlavorOptimizerV2.

Record t : Type := mk {
  profiler : MolecularProfiler;
  analyzer : CocktailAnalyzer;
  modifier : CocktailModifier
}.

Definition _calculate_adaptive_amount (current_balance imbalance_magnitude total_volume : R)
  : R :=
  let base_percentage := 0.12 in
  let balance_factor :=
    if Rgeb current_balance 0.98 then 0.0
    else if Rgeb current_balance 0.95 then 0.25
    else if Rgeb current_balance 0.90 then 0.5
    else if Rgeb current_balance 0.80 then 0.75
    else 1.0 in
  let severity_factor := Rmin (imbalance_magnitude / 0.3) 2.0 in
  let amount := total_volume * base_percentage * balance_factor * severity_factor in
  round1 (Rmax 5.0 (Rmin amount 30.0)).

Definition should_recommend_changes (balance_score : R) (taste : taste_scores)
  : bool * string :=
  if Rgeb balance_score 0.98 then
    (false, "Cocktail is already excellently balanced! No changes recommended."%string)
  else if (Rgeb balance_score 0.95 &&
           (let mean := np_mean (values taste) in
            let max_deviation := py_max (map (fun score => Rabs (score - mean)) (values taste)) in
            Rltb max_deviation 0.25))%bool then
    (false, "Cocktail is very well balanced. Only minor refinements possible."%string)
  else if Rgeb balance_score 0.85 then
    (true, "Good cocktail with room for refinement"%string)
  else (true, "Cocktail has imbalances that could be improved"%string).

Definition _identify_imbalances (taste : taste_scores) (target : option string)
  : list imbalance :=
  let imbalances := target_imbalances target in
  let mean_score := np_mean (values taste) in
  let std_score := np_std (values taste) in
  imbalances ++
  flat_map (fun ds =>
              let '(dim, score) := ds in
              if Rgtb score (mean_score + std_score * 0.7) then
                [mkImbalance dim too_high medium (Some score)]
              else if (Rltb score (mean_score - std_score * 0.7) && Rltb score 0.3)%bool then
                [mkImbalance dim too_low medium (Some score)]
              else [])
           (items taste).

Definition dimension_ingredients (d : dimension) : list string :=
  match d with
  | sweet => ["simple syrup"; "honey"; "agave syrup"; "sugar"]
  | sour => ["lemon juice"; "lime juice"; "grapefruit juice"]
  | bitter => ["angostura bitters"; "campari"; "coffee"]
  | aromatic => ["mint"; "basil"; "bitters"]
  | savory => ["celery"; "tomato juice"]
  end%string.

Definition _find_corrective_ingredients (self : t) :=
  find_corrective dimension_ingredients (fun _ => true) (profiler self).

(** The body of [recommend_improvements] after the analysis, shared with
    V3, which differs in the corrective table and keeps [per_issue]
    suggestions for each imbalance instead of three. *)
Definition recommend_from_analysis
    (should_recommend : R -> taste_scores -> bool * string)
    (identify : taste_scores -> option string -> list imbalance)
    (find_corrective_ingredients : dimension -> issue_type -> list string -> list suggestion)
    (adaptive : R -> R -> R -> R) (per_issue : nat)
    (cocktail_name : string) (target_balance : option string) (a : analysis) : report :=
  let current_scores := balance_scores a in
  let current_balance := overall_balance a in
  let total_volume := total_volume (aggregated a) in
  let '(should_rec, message) := should_recommend current_balance current_scores in
  if negb should_rec then
    mkReport cocktail_name current_scores current_balance (Some message) [] []
  else
    let imbalances := identify current_scores target_balance in
    let recommendations :=
      flat_map (fun imb =>
                  let dim := imb_dimension imb in
                  let mean := np_mean (values current_scores) in
                  let imbalance_mag := Rabs (get current_scores dim - mean) in
                  let suggestions :=
                    find_corrective_ingredients dim (imb_type imb) (analysis_ingredients a) in
                  map (fun s =>
                         let adaptive_amount :=
                           adaptive current_balance imbalance_mag total_volume in
                         mkRecommendation (issue_text dim (imb_type imb))
                           (mkSuggestion (sug_action s) (sug_ingredient s) adaptive_amount
                                         (ingredient_taste_profile s)))
                      (firstn per_issue suggestions))
               imbalances in
    mkReport cocktail_name current_scores current_balance None imbalances recommendations.

Definition recommend_improvements (self : t) (cocktail_name : string)
    (target_balance : option string) : result recommend_dict :=
  a <- analyze_cocktail (analyzer self) cocktail_name ;;
  match a with
  | ErrorDict e => Ok (RecommendError e)
  | AnalysisDict a =>
      Ok (ReportDict
            (recommend_from_analysis should_recommend_changes _identify_imbalances
               (_find_corrective_ingredients self) _calculate_adaptive_amount 3
               cocktail_name target_balance a))
  end.

End FlavorOptimizerV2.

(** ** FlavorOptimizerV3 *)

Module FlavorOptimizerV3.

Record t : Type := mk {
  profiler : MolecularProfiler;
  analyzer : CocktailAnalyzer;
  modifier : CocktailModifier
}.

(** In the source these three methods repeat the text of V2. *)
Definition _calculate_adaptive_amount := FlavorOptimizerV2._calculate_adaptive_amount.
Definition _should_recommend_changes := FlavorOptimizerV2.should_recommend_changes.
Definition _identify_imbalances := FlavorOptimizerV2._identify_imbalances.

Definition dimension_ingredients (d : dimension) : list string :=
  match d with
  | sweet => ["simple syrup"; "honey"; "agave syrup"; "sugar"; "maple syrup"]
  | sour => ["lemon juice"; "lime juice"; "grapefruit juice"]
  | bitter => ["angostura bitters"; "campari"; "aperol"; "coffee"]
  | aromatic => ["mint"; "basil"; "bitters"; "orange bitters"]
  | savory => ["celery"; "tomato juice"]
  end%string.

Definition _find_corrective_ingredients (self : t) :=
  find_corrective dimension_ingredients (fun _ => true) (profiler self).

Definition recommend_improvements (self : t) (cocktail_name : string)
    (target_balance : option string) : result recommend_dict :=
  a <- analyze_cocktail (analyzer self) cocktail_name ;;
  match a with
  | ErrorDict e => Ok (RecommendError e)
  | AnalysisDict a =>
      Ok (ReportDict
            (FlavorOptimizerV2.recommend_from_analysis
               _should_recommend_changes _identify_imbalances
               (_find_corrective_ingredients self) _calculate_adaptive_amount 5
               cocktail_name target_balance a))
  end.

Record candidate : Type := mkCandidate {
  rank : nat;
  cand_modification : list modification;
  cand_ingredient : string;
  cand_amount : R;
  original_balance : R;
  new_balance : R;
  improvement : R
}.

(** The dictionary returned by [find_best_modification]. *)
Inductive best_dict : Type :=
| BestError (error : string)
| NoBest (cocktail_ : string) (message_ : string)
| Best (cocktail_ : string) (original_balance_ : R) (best_modification : candidate)
       (all_candidates : list candidate) (tested_count : nat).

(** The loop over [enumerate(all_recs['recommendations'][:max_candidates])];
    [i] is the index of the first recommendation of [recs].  An exception
    raised by the modifier is swallowed by the [try]. *)
Fixpoint test_candidates (self : t) (cocktail_name : string) (original_balance : R)
    (i : nat) (recs : list recommendation) : list candidate :=
  match recs with
  | [] => []
  | rec :: rest =>
      let modification :=
        [mkModification add (sug_ingredient (rec_suggestion rec))
                        (Some (sug_amount (rec_suggestion rec))) EmptyString] in
      let tested :=
        match modify_cocktail (modifier self) cocktail_name modification with
        | Ok (ComparisonDict c) =>
            let new_balance := snap_overall_balance (modified c) in
            [mkCandidate (i + 1) modification (sug_ingredient (rec_suggestion rec))
                         (sug_amount (rec_suggestion rec)) original_balance new_balance
                         (new_balance - original_balance)]
        | Ok (ModifyError _) => []
        | Raise _ => []
        end in
      tested ++ test_candidates self cocktail_name original_balance (S i) rest
  end.

Definition find_best_modification (self : t) (cocktail_name : string)
    (max_candidates : nat) : result best_dict :=
  original <- analyze_cocktail (analyzer self) cocktail_name ;;
  match original with
  | ErrorDict e => Ok (BestError e)
  | AnalysisDict a =>
      let original_balance := overall_balance a in
      all_recs <- recommend_improvements self cocktail_name None ;;
      match all_recs with
      | RecommendError _ => Ok (NoBest cocktail_name "No recommendations available")
      | ReportDict r =>
          match recommendations r with
          | [] =>
              Ok (NoBest cocktail_name
                    (match message r with
                     | Some m => m
                     | None => "No recommendations available"%string
                     end))
          | recs =>
              match test_candidates self cocktail_name original_balance 0
                      (firstn max_candidates recs) with
              | [] => Ok (NoBest cocktail_name "Could not test any modifications")
              | c :: candidates =>
                  Ok (Best cocktail_name original_balance
                           (max_by improvement c candidates)
                           (c :: candidates) (length (c :: candidates)))
              end
          end
      end
  end.

End FlavorOptimizerV3.

(** ** FlavorOptimizerV4 *)

(** [needle in hay] for strings. *)
Fixpoint contains (needle hay : string) : bool :=
  (String.prefix needle hay ||
   match hay with
   | EmptyString => false
   | String _ hay' => contains needle hay'
   end)%bool.

Definition is_space (c : ascii) : bool :=
  let n := nat_of_ascii c in
  (Nat.eqb n 32 || (Nat.leb 9 n && Nat.leb n 13) || (Nat.leb 28 n && Nat.leb n 31))%bool.

Fixpoint lstrip (l : list ascii) : list ascii :=
  match l with
  | c :: l' => if is_space c then lstrip l' else l
  | [] => []
  end.

(** [str.strip], on ASCII white space. *)
Definition strip (s : string) : string :=
  string_of_list_ascii (rev (lstrip (rev (lstrip (list_ascii_of_string s))))).

Module FlavorOptimizerV4.

(** V4 inherits from V3; [ingredient_plausibility] is the loaded
    dictionary, in its insertion order. *)
Record t : Type := mk {
  base : FlavorOptimizerV3.t;
  ingredient_plausibility : list (string * R)
}.

Definition get_plausibility_score (self : t) (ingredient_ : string) : R :=
  match ingredient_plausibility self with
  | [] => 0.5
  | table =>
      let ingredient_lower := strip (lower ingredient_) in
      match find (fun kv => String.eqb (fst kv) ingredient_lower) table with
      | Some kv => snd kv
      | None =>
          match find (fun kv => (contains (fst kv) ingredient_lower ||
                                 contains ingredient_lower (fst kv))%bool) table with
          | Some kv => snd kv
          | None => 0.5
          end
      end
  end.

(** A candidate dictionary of V4 before ranking. *)
Record candidate : Type := mkCandidate {
  cand_ingredient : string;
  cand_amount : R;
  improvement : R;
  original_balance : R;
  new_balance : R
}.

(** The same dictionary once ranking has added its two keys. *)
Record scored : Type := mkScored {
  scored_candidate : candidate;
  plausibility : R;
  combined_score : R
}.

Definition rank_recommendations_with_plausibility (self : t) (candidates : list candidate)
  : list scored :=
  let candidates :=
    map (fun c =>
           let plausibility := get_plausibility_score self (cand_ingredient c) in
           mkScored c plausibility (improvement c * plausibility))
        candidates in
  sorted combined_score true candidates.

(** The methods of class [CocktailAnalyzer] that take a cocktail name and
    return an analysis. *)
Definition analyzer_method (attr : string)
  : option (CocktailAnalyzer -> string -> result analysis_dict) :=
  if String.eqb attr "analyze_cocktail" then Some analyze_cocktail else None.

Inductive best_dict : Type :=
| NotFound (error : string)
| Excellent (message_ : string) (current_balance_ ideal_target : R)
| NoRecommendations (current_balance_ : R)
| NoValidCandidates (current_balance_ : R)
| Success (cocktail_ : string) (tested_count : nat) (all_candidates : list scored)
          (best_modification : scored).

(** [find_best_modification] of V4.  No analysis dictionary of the
    repository has the key ['balance_metrics'] that the second statement
    reads, so nothing after it is ever reached. *)
Definition find_best_modification (self : t) (cocktail_name : string)
    (max_candidates : nat) : result best_dict :=
  match analyzer_method "analyze_cocktail_by_name" with
  | None => Raise (AttributeError "analyze_cocktail_by_name")
  | Some analyze_cocktail_by_name =>
      analysis <- analyze_cocktail_by_name (FlavorOptimizerV3.analyzer (base self))
                    cocktail_name ;;
      match analysis with
      | ErrorDict _ | AnalysisDict _ => Raise (KeyError "balance_metrics")
      end
  end.

End FlavorOptimizerV4.

(** * The molecule table and the profiles built from it *)

(** ** FlavorLoader *)

(** A molecule dictionary of the flavour database; an [option] field is
    [None] when the key is absent, [super_sweet] and [bitter] hold the
    outcome of the tests [mol.get('super_sweet')] and
    [mol.get('bitter', 0) == 1]. *)
Record molecule : Type := mkMolecule {
  mol_flavor_profile : option string;
  mol_functional_groups : option string;
  mol_molecular_weight : option R;
  mol_super_sweet : bool;
  mol_bitter : bool
}.

(** [FlavorLoader]: [molecules_by_source] is the index built by
    [load_flavor_db], read with [.get(source, [])]. *)
Record FlavorLoader : Type := mkLoader {
  molecules_by_source : string -> list molecule
}.

(** The table [keyword_mappings] of [_fuzzy_match_ingredient], in its
    order. *)
Definition keyword_mappings : list (string * list string) :=
  [("lemon", ["citrus"; "lemon"]); ("lime", ["citrus"; "lime"]);
   ("orange", ["citrus"; "orange"]); ("gin", ["juniper"]);
   ("vodka", ["grain"; "potato"]); ("rum", ["sugar cane"; "molasses"]);
   ("whiskey", ["grain"; "malt"]); ("whisky", ["grain"; "malt"]);
   ("tequila", ["agave"]); ("brandy", ["grape"]); ("cognac", ["grape"]);
   ("vermouth", ["wine"; "herbs"]); ("coffee", ["coffee"]); ("tea", ["tea"]);
   ("mint", ["mint"]); ("sugar", ["sugar"]); ("honey", ["honey"]);
   ("chocolate", ["cocoa"]); ("cocoa", ["cocoa"]); ("vanilla", ["vanilla"]);
   ("cinnamon", ["cinnamon"]); ("ginger", ["ginger"]); ("apple", ["apple"]);
   ("pineapple", ["pineapple"]); ("coconut", ["coconut"]); ("cherry", ["cherry"]);
   ("cranberry", ["cranberry"]); ("grape", ["grape"]); ("peach", ["peach"]);
   ("strawberry", ["strawberry"]); ("raspberry", ["raspberry"]);
   ("blackberry", ["blackberry"]); ("cream", ["milk"; "dairy"]);
   ("milk", ["milk"; "dairy"]); ("butter", ["milk"; "dairy"])]%string.

(** [_fuzzy_match_ingredient]: the molecules of every source of every
    keyword that occurs in the ingredient name. *)
Definition _fuzzy_match_ingredient (self : FlavorLoader) (ingredient_ : string)
  : list molecule :=
  flat_map (fun entry =>
              if contains (fst entry) ingredient_
              then flat_map (molecules_by_source self) (snd entry)
              else [])
           keyword_mappings.

(** [get_molecules_for_ingredient], with the fuzzy matcher found on the
    instance: V2 and V3 replace that attribute on their own profiler. *)
Definition get_molecules_for_ingredient (self : FlavorLoader)
    (fuzzy : string -> list molecule) (ingredient_name : string) : list molecule :=
  let ingredient_lower := lower ingredient_name in
  match molecules_by_source self ingredient_lower with
  | [] => fuzzy ingredient_lower
  | molecules => molecules
  end.

(** [enhanced_fuzzy_match] of [_enhance_ingredient_mappings]: the
    original matcher, then the optimizer's own table
    [SPIRIT_FALLBACK_MAPPINGS] when that finds nothing. *)
Fixpoint assoc (key : string) (table : list (string * list string))
  : option (list string) :=
  match table with
  | [] => None
  | (k, v) :: rest => if String.eqb k key then Some v else assoc key rest
  end.

Definition enhanced_fuzzy_match (spirit_fallback_mappings : list (string * list string))
    (self : FlavorLoader) (original_fuzzy : string -> list molecule)
    (ingredient_ : string) : list molecule :=
  let molecules := original_fuzzy ingredient_ in
  match molecules, assoc (lower ingredient_) spirit_fallback_mappings with
  | [], Some bases =>
      flat_map (fun base => molecules_by_source self (lower base)) bases
  | _, _ => molecules
  end.

(** [SPIRIT_FALLBACK_MAPPINGS] of [optimizer_v2.py]. *)
Definition spirit_fallback_mappings_v2 : list (string * list string) :=
  [("rum", ["sugar cane"; "molasses"]); ("light rum", ["sugar cane"; "citrus"]);
   ("dark rum", ["molasses"; "caramel"; "vanilla"]); ("white rum", ["sugar cane"]);
   ("spiced rum", ["sugar cane"; "cinnamon"; "vanilla"]); ("tequila", ["agave"]);
   ("bourbon", ["corn"; "oak"; "vanilla"]); ("whiskey", ["grain"; "malt"; "oak"]);
   ("whisky", ["grain"; "malt"; "oak"]); ("scotch", ["malt"; "peat"; "oak"]);
   ("rye", ["grain"; "spice"]); ("vodka", ["grain"]);
   ("triple sec", ["orange"; "citrus"]); ("cointreau", ["orange"; "citrus"]);
   ("grand marnier", ["orange"; "cognac"]); ("campari", ["bitter orange"; "herbs"]);
   ("aperol", ["orange"; "herbs"]); ("angostura bitters", ["spice"; "herbs"]);
   ("orange bitters", ["orange"]); ("simple syrup", ["sugar"]);
   ("sugar syrup", ["sugar"]); ("soda water", ["water"]);
   ("club soda", ["water"])]%string.

(** ** Counting dictionaries *)

(** [d[key] += 1] on a [defaultdict(int)], kept in insertion order. *)
Fixpoint incr (key : string) (d : list (string * nat)) : list (string * nat) :=
  match d with
  | [] => [(key, 1%nat)]
  | (k, n) :: rest =>
      if String.eqb k key then (k, S n) :: rest else (k, n) :: incr key rest
  end.

(** [s.split('@')]. *)
Fixpoint split_at (s : string) : list string :=
  match s with
  | EmptyString => [EmptyString]
  | String c s' =>
      if Ascii.eqb c "@"%char then EmptyString :: split_at s'
      else match split_at s' with
           | [] => [String c EmptyString]
           | piece :: pieces => String c piece :: pieces
           end
  end.

Definition is_empty (s : string) : bool :=
  match s with EmptyString => true | _ => false end.

(** The loop [for flavor in text.split('@'): if flavor.strip(): d[flavor.strip()] += 1],
    skipped when the text is absent or empty. *)
Definition count_tokens (text : option string) (d : list (string * nat))
  : list (string * nat) :=
  match text with
  | None => d
  | Some EmptyString => d
  | Some text =>
      fold_left (fun d piece => if is_empty (strip piece) then d else incr (strip piece) d)
                (split_at text) d
  end.

(** [any(k in keyword.lower() for k in keywords)]. *)
Definition matches_any (keywords : list string) (keyword : string) : bool :=
  existsb (fun k => contains k (lower keyword)) keywords.

(** The sum of the counts of the keywords that match a set. *)
Definition matching_count (keywords : list string) (d : list (string * nat)) : nat :=
  fold_left (fun acc kv => if matches_any keywords (fst kv) then (acc + snd kv)%nat else acc)
            d 0%nat.

(** ** extract_flavor_profiles *)

Record flavor_profile : Type := mkFlavorProfile {
  fp_num_molecules : nat;
  fp_flavor_keywords : list (string * nat);
  fp_functional_groups : list (string * nat);
  fp_avg_molecular_weight : R;
  tp_sweet : nat;
  tp_bitter : nat;
  tp_sour : nat;
  tp_savory : nat
}.

Definition sour_keywords_db : list string := ["sour"; "acidic"; "tart"; "citrus"]%string.
Definition savory_keywords_db : list string := ["savory"; "umami"; "meaty"; "brothy"]%string.

(** The molecular weights that pass [if mol.get('molecular_weight')]. *)
Definition truthy_weights (molecules : list molecule) : list R :=
  flat_map (fun mol => match mol_molecular_weight mol with
                       | Some w => if Reqb w 0 then [] else [w]
                       | None => []
                       end)
           molecules.

Definition by_count (kv : string * nat) : R := INR (snd kv).

Definition extract_flavor_profiles (molecules : list molecule) : flavor_profile :=
  match molecules with
  | [] => mkFlavorProfile 0 [] [] 0 0 0 0 0
  | _ =>
      let flavor_keywords :=
        fold_left (fun d mol => count_tokens (mol_flavor_profile mol) d) molecules [] in
      let functional_groups :=
        fold_left (fun d mol => count_tokens (mol_functional_groups mol) d) molecules [] in
      let molecular_weights := truthy_weights molecules in
      mkFlavorProfile
        (length molecules)
        (sorted by_count true flavor_keywords)
        (sorted by_count true functional_groups)
        (match molecular_weights with
         | [] => 0
         | _ => sum molecular_weights / INR (length molecular_weights)
         end)
        (length (filter mol_super_sweet molecules))
        (length (filter mol_bitter molecules))
        (matching_count sour_keywords_db flavor_keywords)
        (matching_count savory_keywords_db flavor_keywords)
  end.

(** ** MolecularProfiler: the scores of one ingredient *)

Definition sweet_keywords : list string :=
  ["sweet"; "honey"; "caramel"; "sugar"; "syrup"; "vanilla"; "fruity"]%string.
Definition bitter_keywords : list string :=
  ["bitter"; "astringent"; "tannic"; "harsh"]%string.
Definition sour_keywords : list string :=
  ["sour"; "acidic"; "tart"; "citrus"; "vinegar"; "sharp"]%string.
Definition savory_keywords : list string :=
  ["savory"; "umami"; "meaty"; "brothy"; "roasted"]%string.
Definition aromatic_keywords : list string :=
  ["floral"; "aromatic"; "perfume"; "fragrant"; "herbal"; "spicy"; "woody"; "earthy"]%string.

(** The sum of [count * 2] over the keywords that match a set. *)
Definition matching_count_twice (keywords : list string) (d : list (string * nat)) : nat :=
  fold_left (fun acc kv => if matches_any keywords (fst kv) then (acc + snd kv * 2)%nat else acc)
            d 0%nat.

(** The counts before normalisation: the database annotation plus twice
    the count of every matching keyword; for [aromatic] the plain sum of
    the matching counts. *)
Definition raw_taste (fp : flavor_profile) (d : dimension) : nat :=
  match d with
  | sweet => tp_sweet fp + matching_count_twice sweet_keywords (fp_flavor_keywords fp)
  | bitter => tp_bitter fp + matching_count_twice bitter_keywords (fp_flavor_keywords fp)
  | sour => tp_sour fp + matching_count_twice sour_keywords (fp_flavor_keywords fp)
  | savory => tp_savory fp + matching_count_twice savory_keywords (fp_flavor_keywords fp)
  | aromatic => matching_count aromatic_keywords (fp_flavor_keywords fp)
  end%nat.

(** [_compute_taste_scores]. *)
Definition _compute_taste_scores (fp : flavor_profile) : taste_scores :=
  let sweet_ := raw_taste fp sweet in
  let bitter_ := raw_taste fp bitter in
  let sour_ := raw_taste fp sour in
  let savory_ := raw_taste fp savory in
  let aromatic_ := raw_taste fp aromatic in
  let max_score :=
    Nat.max sweet_ (Nat.max bitter_ (Nat.max sour_ (Nat.max savory_ (Nat.max aromatic_ 1)))) in
  mkTaste (sqrt (INR sweet_) / sqrt (INR max_score))
          (sqrt (INR sour_) / sqrt (INR max_score))
          (sqrt (INR bitter_) / sqrt (INR max_score))
          (sqrt (INR savory_) / sqrt (INR max_score))
          (sqrt (INR aromatic_) / sqrt (INR max_score)).

(** [mol.get('functional_groups', '').lower()]. *)
Definition groups_lower (mol : molecule) : string :=
  match mol_functional_groups mol with
  | Some g => lower g
  | None => EmptyString
  end.

Definition is_aromatic (mol : molecule) : bool := contains "aromatic" (groups_lower mol).

(** The loop of [_compute_aromatic_intensity]: the number of aromatic
    molecules and the weight they add up. *)
Fixpoint aromatic_totals (molecules : list molecule) (aromatic_count : nat)
    (total_aromatic_weight : R) : result (nat * R) :=
  match molecules with
  | [] => Ok (aromatic_count, total_aromatic_weight)
  | mol :: rest =>
      if is_aromatic mol then
        let mw := match mol_molecular_weight mol with Some w => w | None => 200 end in
        if Rltb mw 300 then
          contribution <- truediv 1.0 (mw / 100.0) ;;
          aromatic_totals rest (S aromatic_count) (total_aromatic_weight + contribution)
        else aromatic_totals rest (S aromatic_count) total_aromatic_weight
      else aromatic_totals rest aromatic_count total_aromatic_weight
  end.

Definition _compute_aromatic_intensity (molecules : list molecule) : result R :=
  match molecules with
  | [] => Ok 0.0
  | _ =>
      totals <- aromatic_totals molecules 0 0 ;;
      let '(aromatic_count, total_aromatic_weight) := totals in
      if Nat.eqb aromatic_count 0 then Ok 0.0
      else
        let intensity :=
          (INR aromatic_count / INR (length molecules))
          * tanh (total_aromatic_weight / INR aromatic_count) in
        Ok (Rmin intensity 1.0)
  end.

(** The volatility that [_estimate_volatility] appends for one molecule,
    none when its weight is absent or zero. *)
Definition molecule_volatility (mol : molecule) : list R :=
  let mw := match mol_molecular_weight mol with Some w => w | None => 0 end in
  if Reqb mw 0 then []
  else
    let vol :=
      if Rltb mw 100 then 1.0
      else if Rltb mw 200 then 0.8
      else if Rltb mw 300 then 0.5
      else 0.2 in
    let func_groups := groups_lower mol in
    let vol :=
      if (contains "ester" func_groups || contains "aldehyde" func_groups)%bool
      then vol * 1.2 else vol in
    let vol := if contains "aromatic" func_groups then vol * 1.1 else vol in
    [Rmin vol 1.0].

Definition _estimate_volatility (molecules : list molecule) : R :=
  match molecules with
  | [] => 0.0
  | _ =>
      match flat_map molecule_volatility molecules with
      | [] => 0.0
      | volatilities => np_mean volatilities
      end
  end.

(** The dictionary built by [get_ingredient_profile]: the part that the
    balance pipeline reads, and the rest. *)
Record ingredient_profile : Type := mkIngredientProfile {
  core : profile;
  flavor_keywords : list (string * nat);
  functional_groups : list (string * nat);
  aromatic_intensity : R;
  volatility_estimate : R
}.

Definition empty_ingredient_profile : ingredient_profile :=
  mkIngredientProfile _empty_profile [] [] 0.0 0.0.

(** [get_ingredient_profile] on a cache miss: [None] stands for the
    warning branch, which returns [_empty_profile()] and caches
    nothing. *)
Definition build_profile (loader : FlavorLoader) (fuzzy : string -> list molecule)
    (ingredient_ : string) : result (option ingredient_profile) :=
  match get_molecules_for_ingredient loader fuzzy ingredient_ with
  | [] => Ok None
  | molecules =>
      let fp := extract_flavor_profiles molecules in
      let taste := _compute_taste_scores fp in
      intensity <- _compute_aromatic_intensity molecules ;;
      Ok (Some (mkIngredientProfile
                  (mkProfile ingredient_ (fp_num_molecules fp) taste
                             (fp_avg_molecular_weight fp))
                  (fp_flavor_keywords fp) (fp_functional_groups fp)
                  intensity (_estimate_volatility molecules)))
  end.

(** [self.profile_cache], a dictionary in insertion order. *)
Definition profile_cache : Type := list (string * ingredient_profile).

Fixpoint cache_lookup (ingredient_ : string) (cache : profile_cache)
  : option ingredient_profile :=
  match cache with
  | [] => None
  | (k, p) :: rest => if String.eqb k ingredient_ then Some p else cache_lookup ingredient_ rest
  end.

(** [cache[ingredient] = profile], for a key that is not in the cache. *)
Definition cache_store (ingredient_ : string) (p : ingredient_profile)
    (cache : profile_cache) : profile_cache :=
  cache ++ [(ingredient_, p)].

(** [get_ingredient_profile] with its cache threaded through. *)
Definition get_ingredient_profile_cached (loader : FlavorLoader)
    (fuzzy : string -> list molecule) (ingredient_ : string) (cache : profile_cache)
  : result (ingredient_profile * profile_cache) :=
  match cache_lookup ingredient_ cache with
  | Some p => Ok (p, cache)
  | None =>
      built <- build_profile loader fuzzy ingredient_ ;;
      match built with
      | None => Ok (empty_ingredient_profile, cache)
      | Some p => Ok (p, cache_store ingredient_ p cache)
      end
  end.

(** [len(set)] of the keys gathered from several dictionaries. *)
Definition distinct_keys (tables : list (list (string * nat))) : nat :=
  length (nodup string_dec (flat_map (map fst) tables)).

(** [_compute_complexity]. *)
Definition _compute_complexity (profiles : list ingredient_profile) : R :=
  match profiles with
  | [] => 0.0
  | _ =>
      let keyword_score :=
        Rmin (INR (distinct_keys (map flavor_keywords profiles)) / 30.0) 1.0 in
      let group_score :=
        Rmin (INR (distinct_keys (map functional_groups profiles)) / 10.0) 1.0 in
      (keyword_score + group_score) / 2.0
  end.

(** * Callers of the pipeline *)

(** ** SyntheticImbalanceGenerator and SyntheticValidator *)

Record SyntheticImbalanceGenerator : Type := mkGenerator {
  generator_analyzer : CocktailAnalyzer;
  generator_profiler : MolecularProfiler
}.

Record synthetic : Type := mkSynthetic {
  original_name : string;
  synthetic_type : string;
  synthetic_original_balance : R;
  original_scores : taste_scores;
  broken_balance : R;
  broken_scores : taste_scores;
  synthetic_ingredients : list string;
  synthetic_measures : list measure;
  expected_issue : string
}.

(** The dictionary returned by [create_too_sweet] and its siblings. *)
Inductive synthetic_dict : Type :=
| SyntheticError (error : string)
| SyntheticDict (s : synthetic).

(** The common text of [create_too_sweet], [create_too_sour] and
    [create_too_bitter], which differ in the ingredient added and in the
    labels. *)
Definition create_broken (added type_ expected : string)
    (self : SyntheticImbalanceGenerator) (cocktail_name : string) (amount_ml : R)
  : result synthetic_dict :=
  original <- analyze_cocktail (generator_analyzer self) cocktail_name ;;
  match original with
  | ErrorDict e => Ok (SyntheticError e)
  | AnalysisDict a =>
      let modified_ingredients := analysis_ingredients a ++ [added] in
      match _find_cocktail (generator_analyzer self) cocktail_name with
      | None => Raise (TypeError "'NoneType' object is not subscriptable")
      | Some original_cocktail =>
          let modified_measures :=
            measures original_cocktail ++ [mkMeasure (Some amount_ml)] in
          let modified_profiles :=
            map (get_ingredient_profile (generator_profiler self)) modified_ingredients in
          modified_aggregated <- _aggregate_profiles modified_profiles modified_measures ;;
          match modified_aggregated with
          | None => Raise (KeyError "taste_scores")
          | Some agg =>
              Ok (SyntheticDict
                    (mkSynthetic cocktail_name type_ (overall_balance a) (balance_scores a)
                       (_compute_overall_balance (agg_taste_scores agg))
                       (agg_taste_scores agg) modified_ingredients modified_measures
                       expected))
          end
      end
  end.

Definition create_too_sweet := create_broken "simple syrup" "too_sweet" "sweet too high".
Definition create_too_sour := create_broken "lemon juice" "too_sour" "sour too high".
Definition create_too_bitter :=
  create_broken "angostura bitters" "too_bitter" "bitter too high".

Fixpoint take_word (l : list ascii) : list ascii :=
  match l with
  | [] => []
  | c :: l' => if is_space c then [] else c :: take_word l'
  end.

(** [s.split()[0]]. *)
Definition first_word (s : string) : result string :=
  match lstrip (list_ascii_of_string s) with
  | [] => Raise (IndexError "list index out of range")
  | l => Ok (string_of_list_ascii (take_word l))
  end.

Record SyntheticValidator : Type := mkValidator {
  validator_optimizer : FlavorOptimizerV3.t
}.

(** The dictionary returned by [test_can_fix_imbalance]. *)
Inductive fix_test : Type :=
| RecommendationFailed
| NoModificationFound (issue_detected : bool)
| FixTested (issue_detected : bool) (fix_ingredient : string) (fix_amount : R)
            (predicted_new_balance improvement restoration_error : R) (passed : bool).

Definition test_passed (t : fix_test) : bool :=
  match t with
  | FixTested _ _ _ _ _ _ passed => passed
  | _ => false
  end.

Definition test_can_fix_imbalance (self : SyntheticValidator) (synthetic_cocktail : synthetic)
  : result fix_test :=
  let cocktail_name := original_name synthetic_cocktail in
  recs <- FlavorOptimizerV3.recommend_improvements (validator_optimizer self)
            cocktail_name None ;;
  match recs with
  | RecommendError _ => Ok RecommendationFailed
  | ReportDict r =>
      let identified_issues :=
        map (fun issue => dimension_name (imb_dimension issue)) (identified_issues r) in
      expected_dimension <- first_word (expected_issue synthetic_cocktail) ;;
      let issue_detected := str_in expected_dimension identified_issues in
      best_fix <- FlavorOptimizerV3.find_best_modification (validator_optimizer self)
                    cocktail_name 5 ;;
      match best_fix with
      | FlavorOptimizerV3.Best _ _ best _ _ =>
          let predicted_new_balance := FlavorOptimizerV3.new_balance best in
          let improvement := predicted_new_balance - broken_balance synthetic_cocktail in
          let restoration :=
            Rabs (predicted_new_balance - synthetic_original_balance synthetic_cocktail) in
          Ok (FixTested issue_detected (FlavorOptimizerV3.cand_ingredient best)
                (FlavorOptimizerV3.cand_amount best) predicted_new_balance improvement
                restoration
                (issue_detected && Rgtb improvement 0.001 && Rltb restoration 0.05))
      | _ => Ok (NoModificationFound issue_detected)
      end
  end.

(** ** CocktailIQEvaluator: recall *)

Record CocktailIQEvaluator : Type := mkEvaluator {
  evaluator_optimizer : FlavorOptimizer.t;
  evaluator_cocktails : list cocktail
}.

(** [len(a & b)] for the sets of two lists of strings. *)
Definition overlap_size (a b : list string) : nat :=
  length (nodup string_dec (filter (fun x => str_in x b) a)).

(** The recall that the body of the loop of [calculate_recall] appends
    for one cocktail and one [k]. *)
Definition recall_at (ingredients_ : list string) (recs : list recommendation) (k : nat) : R :=
  let actual_ingredients :=
    map lower (filter (fun ing => negb (is_empty ing)) ingredients_) in
  let recommended :=
    map (fun rec => lower (sug_ingredient (rec_suggestion rec))) (firstn k recs) in
  let overlap := overlap_size actual_ingredients recommended in
  match nodup string_dec actual_ingredients with
  | [] => 0.0
  | distinct => INR overlap / INR (length distinct)
  end.

(** The list [results['Recall@k']] once the loop is over. *)
Definition recall_results (self : CocktailIQEvaluator) (k : nat) : list R :=
  flat_map (fun c =>
              if Nat.ltb (length (ingredients c)) 3 then []
              else
                match FlavorOptimizer.recommend_improvements (evaluator_optimizer self)
                        (name c) None with
                | Ok (ReportDict r) =>
                    match recommendations r with
                    | [] => []
                    | recs => [recall_at (ingredients c) recs k]
                    end
                | Ok (RecommendError _) => []
                | Raise _ => []
                end)
           (firstn 50 (evaluator_cocktails self)).

(** [calculate_recall] for one value of [k]. *)
Definition calculate_recall (self : CocktailIQEvaluator) (k : nat) : R :=
  match recall_results self k with
  | [] => 0.0
  | results => np_mean results
  end.

(** ** FlavorOptimizerV4: targets computed from the perfect cocktails *)

Record perfect_cocktail : Type := mkPerfect {
  perfect_balance : R;
  perfect_taste_scores : taste_scores
}.

(** [_compute_ideal_balance]. *)
Definition _compute_ideal_balance (perfect_cocktails : list perfect_cocktail) : R :=
  match perfect_cocktails with
  | [] => 0.98
  | _ =>
      let balances := map perfect_balance perfect_cocktails in
      sum balances / INR (length balances)
  end.

(** [_compute_ideal_taste_distribution]; [None] is the empty dictionary. *)
Definition _compute_ideal_taste_distribution (perfect_cocktails : list perfect_cocktail)
  : option taste_scores :=
  match perfect_cocktails with
  | [] => None
  | _ =>
      let ideal d :=
        let scores := map (fun c => get (perfect_taste_scores c) d) perfect_cocktails in
        sum scores / INR (length scores) in
      Some (mkTaste (ideal sweet) (ideal sour) (ideal bitter) (ideal savory) (ideal aromatic))
  end.

(** * Selection and ranking with their collaborators as arguments

    [find_best_modification] of V3 calls three methods of other objects:
    [self.analyzer.analyze_cocktail], [self.recommend_improvements] and
    [self.modifier.modify_cocktail].  Below they are arguments of the
    function, and so is the subtraction of two floats, [minus]; its text
    is otherwise the one of [FlavorOptimizerV3.find_best_modification]:
    what is proved of it holds for whatever balances the modifier
    reports, those computed in floating point included, for a
    subtraction that rounds, and for whatever exceptions the calls raise,
    the profiler's included. *)

Section Collaborators.

Variable analyze_cocktail_ : string -> result analysis_dict.
Variable recommend_improvements_ : string -> option string -> result recommend_dict.
Variable modify_cocktail_ : string -> list modification -> result modify_dict.
Variable minus : R -> R -> R.

(** The loop over [enumerate(all_recs['recommendations'][:max_candidates])];
    an exception raised by the modifier is swallowed by the [try]. *)
Fixpoint test_candidates_with (cocktail_name : string) (original_balance : R)
    (i : nat) (recs : list recommendation) : list FlavorOptimizerV3.candidate :=
  match recs with
  | [] => []
  | rec :: rest =>
      let modification :=
        [mkModification add (sug_ingredient (rec_suggestion rec))
                        (Some (sug_amount (rec_suggestion rec))) EmptyString] in
      let tested :=
        match modify_cocktail_ cocktail_name modification with
        | Ok (ComparisonDict c) =>
            let new_balance := snap_overall_balance (modified c) in
            [FlavorOptimizerV3.mkCandidate (i + 1) modification
               (sug_ingredient (rec_suggestion rec))
               (sug_amount (rec_suggestion rec)) original_balance new_balance
               (minus new_balance original_balance)]
        | Ok (ModifyError _) => []
        | Raise _ => []
        end in
      tested ++ test_candidates_with cocktail_name original_balance (S i) rest
  end.

Definition find_best_modification_with (cocktail_name : string) (max_candidates : nat)
  : result FlavorOptimizerV3.best_dict :=
  original <- analyze_cocktail_ cocktail_name ;;
  match original with
  | ErrorDict e => Ok (FlavorOptimizerV3.BestError e)
  | AnalysisDict a =>
      let original_balance := overall_balance a in
      all_recs <- recommend_improvements_ cocktail_name None ;;
      match all_recs with
      | RecommendError _ =>
          Ok (FlavorOptimizerV3.NoBest cocktail_name "No recommendations available")
      | ReportDict r =>
          match recommendations r with
          | [] =>
              Ok (FlavorOptimizerV3.NoBest cocktail_name
                    (match message r with
                     | Some m => m
                     | None => "No recommendations available"%string
                     end))
          | recs =>
              match test_candidates_with cocktail_name original_balance 0
                      (firstn max_candidates recs) with
              | [] =>
                  Ok (FlavorOptimizerV3.NoBest cocktail_name
                        "Could not test any modifications")
              | c :: candidates =>
                  Ok (FlavorOptimizerV3.Best cocktail_name original_balance
                        (max_by FlavorOptimizerV3.improvement c candidates)
                        (c :: candidates) (length (c :: candidates)))
              end
          end
      end
  end.

End Collaborators.

(** [rank_recommendations_with_plausibility] with the multiplication of
    the two floats as an argument: the program multiplies in binary64 and
    sorts by the rounded product it has stored in the candidate. *)
Definition rank_with (times : R -> R -> R) (self : FlavorOptimizerV4.t)
    (candidates : list FlavorOptimizerV4.candidate) : list FlavorOptimizerV4.scored :=
  let candidates :=
    map (fun c =>
           let plausibility :=
             FlavorOptimizerV4.get_plausibility_score self
               (FlavorOptimizerV4.cand_ingredient c) in
           FlavorOptimizerV4.mkScored c plausibility
             (times (FlavorOptimizerV4.improvement c) plausibility))
        candidates in
  sorted FlavorOptimizerV4.combined_score true candidates.

(** * Vocabulary of the specification and example data *)

(** ** Taste vectors *)

(** Every entry of the vector lies in [[0,1]]. *)
Definition legal (ts : taste_scores) : Prop :=
  forall d, 0 <= get ts d <= 1.

Definition all_equal (ts : taste_scores) : Prop :=
  forall d d', get ts d = get ts d'.

Definition all_zero (ts : taste_scores) : Prop :=
  forall d, get ts d = 0.

(** The distance of one dimension from the mean of the five. *)
Definition deviation (taste : taste_scores) (d : dimension) : R :=
  Rabs (get taste d - np_mean (values taste)).

Definition zero_taste : taste_scores := mkTaste 0 0 0 0 0.
Definition even_taste : taste_scores := mkTaste 0.5 0.5 0.5 0.5 0.5.
Definition mild_taste : taste_scores := mkTaste 0.65 0.65 0.25 0.25 0.45.
Definition spiky_taste : taste_scores := mkTaste 1 0 0 0 0.
Definition lemon_taste : taste_scores := mkTaste 0.1 1 0.2 0 0.5.
Definition only_sweet : taste_scores := mkTaste 0.9 0 0 0 0.
Definition only_sour : taste_scores := mkTaste 0 0.9 0 0 0.

(** ** The balance scorer and the worked example *)

(** The property of the balance scorer as the specification words it. *)
Definition balance_claim (ts : taste_scores) : Prop :=
  _compute_overall_balance ts = 1 / (1 + np_var (values ts))
  /\ 0 < _compute_overall_balance ts <= 1
  /\ (_compute_overall_balance ts = 1 <-> all_equal ts)
  /\ 0.8 <= _compute_overall_balance ts.

(** The same without the converse of the third part: that only equal
    dimensions score 1 cannot be said of a scorer working in floating
    point, where a variance below 2^-53 is absorbed by [1 + variance]. *)
Definition balance_amended (ts : taste_scores) : Prop :=
  _compute_overall_balance ts = 1 / (1 + np_var (values ts))
  /\ 0 < _compute_overall_balance ts <= 1
  /\ (all_equal ts -> _compute_overall_balance ts = 1)
  /\ 0.8 <= _compute_overall_balance ts.

Definition fifty_ml : measure := mkMeasure (Some 50).

(** What the specification says of an aggregation result in its
    example: the taste vector, its variance, and the balance to three
    decimals. *)
Definition example_claim (r : result (option aggregated_profile)) : Prop :=
  exists agg,
    r = Ok (Some agg)
    /\ agg_taste_scores agg = mkTaste 0.45 0.45 0 0 0
    /\ np_var (values (agg_taste_scores agg)) = 0.081
    /\ Rabs (_compute_overall_balance (agg_taste_scores agg) - 0.925) <= 0.0005.

(** The same with the figures that the code yields. *)
Definition example_amended (r : result (option aggregated_profile)) : Prop :=
  exists agg,
    r = Ok (Some agg)
    /\ agg_taste_scores agg = mkTaste 0.45 0.45 0 0 0
    /\ total_volume agg = 100
    /\ np_var (values (agg_taste_scores agg)) = 0.0486
    /\ _compute_overall_balance (agg_taste_scores agg) = 1 / (1 + 0.0486)
    /\ Rabs (_compute_overall_balance (agg_taste_scores agg) - 0.9537) <= 0.0005.

(** ** Volume weights *)

(** The weights [volume / total_volume] that the aggregation loop uses. *)
Definition weights (profiles : list profile) (measures : list measure) : list R :=
  let '(volumes, total_volume) := effective_volumes profiles measures in
  map (fun v => v / total_volume) volumes.

(** The weighted sum of one taste dimension. *)
Definition weighted (d : dimension) (profiles : list profile) (ws : list R) : R :=
  sum (map (fun pw => get (profile_taste (fst pw)) d * snd pw) (combine profiles ws)).

(** The result is a profile whose taste vector gives every ingredient
    the weight 1/n. *)
Definition uniformly_weighted (profiles : list profile)
    (r : result (option aggregated_profile)) : Prop :=
  exists agg,
    r = Ok (Some agg)
    /\ forall d, get (agg_taste_scores agg) d
                 = weighted d profiles
                     (repeat (1 / INR (length profiles)) (length profiles)).

(** The property of the aggregation as the specification words it. *)
Definition aggregation_claim (profiles : list profile) (measures : list measure) : Prop :=
  let total := sum (volumes_of measures) in
  (0 < total ->
   snd (effective_volumes profiles measures) <> 0
   /\ sum (weights profiles measures) = 1)
  /\ (total = 0 \/ profiles = [] ->
      uniformly_weighted profiles (_aggregate_profiles profiles measures)).

(** ** Imbalance detection *)

(** The loop of [_identify_imbalances] for given upper and lower
    thresholds. *)
Definition auto_detect (hi lo : R) (taste : taste_scores) : list imbalance :=
  flat_map (fun ds =>
              let '(dim, score) := ds in
              if Rgtb score hi then [mkImbalance dim too_high medium (Some score)]
              else if (Rltb score lo && Rltb score 0.3)%bool then
                [mkImbalance dim too_low medium (Some score)]
              else [])
           (items taste).


(** The recognised targets with the dimension and type they force. *)
Definition forced_targets : list (string * (dimension * issue_type)) :=
  [("sweeter", (sweet, too_low)); ("more_sour", (sour, too_low));
   ("less_bitter", (bitter, too_high)); ("more_aromatic", (aromatic, too_low))]%string.

(** ** Recommendations and amounts *)

Definition excellent_message : string :=
  "Cocktail is already excellently balanced! No changes recommended.".


(** The report that carries a message and no recommendation. *)
Definition silent_report (cocktail_name : string) (a : analysis) (msg : string) : report :=
  mkReport cocktail_name (balance_scores a) (overall_balance a) (Some msg) [] [].

(** The step function of the current balance, the severity of the
    imbalance, the amount before clamping and the amount clamped into
    [[5, 30]], as the specification gives them. *)
Definition balance_factor (current_balance : R) : R :=
  if Rgeb current_balance 0.98 then 0
  else if Rgeb current_balance 0.95 then 0.25
  else if Rgeb current_balance 0.90 then 0.5
  else if Rgeb current_balance 0.80 then 0.75
  else 1.

Definition severity_factor (imbalance_magnitude : R) : R :=
  Rmin (imbalance_magnitude / 0.3) 2.

Definition raw_amount (current_balance imbalance_magnitude total_volume : R) : R :=
  total_volume * 0.12 * balance_factor current_balance
  * severity_factor imbalance_magnitude.

Definition clamped_amount (current_balance imbalance_magnitude total_volume : R) : R :=
  Rmax 5 (Rmin (raw_amount current_balance imbalance_magnitude total_volume) 30).

(** The property of the amount as the specification words it: the
    suggested amount of every produced recommendation is the clamped
    product itself. *)
Definition amount_claim (a : analysis) (r : report) : Prop :=
  forall rec,
    In rec (recommendations r) ->
    exists imb,
      In imb (identified_issues r)
      /\ sug_amount (rec_suggestion rec)
         = clamped_amount (overall_balance a)
             (deviation (balance_scores a) (imb_dimension imb))
             (total_volume (aggregated a)).

(** ** Selection *)

(** [b] is the first element of [l] with the greatest key: everything
    before it has a smaller key, nothing after it a greater one. *)
Definition first_max {A : Type} (key : A -> R) (l : list A) (b : A) : Prop :=
  exists l1 l2,
    l = l1 ++ b :: l2
    /\ Forall (fun x => key x < key b) l1
    /\ Forall (fun x => key x <= key b) l2.

(** ** A one-cocktail database

    The cocktail "House" holds [v] ml of one ingredient, the house
    blend, whose profile has the given taste vector. *)
Definition house_profiler (taste : taste_scores) : MolecularProfiler :=
  mkProfiler (fun ing => if String.eqb ing "house blend"
                         then Some (mkProfile ing 3 taste 150) else None).

Definition house_analyzer (taste : taste_scores) (v : R) : CocktailAnalyzer :=
  mkAnalyzer (house_profiler taste)
    [mkCocktail "House" "Cocktail" ["house blend"%string] [mkMeasure (Some v)]].

Definition house_modifier (taste : taste_scores) (v : R) : CocktailModifier :=
  mkModifier (house_profiler taste) (house_analyzer taste v).

(** The analysis of "House". *)
Definition house_analysis (taste : taste_scores) (v : R) : analysis :=
  mkAnalysis "House" "Cocktail" 1 ["house blend"%string]
    [mkProfile "house blend" 3 taste 150]
    (mkAggregated taste ((0 + 150 * v) / (0 + v)) (0 + v))
    taste (_compute_overall_balance taste).

(** An optimizer's profiler that knows lemon juice, and a modifier's
    profiler that knows the house blend as well. *)
Definition citrus_profiler : MolecularProfiler :=
  mkProfiler (fun ing => if String.eqb ing "lemon juice"
                         then Some (mkProfile ing 5 lemon_taste 120) else None).

Definition bar_profiler : MolecularProfiler :=
  mkProfiler (fun ing => if String.eqb ing "house blend"
                         then Some (mkProfile ing 3 spiky_taste 150)
                         else if String.eqb ing "lemon juice"
                         then Some (mkProfile ing 5 lemon_taste 120) else None).

(** 101 ml of an only-sweet house blend: the cocktail that receives a
    recommendation in the examples. *)
Definition spiky_analysis : analysis := house_analysis spiky_taste 101.

Definition spiky_issue : imbalance := mkImbalance sweet too_high medium (Some 1).

Definition spiky_report (amount : R) : report :=
  mkReport "house" spiky_taste (_compute_overall_balance spiky_taste) None
    [spiky_issue]
    [mkRecommendation "sweet is too high"
       (mkSuggestion add "lemon juice" amount lemon_taste)].

Definition spiky_v3 : FlavorOptimizerV3.t :=
  FlavorOptimizerV3.mk citrus_profiler (house_analyzer spiky_taste 101)
    (mkModifier bar_profiler (house_analyzer spiky_taste 101)).

(** Every aromatic molecule that records a molecular weight records a
    positive one. *)
Definition positive_aromatic_weights (molecules : list molecule) : Prop :=
  forall mol w, In mol molecules -> is_aromatic mol = true ->
                mol_molecular_weight mol = Some w -> 0 < w.

(** The lookup of a profiler that an optimizer of V2 or V3 has patched:
    direct lookup, then the keyword table, then the optimizer's own
    fallback table. *)
Definition patched_lookup (table : list (string * list string)) (loader : FlavorLoader)
    (ingredient_name : string) : list molecule :=
  get_molecules_for_ingredient loader
    (enhanced_fuzzy_match table loader (_fuzzy_match_ingredient loader)) ingredient_name.

(** Every cached profile is the one [get_ingredient_profile] builds for
    its key. *)
Definition cache_consistent (loader : FlavorLoader) (fuzzy : string -> list molecule)
    (cache : profile_cache) : Prop :=
  forall ingredient_ p,
    cache_lookup ingredient_ cache = Some p ->
    build_profile loader fuzzy ingredient_ = Ok (Some p).

(** A one-source flavour database, for examples. *)
Definition lime_molecule : molecule := mkMolecule None None (Some 136) false false.
Definition lime_loader : FlavorLoader :=
  mkLoader (fun s => if String.eqb s "lime" then [lime_molecule] else []).

(** The working lists of [modify_cocktail] pair up: one measure with a
    ['value'] for every ingredient. *)
Definition paired (state : list string * list measure) : Prop :=
  length (fst state) = length (snd state)
  /\ Forall (fun m => value m <> None) (snd state).

Definition nonneg_volumes (measures : list measure) : Prop :=
  Forall (fun m => forall v, value m = Some v -> 0 <= v) measures.

Definition nonneg_amount (m : modification) : Prop :=
  forall a, mod_amount m = Some a -> 0 <= a.

(** The taste vector of a volume-weighted average, one dimension at a
    time. *)
Definition weighted_taste (profiles : list profile) (volumes : list R) (total : R)
  : taste_scores :=
  mkTaste (weighted sweet profiles volumes / total)
          (weighted sour profiles volumes / total)
          (weighted bitter profiles volumes / total)
          (weighted savory profiles volumes / total)
          (weighted aromatic profiles volumes / total).

(** The molecular-weight average of [_aggregate_profiles]. *)
Definition mw_average (profiles : list profile) (volumes : list R) : result R :=
  np_average
    (map avg_molecular_weight (filter has_molecules profiles))
    (map snd (filter (fun pv => has_molecules (fst pv)) (combine profiles volumes))).

Definition scale_taste (c : R) (ts : taste_scores) : taste_scores :=
  mkTaste (c * t_sweet ts) (c * t_sour ts) (c * t_bitter ts) (c * t_savory ts)
          (c * t_aromatic ts).

(** A balance score is 0 (no taste at all) or lies in [[0.8, 1]]. *)
Definition balance_in_range (b : R) : Prop := b = 0 \/ 0.8 <= b <= 1.

(** Every profile a profiler hands out has its taste scores in
    [[0,1]], as the profiles built from the molecule table have. *)
Definition legal_profiler (self : MolecularProfiler) : Prop :=
  forall ing p, built_profile self ing = Some p -> legal (profile_taste p).

(** Every cocktail of the database pairs one measure holding a
    non-negative value with each ingredient. *)
Definition well_formed_cocktail (c : cocktail) : Prop :=
  paired (ingredients c, measures c) /\ nonneg_volumes (measures c).

(** A recommendation for the named cocktail adds an ingredient that the
    cocktail does not contain under any letter case and for which the
    profiler has molecular data. *)
Definition new_ingredient (an : CocktailAnalyzer) (prof : MolecularProfiler)
    (cocktail_name_ : string) (rec : recommendation) : Prop :=
  exists ck,
    _find_cocktail an cocktail_name_ = Some ck
    /\ sug_action (rec_suggestion rec) = add
    /\ ~ In (lower (sug_ingredient (rec_suggestion rec))) (map lower (ingredients ck))
    /\ exists p, built_profile prof (sug_ingredient (rec_suggestion rec)) = Some p
                 /\ (0 < num_molecules p)%nat.

(** The candidate dictionaries of V4 with the two keys that ranking
    adds, in the order of the input. *)
Definition scored_candidates (self : FlavorOptimizerV4.t)
    (candidates : list FlavorOptimizerV4.candidate) : list FlavorOptimizerV4.scored :=
  map (fun c =>
         FlavorOptimizerV4.mkScored c
           (FlavorOptimizerV4.get_plausibility_score self (FlavorOptimizerV4.cand_ingredient c))
           (FlavorOptimizerV4.improvement c
            * FlavorOptimizerV4.get_plausibility_score self
                (FlavorOptimizerV4.cand_ingredient c)))
      candidates.

(** The candidate dictionaries of V4 with the two keys that ranking
    adds, for a given multiplication, in the order of the input. *)
Definition scored_candidates_with (times : R -> R -> R) (self : FlavorOptimizerV4.t)
    (candidates : list FlavorOptimizerV4.candidate) : list FlavorOptimizerV4.scored :=
  map (fun c =>
         FlavorOptimizerV4.mkScored c
           (FlavorOptimizerV4.get_plausibility_score self (FlavorOptimizerV4.cand_ingredient c))
           (times (FlavorOptimizerV4.improvement c)
              (FlavorOptimizerV4.get_plausibility_score self
                 (FlavorOptimizerV4.cand_ingredient c))))
      candidates.

(** ** A tasting session: four recommendations, one of which the
    modifier cannot evaluate, and two of which improve the balance
    equally *)

Definition tasting_recommendation (ing : string) : recommendation :=
  mkRecommendation "sweet is too high" (mkSuggestion add ing 18.2 lemon_taste).

Definition tasting_report : report :=
  mkReport "house" spiky_taste (_compute_overall_balance spiky_taste) None
    [spiky_issue]
    (map tasting_recommendation
       ["lemon juice"; "lime juice"; "vinegar"; "grapefruit juice"]%string).

Definition tasting_analyzer (cocktail_name_ : string) : result analysis_dict :=
  Ok (AnalysisDict spiky_analysis).

Definition tasting_recommender (cocktail_name_ : string) (target : option string)
  : result recommend_dict :=
  Ok (ReportDict tasting_report).

(** The modifier reports a balance of 0.88 with lemon juice and of 0.91
    with lime juice and with grapefruit juice; it raises on vinegar. *)
Definition tasting_modifier (cocktail_name_ : string) (mods : list modification)
  : result modify_dict :=
  let reply (new_balance : R) :=
    Ok (ComparisonDict
          (mkComparison
             (mkSnapshot ["house blend"%string] spiky_taste
                (_compute_overall_balance spiky_taste))
             (mkSnapshot (["house blend"%string] ++ map mod_ingredient mods) mild_taste
                new_balance)
             mods (new_balance - _compute_overall_balance spiky_taste)
             (Rgtb (new_balance - _compute_overall_balance spiky_taste) 0))) in
  match map mod_ingredient mods with
  | [ing] =>
      if String.eqb ing "lemon juice" then reply 0.88
      else if String.eqb ing "lime juice" then reply 0.91
      else if String.eqb ing "grapefruit juice" then reply 0.91
      else Raise (ZeroDivisionError "float division by zero")
  | _ => Ok (ModifyError "Cocktail 'house' not found")
  end.

Definition tasting_candidate (rank_ : nat) (ing : string) (new_balance_ : R)
  : FlavorOptimizerV3.candidate :=
  FlavorOptimizerV3.mkCandidate rank_
    [mkModification add ing (Some 18.2) EmptyString] ing 18.2
    (overall_balance spiky_analysis) new_balance_
    (new_balance_ - overall_balance spiky_analysis).

Definition tasting_candidates : list FlavorOptimizerV3.candidate :=
  [tasting_candidate 1 "lemon juice" 0.88; tasting_candidate 2 "lime juice" 0.91;
   tasting_candidate 4 "grapefruit juice" 0.91].

(** ** A three-part cocktail for the recall evaluation

    "Trio" mixes 40, 30 and 31 ml of three only-sweet ingredients, so
    that its taste vector is (1, 0, 0, 0, 0); the database also holds
    "House", which has a single ingredient. *)
Definition trio_profiler : MolecularProfiler :=
  mkProfiler (fun ing => if str_in ing ["house blend"; "cane syrup"; "honey water"]%string
                         then Some (mkProfile ing 3 spiky_taste 150)
                         else if String.eqb ing "lemon juice"
                         then Some (mkProfile ing 5 lemon_taste 120) else None).

Definition trio_cocktail : cocktail :=
  mkCocktail "Trio" "Cocktail" ["house blend"; "cane syrup"; "honey water"]%string
    [mkMeasure (Some 40); mkMeasure (Some 30); mkMeasure (Some 31)].

Definition trio_analyzer : CocktailAnalyzer :=
  mkAnalyzer trio_profiler
    [mkCocktail "House" "Cocktail" ["house blend"%string] [mkMeasure (Some 101)];
     trio_cocktail].

Definition trio_evaluator : CocktailIQEvaluator :=
  mkEvaluator
    (FlavorOptimizer.mk trio_profiler trio_analyzer (mkModifier trio_profiler trio_analyzer)
       ["lemon juice"%string])
    (cocktails trio_analyzer).

Definition trio_recommendation : recommendation :=
  mkRecommendation "sweet is too high" (mkSuggestion add "lemon juice" 15 lemon_taste).

(** * Properties *)

(** ** Arithmetic of the five taste values *)

Lemma Reqb_true (x y : R) : Reqb x y = true <-> x = y.
Proof. unfold Reqb; destruct (Req_dec_T x y); split; intros; congruence. Qed.

Lemma Reqb_false (x y : R) : Reqb x y = false <-> x <> y.
Proof. unfold Reqb; destruct (Req_dec_T x y); split; intros; congruence. Qed.

Lemma Rltb_true (x y : R) : Rltb x y = true <-> x < y.
Proof. unfold Rltb; destruct (Rlt_dec x y); split; intros; (congruence || tauto). Qed.

Lemma Rgtb_true (x y : R) : Rgtb x y = true <-> x > y.
Proof. unfold Rgtb; destruct (Rgt_dec x y); split; intros; (congruence || tauto). Qed.

Lemma Rgeb_true (x y : R) : Rgeb x y = true <-> x >= y.
Proof. unfold Rgeb; destruct (Rge_dec x y); split; intros; (congruence || tauto). Qed.

Lemma Rltb_false (x y : R) : Rltb x y = false <-> y <= x.
Proof.
  unfold Rltb; destruct (Rlt_dec x y); split; intros; try congruence; lra.
Qed.

Lemma Rgtb_false (x y : R) : Rgtb x y = false <-> x <= y.
Proof.
  unfold Rgtb; destruct (Rgt_dec x y); split; intros; try congruence; lra.
Qed.

Lemma Rgeb_false (x y : R) : Rgeb x y = false <-> x < y.
Proof.
  unfold Rgeb; destruct (Rge_dec x y); split; intros; try congruence; lra.
Qed.

(** Decide every float comparison of the goal from the context. *)
Ltac decide_cmp :=
  repeat match goal with
    | |- context [Reqb ?x ?y] =>
        first [ replace (Reqb x y) with true by (symmetry; apply Reqb_true; lra)
              | replace (Reqb x y) with false by (symmetry; apply Reqb_false; lra) ]
    | |- context [Rltb ?x ?y] =>
        first [ replace (Rltb x y) with true by (symmetry; apply Rltb_true; lra)
              | replace (Rltb x y) with false by (symmetry; apply Rltb_false; lra) ]
    | |- context [Rgtb ?x ?y] =>
        first [ replace (Rgtb x y) with true by (symmetry; apply Rgtb_true; lra)
              | replace (Rgtb x y) with false by (symmetry; apply Rgtb_false; lra) ]
    | |- context [Rgeb ?x ?y] =>
        first [ replace (Rgeb x y) with true by (symmetry; apply Rgeb_true; lra)
              | replace (Rgeb x y) with false by (symmetry; apply Rgeb_false; lra) ]
    end.

Lemma sum_from (l : list R) (acc : R) : fold_left Rplus l acc = acc + sum l.
Proof.
  unfold sum; revert acc; induction l as [|x l IH]; intros acc; simpl.
  - lra.
  - rewrite IH, (IH (0 + x)); lra.
Qed.

Lemma sum_cons (x : R) (l : list R) : sum (x :: l) = x + sum l.
Proof. unfold sum at 1; simpl; rewrite sum_from; lra. Qed.

Lemma sum_nil : sum [] = 0.
Proof. reflexivity. Qed.

Lemma mean_values (ts : taste_scores) :
  np_mean (values ts)
  = (t_sweet ts + t_sour ts + t_bitter ts + t_savory ts + t_aromatic ts) / 5.
Proof.
  unfold np_mean, values; simpl map.
  rewrite !sum_cons, sum_nil; simpl; lra.
Qed.

Lemma var_values (ts : taste_scores) :
  let m := np_mean (values ts) in
  np_var (values ts)
  = ((t_sweet ts - m) * (t_sweet ts - m) + (t_sour ts - m) * (t_sour ts - m)
     + (t_bitter ts - m) * (t_bitter ts - m) + (t_savory ts - m) * (t_savory ts - m)
     + (t_aromatic ts - m) * (t_aromatic ts - m)) / 5.
Proof.
  intros m; unfold np_var; fold m.
  unfold np_mean at 1, values; simpl map.
  rewrite !sum_cons, sum_nil; simpl; lra.
Qed.

Lemma var_nonneg (ts : taste_scores) : 0 <= np_var (values ts).
Proof.
  rewrite var_values; cbv zeta.
  generalize (np_mean (values ts)); intros m.
  pose proof (Rle_0_sqr (t_sweet ts - m)); pose proof (Rle_0_sqr (t_sour ts - m));
    pose proof (Rle_0_sqr (t_bitter ts - m)); pose proof (Rle_0_sqr (t_savory ts - m));
    pose proof (Rle_0_sqr (t_aromatic ts - m)).
  unfold Rsqr in *; lra.
Qed.

Lemma var_zero_iff (ts : taste_scores) : np_var (values ts) = 0 <-> all_equal ts.
Proof.
  rewrite var_values; cbv zeta; rewrite mean_values.
  destruct ts as [a b c d e]; unfold all_equal; simpl; split.
  - set (m := (a + b + c + d + e) / 5); intros H.
    pose proof (Rle_0_sqr (a - m)); pose proof (Rle_0_sqr (b - m));
      pose proof (Rle_0_sqr (c - m)); pose proof (Rle_0_sqr (d - m));
      pose proof (Rle_0_sqr (e - m)); unfold Rsqr in *.
    assert (Ha : (a - m) * (a - m) = 0) by lra.
    assert (Hb : (b - m) * (b - m) = 0) by lra.
    assert (Hc : (c - m) * (c - m) = 0) by lra.
    assert (Hd : (d - m) * (d - m) = 0) by lra.
    assert (He : (e - m) * (e - m) = 0) by lra.
    apply Rsqr_0_uniq in Ha, Hb, Hc, Hd, He.
    intros [] []; simpl; lra.
  - intros H.
    pose proof (H sweet sour); pose proof (H sweet bitter);
      pose proof (H sweet savory); pose proof (H sweet aromatic); simpl in *.
    subst b c d e. replace ((a + a + a + a + a) / 5) with a by lra. lra.
Qed.

Lemma var_le_quarter (ts : taste_scores) : legal ts -> np_var (values ts) <= 1 / 4.
Proof.
  intros H.
  pose proof (H sweet); pose proof (H sour); pose proof (H bitter);
    pose proof (H savory); pose proof (H aromatic).
  rewrite var_values; cbv zeta; rewrite mean_values.
  destruct ts as [a b c d e]; simpl in *.
  set (m := (a + b + c + d + e) / 5).
  assert (Hm : a + b + c + d + e = 5 * m) by (unfold m; lra).
  clearbody m.
  assert (a * a <= a) by nra. assert (b * b <= b) by nra.
  assert (c * c <= c) by nra. assert (d * d <= d) by nra.
  assert (e * e <= e) by nra.
  assert (Hsq : (a - m) * (a - m) + (b - m) * (b - m) + (c - m) * (c - m)
                + (d - m) * (d - m) + (e - m) * (e - m)
                = a * a + b * b + c * c + d * d + e * e
                  - 2 * m * (a + b + c + d + e) + 5 * (m * m)) by ring.
  rewrite Hm in Hsq.
  pose proof (Rle_0_sqr (m - 1 / 2)) as Hq; unfold Rsqr in Hq.
  lra.
Qed.

Lemma balance_zero (ts : taste_scores) :
  all_zero ts -> _compute_overall_balance ts = 0.
Proof.
  intros H.
  pose proof (H sweet); pose proof (H sour); pose proof (H bitter);
    pose proof (H savory); pose proof (H aromatic).
  destruct ts as [a b c d e]; simpl in *; subst.
  unfold _compute_overall_balance, values; simpl.
  decide_cmp; reflexivity.
Qed.

Lemma balance_nonzero (ts : taste_scores) :
  ~ all_zero ts -> _compute_overall_balance ts = 1 / (1 + np_var (values ts)).
Proof.
  intros H; unfold _compute_overall_balance.
  destruct (forallb (fun s => Reqb s 0) (values ts)) eqn:E.
  - exfalso; apply H; intros d.
    rewrite forallb_forall in E. apply Reqb_true, E.
    unfold values; apply in_map; destruct d; simpl; tauto.
  - reflexivity.
Qed.

(** ** The Python primitives on small inputs *)

Example lower_mixed_case : lower "Mai Tai" = "mai tai"%string.
Proof. reflexivity. Qed.

Example strip_spaces : strip "  dark rum " = "dark rum"%string.
Proof. reflexivity. Qed.

Example contains_substring :
  contains "rum" "dark rum" = true /\ contains "gin" "dark rum" = false.
Proof. split; reflexivity. Qed.

Example index_of_second : list_index "lime" ["gin"; "lime"; "lime"]%string = 1%nat.
Proof. reflexivity. Qed.

Example pop_middle : pop 1 [10; 20; 30] = Ok [10; 30].
Proof. reflexivity. Qed.

Example pop_out_of_range :
  pop 3 [10; 20; 30] = Raise (IndexError "pop index out of range").
Proof. reflexivity. Qed.

(** A descending sort keeps the original order of equal keys. *)
Example sorted_descending_is_stable :
  sorted snd true [("a", 1); ("b", 3); ("c", 3); ("d", 2)]%string
  = [("b", 3); ("c", 3); ("d", 2); ("a", 1)]%string.
Proof. repeat (cbn; decide_cmp); reflexivity. Qed.

Example sorted_ascending_is_stable :
  sorted snd false [("a", 2); ("b", 1); ("c", 2); ("d", 1)]%string
  = [("b", 1); ("d", 1); ("a", 2); ("c", 2)]%string.
Proof. repeat (cbn; decide_cmp); reflexivity. Qed.

(** [max] returns the first of several greatest elements. *)
Example max_by_takes_first :
  max_by snd ("a", 1)%string [("b", 3); ("c", 3); ("d", 2)]%string = ("b", 3)%string.
Proof. repeat (cbn; decide_cmp); reflexivity. Qed.

Example mean_var_std_of_example :
  np_mean [1; 0; 0; 0; 0] = 0.2 /\ np_var [1; 0; 0; 0; 0] = 0.16
  /\ np_std [1; 0; 0; 0; 0] = 0.4.
Proof.
  assert (Hm : np_mean [1; 0; 0; 0; 0] = 0.2)
    by (unfold np_mean; rewrite !sum_cons, sum_nil; simpl; lra).
  assert (Hv : np_var [1; 0; 0; 0; 0] = 0.16).
  { unfold np_var; rewrite Hm; unfold np_mean; simpl map.
    rewrite !sum_cons, sum_nil; simpl; lra. }
  repeat split; try assumption.
  unfold np_std; rewrite Hv; apply sqrt_lem_1; lra.
Qed.

Example average_of_empty_raises :
  np_average [] [] = Raise (ZeroDivisionError "Weights sum to zero, can't be normalized").
Proof. unfold np_average, sum; simpl; decide_cmp; reflexivity. Qed.

(** ** The balance scorer *)

Lemma legal_zero_taste : legal zero_taste.
Proof. intros []; simpl; lra. Qed.

(** C1, counterexample: the all-zero vector is legal and its five entries
    are equal, yet the scorer returns 0.0 for it: not 1/(1+variance),
    which is 1, not a value of (0,1], and below 0.8. *)
Lemma balance_claim_fails_on_zero_vector :
  legal zero_taste /\ all_equal zero_taste
  /\ _compute_overall_balance zero_taste = 0
  /\ 1 / (1 + np_var (values zero_taste)) = 1
  /\ ~ balance_claim zero_taste.
Proof.
  assert (Hz : _compute_overall_balance zero_taste = 0)
    by (apply balance_zero; intros []; reflexivity).
  split; [exact legal_zero_taste|].
  split; [intros [] []; reflexivity|].
  split; [exact Hz|].
  split.
  - assert (Hv : np_var (values zero_taste) = 0)
      by (apply var_zero_iff; intros [] []; reflexivity).
    rewrite Hv; lra.
  - intros (_ & Hpos & _); rewrite Hz in Hpos; lra.
Qed.

(** C1, amended: for every legal taste vector that is not all zero, the
    balance scorer returns 1/(1 + variance); the result lies in (0,1],
    is 1 when the five dimensions are equal, and is at least 0.8.  For
    the all-zero vector the scorer returns 0.0. *)
Theorem balance_of_legal_vector (ts : taste_scores) :
  legal ts ->
  (all_zero ts -> _compute_overall_balance ts = 0)
  /\ (~ all_zero ts -> balance_amended ts).
Proof.
  intros Hlegal; split; [apply balance_zero|]; intros Hnz.
  pose proof (var_nonneg ts) as Hv0.
  pose proof (var_le_quarter ts Hlegal) as Hv1.
  unfold balance_amended; rewrite (balance_nonzero ts Hnz).
  split; [reflexivity|].
  split; [|split].
  - set (v := np_var (values ts)) in *.
    assert (Hinv : 0 < / (1 + v)) by (apply Rinv_0_lt_compat; lra).
    assert (Hmul : (1 + v) * / (1 + v) = 1) by (apply Rinv_r; lra).
    unfold Rdiv; rewrite Rmult_1_l. split; [exact Hinv | nra].
  - intros Heq. apply var_zero_iff in Heq. rewrite Heq.
    replace (1 + 0) with 1 by lra. unfold Rdiv; rewrite Rinv_1; lra.
  - set (v := np_var (values ts)) in *.
    assert (Hinv : 0 < / (1 + v)) by (apply Rinv_0_lt_compat; lra).
    assert (Hmul : (1 + v) * / (1 + v) = 1) by (apply Rinv_r; lra).
    unfold Rdiv; rewrite Rmult_1_l. nra.
Qed.

Lemma balance_of_legal_vector_witness :
  balance_amended (mkTaste 0.45 0.45 0 0 0).
Proof.
  apply (balance_of_legal_vector (mkTaste 0.45 0.45 0 0 0)).
  - intros []; simpl; lra.
  - intros H; specialize (H sweet); simpl in H; lra.
Defined.

(** ** The worked example of the specification *)

Lemma example_aggregation (ingA ingB : string) (nA nB : nat) (mwA mwB : R) :
  _aggregate_profiles
    [mkProfile ingA (S nA) only_sweet mwA; mkProfile ingB (S nB) only_sour mwB]
    [fifty_ml; fifty_ml]
  = Ok (Some (mkAggregated
                (mkTaste (0 + 0.9 * (50 / (0 + 50 + 50)) + 0 * (50 / (0 + 50 + 50)))
                         (0 + 0 * (50 / (0 + 50 + 50)) + 0.9 * (50 / (0 + 50 + 50)))
                         (0 + 0 * (50 / (0 + 50 + 50)) + 0 * (50 / (0 + 50 + 50)))
                         (0 + 0 * (50 / (0 + 50 + 50)) + 0 * (50 / (0 + 50 + 50)))
                         (0 + 0 * (50 / (0 + 50 + 50)) + 0 * (50 / (0 + 50 + 50))))
                ((0 + mwA * 50 + mwB * 50) / (0 + 50 + 50))
                (0 + 50 + 50))).
Proof.
  unfold _aggregate_profiles, effective_volumes, fifty_ml, sum; simpl.
  decide_cmp; simpl.
  unfold truediv; decide_cmp; simpl.
  unfold np_average, sum; simpl; decide_cmp.
  reflexivity.
Qed.

Lemma example_taste_eq (a b c d e : R) :
  a = 0.45 -> b = 0.45 -> c = 0 -> d = 0 -> e = 0 ->
  mkTaste a b c d e = mkTaste 0.45 0.45 0 0 0.
Proof. intros; subst; reflexivity. Qed.

Lemma example_variance : np_var (values (mkTaste 0.45 0.45 0 0 0)) = 0.0486.
Proof. rewrite var_values; cbv zeta; rewrite mean_values; simpl; lra. Qed.

Lemma example_balance :
  _compute_overall_balance (mkTaste 0.45 0.45 0 0 0) = 1 / (1 + 0.0486).
Proof.
  rewrite balance_nonzero, example_variance; [reflexivity|].
  intros H; specialize (H sweet); simpl in H; lra.
Qed.

(** C2, amended: for two ingredients at 50 ml each, one with taste
    vector (sweet=0.9, others=0) and one with (sour=0.9, others=0),
    aggregation produces the taste vector (0.45, 0.45, 0, 0, 0); the
    variance of those five values is 0.0486 and the overall balance is
    1/(1+0.0486), about 0.9537. *)
Theorem example_aggregation_and_balance (ingA ingB : string) (nA nB : nat) (mwA mwB : R) :
  example_amended
    (_aggregate_profiles
       [mkProfile ingA (S nA) only_sweet mwA; mkProfile ingB (S nB) only_sour mwB]
       [fifty_ml; fifty_ml]).
Proof.
  eexists; split; [apply example_aggregation|]; simpl.
  assert (Ht : mkTaste (0 + 0.9 * (50 / (0 + 50 + 50)) + 0 * (50 / (0 + 50 + 50)))
                       (0 + 0 * (50 / (0 + 50 + 50)) + 0.9 * (50 / (0 + 50 + 50)))
                       (0 + 0 * (50 / (0 + 50 + 50)) + 0 * (50 / (0 + 50 + 50)))
                       (0 + 0 * (50 / (0 + 50 + 50)) + 0 * (50 / (0 + 50 + 50)))
                       (0 + 0 * (50 / (0 + 50 + 50)) + 0 * (50 / (0 + 50 + 50)))
               = mkTaste 0.45 0.45 0 0 0)
    by (apply example_taste_eq; lra).
  rewrite Ht, example_variance, example_balance.
  repeat split; try lra.
  unfold Rabs; destruct (Rcase_abs _); lra.
Qed.

(** C2, counterexample: on the example input the variance of the
    aggregated vector is 0.0486, not 0.081, and the balance is
    1/1.0486 > 0.95, not within 0.0005 of 0.925. *)
Lemma example_claim_fails :
  np_var (values (mkTaste 0.45 0.45 0 0 0)) = 0.0486
  /\ 0.95 < _compute_overall_balance (mkTaste 0.45 0.45 0 0 0)
  /\ ~ example_claim
        (_aggregate_profiles
           [mkProfile "A" 1 only_sweet 0; mkProfile "B" 1 only_sour 0]
           [fifty_ml; fifty_ml]).
Proof.
  split; [exact example_variance|].
  split; [rewrite example_balance; lra|].
  intros (agg & Hagg & Ht & Hv & _).
  rewrite Ht, example_variance in Hv; lra.
Qed.

(** ** Volume weights of the aggregation *)

Lemma sum_repeat (x : R) (n : nat) : sum (repeat x n) = INR n * x.
Proof.
  induction n as [|n IH].
  - simpl; rewrite sum_nil; lra.
  - change (repeat x (S n)) with (x :: repeat x n).
    rewrite sum_cons, IH, S_INR; lra.
Qed.

Lemma sum_scaled (l : list R) (t : R) : sum (map (fun v => v / t) l) = sum l / t.
Proof.
  induction l as [|x l IH]; simpl.
  - rewrite sum_nil; lra.
  - rewrite !sum_cons, IH; lra.
Qed.

Lemma map_repeat {A B : Type} (f : A -> B) (x : A) (n : nat) :
  map f (repeat x n) = repeat (f x) n.
Proof. induction n as [|n IH]; simpl; [reflexivity | now rewrite IH]. Qed.

Lemma effective_volumes_zero (profiles : list profile) (measures : list measure) :
  sum (volumes_of measures) = 0 ->
  effective_volumes profiles measures
  = (repeat 1 (length profiles), INR (length profiles)).
Proof.
  intros H; unfold effective_volumes; fold (volumes_of measures).
  rewrite H; decide_cmp; reflexivity.
Qed.

Lemma effective_volumes_nonzero (profiles : list profile) (measures : list measure) :
  sum (volumes_of measures) <> 0 ->
  effective_volumes profiles measures
  = (volumes_of measures, sum (volumes_of measures)).
Proof.
  intros H; unfold effective_volumes; fold (volumes_of measures).
  apply Reqb_false in H; rewrite H; reflexivity.
Qed.

(** The divisor of the weights is never zero for a non-empty profile
    list. *)
Lemma effective_total_nonzero (profiles : list profile) (measures : list measure) :
  profiles <> [] -> snd (effective_volumes profiles measures) <> 0.
Proof.
  intros Hne.
  destruct (Req_dec_T (sum (volumes_of measures)) 0) as [H|H].
  - rewrite effective_volumes_zero by exact H; simpl.
    destruct profiles as [|p ps]; [congruence|].
    apply not_0_INR; simpl; lia.
  - rewrite effective_volumes_nonzero by exact H; exact H.
Qed.

Lemma get_accumulate (w : R) (p : profile) (acc : taste_scores) (d : dimension) :
  get (accumulate w p acc) d = get acc d + get (profile_taste p) d * w.
Proof. destruct d; reflexivity. Qed.

Lemma aggregate_taste_ok (total : R) (profiles : list profile) :
  total <> 0 ->
  forall (volumes : list R) (acc : taste_scores),
  exists taste,
    aggregate_taste (combine profiles volumes) total acc = Ok taste
    /\ forall d, get taste d
                 = get acc d + weighted d profiles (map (fun v => v / total) volumes).
Proof.
  intros Ht; induction profiles as [|p ps IH]; intros volumes acc.
  - exists acc; split; [reflexivity|].
    intros d; unfold weighted; simpl; rewrite sum_nil; lra.
  - destruct volumes as [|v vs].
    + exists acc; split; [reflexivity|].
      intros d; unfold weighted; simpl; rewrite sum_nil; lra.
    + simpl; unfold truediv.
      apply Reqb_false in Ht; rewrite Ht; simpl.
      destruct (IH vs (accumulate (v / total) p acc)) as (taste & Hagg & Hget).
      exists taste; split; [exact Hagg|].
      intros d; rewrite Hget, get_accumulate.
      unfold weighted; simpl; rewrite sum_cons; lra.
Qed.

(** C9, counterexample: with no ingredient the aggregation does not fall
    back to uniform weighting; its guard returns the empty dictionary,
    which holds no taste vector at all. *)
Lemma aggregation_claim_fails_without_ingredients :
  _aggregate_profiles [] [] = Ok None /\ ~ aggregation_claim [] [].
Proof.
  split; [reflexivity|].
  intros [_ H].
  destruct H as (agg & Hagg & _); [right; reflexivity|].
  discriminate Hagg.
Qed.

(** C9, amended: with no ingredient the aggregation returns the empty
    dictionary and computes no weight.  For every non-empty list of
    ingredient profiles the divisor of the weights is non-zero and the
    weights sum to 1; they are volume_i / total_volume when the total
    volume is positive and uniformly 1/n when it is 0; the weighted taste
    sum is computed without dividing by zero. *)
Theorem aggregation_weights (profiles : list profile) (measures : list measure) :
  match profiles with
  | [] => _aggregate_profiles profiles measures = Ok None
  | _ =>
      let total := sum (volumes_of measures) in
      let n := length profiles in
      snd (effective_volumes profiles measures) <> 0
      /\ sum (weights profiles measures) = 1
      /\ (0 < total ->
          weights profiles measures = map (fun v => v / total) (volumes_of measures))
      /\ (total = 0 -> weights profiles measures = repeat (1 / INR n) n)
      /\ (length measures = n -> length (weights profiles measures) = n)
      /\ exists taste,
          aggregate_taste (combine profiles (fst (effective_volumes profiles measures)))
                          (snd (effective_volumes profiles measures)) zero_taste
          = Ok taste
          /\ forall d, get taste d = weighted d profiles (weights profiles measures)
  end.
Proof.
  destruct profiles as [|p ps]; [reflexivity|].
  set (profiles := p :: ps).
  assert (Hne : profiles <> []) by discriminate.
  assert (Hn : INR (length profiles) <> 0) by (apply not_0_INR; simpl; lia).
  cbv zeta.
  split; [apply effective_total_nonzero; exact Hne|].
  destruct (Req_dec_T (sum (volumes_of measures)) 0) as [H0|H0].
  - assert (Hw : weights profiles measures
                 = repeat (1 / INR (length profiles)) (length profiles)).
    { unfold weights; rewrite effective_volumes_zero by exact H0.
      simpl; rewrite map_repeat; reflexivity. }
    split; [rewrite Hw, sum_repeat; field; exact Hn|].
    split; [intros Hpos; lra|].
    split; [intros _; exact Hw|].
    split; [intros _; rewrite Hw; apply repeat_length|].
    rewrite effective_volumes_zero by exact H0; simpl fst; simpl snd.
    destruct (aggregate_taste_ok (INR (length profiles)) profiles Hn
                (repeat 1 (length profiles)) zero_taste) as (taste & Hagg & Hget).
    exists taste; split; [exact Hagg|].
    intros d; rewrite Hget, Hw, map_repeat.
    destruct d; simpl; lra.
  - assert (Hw : weights profiles measures
                 = map (fun v => v / sum (volumes_of measures)) (volumes_of measures)).
    { unfold weights; rewrite effective_volumes_nonzero by exact H0; reflexivity. }
    split; [rewrite Hw, sum_scaled; field; exact H0|].
    split; [intros _; exact Hw|].
    split; [intros Hz; contradiction|].
    split; [intros Hlen; rewrite Hw; unfold volumes_of; rewrite !length_map; exact Hlen|].
    rewrite effective_volumes_nonzero by exact H0; simpl fst; simpl snd.
    destruct (aggregate_taste_ok (sum (volumes_of measures)) profiles H0
                (volumes_of measures) zero_taste) as (taste & Hagg & Hget).
    exists taste; split; [exact Hagg|].
    intros d; rewrite Hget, Hw.
    destruct d; simpl; lra.
Qed.

(** A cocktail whose ingredients all lack molecular data makes the
    molecular-weight average of [_aggregate_profiles] raise: [np.average]
    refuses weights that sum to zero, here the empty weight list. *)
Remark aggregate_without_molecules_raises :
  _aggregate_profiles [_empty_profile] [mkMeasure (Some 30)]
  = Raise (ZeroDivisionError "Weights sum to zero, can't be normalized")
  /\ _aggregate_profiles [_empty_profile] [mkMeasure (Some 0)]
     = Raise (ZeroDivisionError "Weights sum to zero, can't be normalized").
Proof.
  split.
  - unfold _aggregate_profiles, effective_volumes, sum; simpl.
    decide_cmp; simpl. unfold truediv; decide_cmp; simpl.
    unfold np_average, sum; simpl; decide_cmp; reflexivity.
  - unfold _aggregate_profiles, effective_volumes, sum; simpl.
    decide_cmp; simpl. unfold truediv; decide_cmp; simpl.
    unfold np_average, sum; simpl; decide_cmp; reflexivity.
Qed.

(** The same through the public operation: analysing a known cocktail
    whose only ingredient has no molecular data raises. *)
Remark analyze_without_molecules_raises :
  analyze_cocktail
    (mkAnalyzer (mkProfiler (fun _ => None))
       [mkCocktail "Mystery" "Cocktail" ["unobtainium"%string] [mkMeasure (Some 30)]])
    "mystery"
  = Raise (ZeroDivisionError "Weights sum to zero, can't be normalized").
Proof.
  unfold analyze_cocktail.
  change (_find_cocktail _ "mystery")
    with (Some (mkCocktail "Mystery" "Cocktail" ["unobtainium"%string]
                           [mkMeasure (Some 30)])).
  cbn [ingredients measures map analyzer_profiler get_ingredient_profile built_profile].
  rewrite (proj1 aggregate_without_molecules_raises); reflexivity.
Qed.

(** ** Suppression of recommendations for well-balanced cocktails *)

Lemma should_recommend_excellent (balance : R) (taste : taste_scores) :
  balance >= 0.98 ->
  FlavorOptimizerV2.should_recommend_changes balance taste = (false, excellent_message).
Proof.
  intros H; unfold FlavorOptimizerV2.should_recommend_changes.
  apply Rgeb_true in H; rewrite H; reflexivity.
Qed.






Lemma recommend_silent
    (identify : taste_scores -> option string -> list imbalance)
    (find_corrective_ingredients : dimension -> issue_type -> list string -> list suggestion)
    (adaptive : R -> R -> R -> R) (per_issue : nat)
    (cocktail_name : string) (target : option string) (a : analysis) (msg : string) :
  FlavorOptimizerV2.should_recommend_changes (overall_balance a) (balance_scores a)
  = (false, msg) ->
  FlavorOptimizerV2.recommend_from_analysis FlavorOptimizerV2.should_recommend_changes
    identify find_corrective_ingredients adaptive per_issue cocktail_name target a
  = silent_report cocktail_name a msg.
Proof.
  intros H; unfold FlavorOptimizerV2.recommend_from_analysis; cbv zeta.
  rewrite H; reflexivity.
Qed.

Lemma taste_ext (t1 t2 : taste_scores) : (forall d, get t1 d = get t2 d) -> t1 = t2.
Proof.
  intros H.
  pose proof (H sweet); pose proof (H sour); pose proof (H bitter);
    pose proof (H savory); pose proof (H aromatic).
  destruct t1, t2; simpl in *; subst; reflexivity.
Qed.

Lemma analyze_house (taste : taste_scores) (v : R) :
  v <> 0 ->
  analyze_cocktail (house_analyzer taste v) "house"
  = Ok (AnalysisDict (house_analysis taste v)).
Proof.
  intros Hv; unfold analyze_cocktail.
  change (_find_cocktail (house_analyzer taste v) "house")
    with (Some (mkCocktail "House" "Cocktail" ["house blend"%string] [mkMeasure (Some v)])).
  cbn [ingredients measures map house_analyzer analyzer_profiler name category].
  change (get_ingredient_profile (house_profiler taste) "house blend")
    with (mkProfile "house blend" 3 taste 150).
  unfold _aggregate_profiles, effective_volumes, sum; simpl.
  decide_cmp; simpl. unfold truediv; decide_cmp; simpl.
  unfold np_average, sum; simpl; decide_cmp; simpl.
  assert (Ht : accumulate (v / (0 + v)) (mkProfile "house blend" 3 taste 150)
                 (mkTaste 0 0 0 0 0) = taste).
  { apply taste_ext; intros d; rewrite get_accumulate.
    replace (v / (0 + v)) with 1 by (field; exact Hv).
    destruct d; simpl; lra. }
  unfold house_analysis; rewrite Ht; reflexivity.
Qed.

(** C3: when the analysed cocktail has an overall balance of at least
    0.98, [recommend_improvements] (V2, and V3 which repeats it) returns
    the report with the explanatory message, no identified issue and an
    empty recommendation list, hence no suggestion of any amount. *)
Theorem excellent_balance_gets_no_recommendation
    (an : CocktailAnalyzer) (p2 p3 : MolecularProfiler) (m2 m3 : CocktailModifier)
    (cocktail_name : string) (target : option string) (a : analysis) :
  analyze_cocktail an cocktail_name = Ok (AnalysisDict a) ->
  overall_balance a >= 0.98 ->
  let report := silent_report cocktail_name a excellent_message in
  FlavorOptimizerV2.recommend_improvements (FlavorOptimizerV2.mk p2 an m2)
    cocktail_name target = Ok (ReportDict report)
  /\ FlavorOptimizerV3.recommend_improvements (FlavorOptimizerV3.mk p3 an m3)
       cocktail_name target = Ok (ReportDict report)
  /\ message report = Some excellent_message
  /\ recommendations report = [].
Proof.
  intros Ha Hb; cbv zeta.
  unfold FlavorOptimizerV2.recommend_improvements, FlavorOptimizerV3.recommend_improvements.
  cbn [FlavorOptimizerV2.analyzer FlavorOptimizerV3.analyzer].
  rewrite Ha; cbn [bind].
  unfold FlavorOptimizerV3._should_recommend_changes.
  rewrite !(recommend_silent _ _ _ _ _ _ _ excellent_message)
    by (apply should_recommend_excellent; exact Hb).
  repeat split.
Qed.

Lemma even_balance : _compute_overall_balance even_taste = 1.
Proof.
  rewrite balance_nonzero.
  - assert (H : np_var (values even_taste) = 0)
      by (apply var_zero_iff; intros [] []; reflexivity).
    rewrite H; lra.
  - intros H; specialize (H sweet); simpl in H; lra.
Qed.

Lemma excellent_balance_gets_no_recommendation_witness :
  FlavorOptimizerV2.recommend_improvements
    (FlavorOptimizerV2.mk (house_profiler even_taste) (house_analyzer even_taste 30)
                          (house_modifier even_taste 30))
    "house" None
  = Ok (ReportDict (silent_report "house" (house_analysis even_taste 30) excellent_message)).
Proof.
  apply (excellent_balance_gets_no_recommendation
           (house_analyzer even_taste 30) (house_profiler even_taste)
           (house_profiler even_taste) (house_modifier even_taste 30)
           (house_modifier even_taste 30) "house" None (house_analysis even_taste 30)).
  - apply analyze_house; lra.
  - simpl; rewrite even_balance; lra.
Defined.





(** ** The statistical imbalance detector *)

Lemma in_items (taste : taste_scores) (d : dimension) (score : R) :
  In (d, score) (items taste) <-> score = get taste d.
Proof.
  unfold items; rewrite in_map_iff; split.
  - intros (d' & Heq & _); inversion Heq; subst; reflexivity.
  - intros ->; exists d; split; [reflexivity|].
    destruct d; simpl; tauto.
Qed.

Lemma in_auto_detect (hi lo : R) (taste : taste_scores) (imb : imbalance) :
  In imb (auto_detect hi lo taste) <->
  exists d,
    (get taste d > hi /\ imb = mkImbalance d too_high medium (Some (get taste d)))
    \/ (get taste d <= hi /\ get taste d < lo /\ get taste d < 0.3
        /\ imb = mkImbalance d too_low medium (Some (get taste d))).
Proof.
  unfold auto_detect; rewrite in_flat_map; split.
  - intros ([d score] & Hin & Himb); apply in_items in Hin; subst score.
    exists d.
    destruct (Rgtb (get taste d) hi) eqn:Ehi.
    + apply Rgtb_true in Ehi; destruct Himb as [<-|[]]; left; split; [lra | reflexivity].
    + apply Rgtb_false in Ehi.
      destruct (Rltb (get taste d) lo) eqn:Elo; simpl in Himb; [|contradiction].
      destruct (Rltb (get taste d) 0.3) eqn:Efl; simpl in Himb; [|contradiction].
      apply Rltb_true in Elo, Efl.
      destruct Himb as [<-|[]]; right; repeat split; assumption.
  - intros (d & [[Hhi ->] | (Hhi & Hlo & Hfl & ->)]);
      exists (d, get taste d); (split; [apply in_items; reflexivity|]).
    + apply Rgtb_true in Hhi; rewrite Hhi; left; reflexivity.
    + apply Rgtb_false in Hhi; apply Rltb_true in Hlo, Hfl.
      rewrite Hhi, Hlo, Hfl; left; reflexivity.
Qed.





(** ** Explicit targets *)

Lemma spiky_mean : np_mean (values spiky_taste) = 0.2.
Proof. rewrite mean_values; simpl; lra. Qed.

Lemma spiky_std : np_std (values spiky_taste) = 0.4.
Proof.
  unfold np_std; rewrite var_values; cbv zeta; rewrite spiky_mean; simpl.
  apply sqrt_lem_1; lra.
Qed.

Lemma spiky_detected (k : R) :
  0.7 <= k <= 1 ->
  auto_detect (0.2 + 0.4 * k) (0.2 - 0.4 * k) spiky_taste
  = [mkImbalance sweet too_high medium (Some 1)].
Proof.
  intros Hk; unfold auto_detect, items; simpl.
  decide_cmp; simpl; decide_cmp; reflexivity.
Qed.

(** C7, counterexample: for the vector (1, 0, 0, 0, 0) and the target
    'sweeter' both detectors return the forced entry followed by a
    statistical one, sweet being more than mean + k * std; the
    statistical test is not bypassed and the result is not the single
    forced imbalance. *)
Lemma target_does_not_bypass_statistics :
  FlavorOptimizer._identify_imbalances spiky_taste (Some "sweeter"%string)
  = [mkImbalance sweet too_low high None; mkImbalance sweet too_high medium (Some 1)]
  /\ FlavorOptimizerV2._identify_imbalances spiky_taste (Some "sweeter"%string)
     = [mkImbalance sweet too_low high None; mkImbalance sweet too_high medium (Some 1)]
  /\ FlavorOptimizer._identify_imbalances spiky_taste (Some "sweeter"%string)
     <> [mkImbalance sweet too_low high None].
Proof.
  assert (H1 : FlavorOptimizer._identify_imbalances spiky_taste (Some "sweeter"%string)
               = [mkImbalance sweet too_low high None;
                  mkImbalance sweet too_high medium (Some 1)]).
  { change (FlavorOptimizer._identify_imbalances spiky_taste (Some "sweeter"%string))
      with ([mkImbalance sweet too_low high None]
            ++ auto_detect (np_mean (values spiky_taste) + np_std (values spiky_taste))
                 (np_mean (values spiky_taste) - np_std (values spiky_taste)) spiky_taste).
    rewrite spiky_mean, spiky_std.
    replace (0.2 + 0.4) with (0.2 + 0.4 * 1) by lra.
    replace (0.2 - 0.4) with (0.2 - 0.4 * 1) by lra.
    rewrite spiky_detected by lra; reflexivity. }
  split; [exact H1|]. split.
  - change (FlavorOptimizerV2._identify_imbalances spiky_taste (Some "sweeter"%string))
      with ([mkImbalance sweet too_low high None]
            ++ auto_detect
                 (np_mean (values spiky_taste) + np_std (values spiky_taste) * 0.7)
                 (np_mean (values spiky_taste) - np_std (values spiky_taste) * 0.7)
                 spiky_taste).
    rewrite spiky_mean, spiky_std, spiky_detected by lra; reflexivity.
  - rewrite H1; discriminate.
Qed.

(** C7, amended: for every taste vector and every recognised target
    (sweeter, more_sour, less_bitter, more_aromatic) imbalance detection
    returns the forced imbalance of the requested dimension and
    direction first, with priority high, followed by every imbalance
    that the statistical test finds without a target, each of priority
    medium. *)
Theorem target_prepends_forced_imbalance
    (taste : taste_scores) (target : string) (dim : dimension) (type_ : issue_type) :
  In (target, (dim, type_)) forced_targets ->
  FlavorOptimizer._identify_imbalances taste (Some target)
  = mkImbalance dim type_ high None :: FlavorOptimizer._identify_imbalances taste None
  /\ FlavorOptimizerV2._identify_imbalances taste (Some target)
     = mkImbalance dim type_ high None :: FlavorOptimizerV2._identify_imbalances taste None
  /\ (forall imb,
        In imb (FlavorOptimizer._identify_imbalances taste None)
        \/ In imb (FlavorOptimizerV2._identify_imbalances taste None) ->
        imb_priority imb = medium).
Proof.
  intros Hin; unfold forced_targets in Hin; simpl in Hin.
  split; [|split].
  - destruct Hin as [H|[H|[H|[H|[]]]]]; inversion H; subst; reflexivity.
  - destruct Hin as [H|[H|[H|[H|[]]]]]; inversion H; subst; reflexivity.
  - intros imb [Himb|Himb]; apply in_auto_detect in Himb;
      destruct Himb as (d' & [[_ ->] | (_ & _ & _ & ->)]); reflexivity.
Qed.

Lemma target_prepends_forced_imbalance_witness :
  FlavorOptimizerV2._identify_imbalances even_taste (Some "less_bitter"%string)
  = mkImbalance bitter too_high high None
      :: FlavorOptimizerV2._identify_imbalances even_taste None.
Proof.
  apply (target_prepends_forced_imbalance even_taste "less_bitter" bitter too_high).
  simpl; tauto.
Defined.

(** ** The adaptive amount *)

Lemma round_half_even_cases (x : R) :
  round_half_even x = Zfloor x \/ round_half_even x = (Zfloor x + 1)%Z.
Proof.
  unfold round_half_even.
  destruct (Rltb _ _); [tauto|].
  destruct (Rgtb _ _); [tauto|].
  destruct (Z.even _); tauto.
Qed.

Lemma round_half_even_near (x : R) : - (1 / 2) <= IZR (round_half_even x) - x <= 1 / 2.
Proof.
  pose proof (Zfloor_bound x) as [Hlo Hhi].
  unfold round_half_even.
  destruct (Rltb (x - IZR (Zfloor x)) (1 / 2)) eqn:E1.
  - apply Rltb_true in E1; lra.
  - apply Rltb_false in E1.
    assert (Hplus : IZR (Zfloor x + 1) = IZR (Zfloor x) + 1) by apply plus_IZR.
    destruct (Rgtb (x - IZR (Zfloor x)) (1 / 2)) eqn:E2.
    + rewrite Hplus; lra.
    + apply Rgtb_false in E2.
      destruct (Z.even (Zfloor x)); [|rewrite Hplus]; lra.
Qed.

Lemma round_half_even_lower (x : R) (z : Z) : IZR z <= x -> (z <= round_half_even x)%Z.
Proof.
  intros H; apply Zfloor_lub in H.
  destruct (round_half_even_cases x) as [-> | ->]; lia.
Qed.

Lemma round_half_even_upper (x : R) (z : Z) : x <= IZR z -> (round_half_even x <= z)%Z.
Proof.
  intros H.
  pose proof (Zfloor_bound x) as [Hlo Hhi].
  destruct (Z_lt_le_dec (Zfloor x) z) as [Hlt|Hge].
  - destruct (round_half_even_cases x) as [-> | ->]; lia.
  - apply IZR_le in Hge.
    assert (Hx : x = IZR (Zfloor x)) by lra.
    assert (Hz : Zfloor x = z) by (apply eq_IZR; lra).
    unfold round_half_even.
    replace (Rltb (x - IZR (Zfloor x)) (1 / 2)) with true
      by (symmetry; apply Rltb_true; lra).
    lia.
Qed.

Lemma round1_near (x : R) : Rabs (round1 x - x) <= 0.05.
Proof.
  pose proof (round_half_even_near (x * 10)) as H.
  unfold round1; apply Rabs_le; lra.
Qed.

Lemma round1_bounds (x : R) : 5 <= x <= 30 -> 5 <= round1 x <= 30.
Proof.
  intros [Hlo Hhi]; unfold round1.
  assert (H50 : (50 <= round_half_even (x * 10))%Z)
    by (apply round_half_even_lower; simpl; lra).
  assert (H300 : (round_half_even (x * 10) <= 300)%Z)
    by (apply round_half_even_upper; simpl; lra).
  apply IZR_le in H50, H300; simpl in *; lra.
Qed.

Lemma round1_tenth (z : Z) : round1 (IZR z / 10) = IZR z / 10.
Proof.
  unfold round1.
  replace (IZR z / 10 * 10) with (IZR z) by lra.
  unfold round_half_even; rewrite ZfloorZ.
  replace (Rltb (IZR z - IZR z) (1 / 2)) with true
    by (symmetry; apply Rltb_true; lra).
  reflexivity.
Qed.

Lemma clamped_bounds (b m t : R) : 5 <= clamped_amount b m t <= 30.
Proof.
  unfold clamped_amount.
  set (raw := raw_amount b m t).
  unfold Rmax, Rmin; destruct (Rle_dec raw 30); destruct (Rle_dec 5 _); lra.
Qed.

Lemma round1_eval (x : R) (z : Z) :
  IZR z - 1 / 2 < x * 10 < IZR z + 1 / 2 -> round1 x = IZR z / 10.
Proof.
  intros [Hlo Hhi]; unfold round1.
  pose proof (round_half_even_near (x * 10)) as [Hn1 Hn2].
  assert (Hz : round_half_even (x * 10) = z).
  { assert (H1 : (z - 1 < round_half_even (x * 10))%Z)
      by (apply lt_IZR; rewrite minus_IZR; lra).
    assert (H2 : (round_half_even (x * 10) < z + 1)%Z)
      by (apply lt_IZR; rewrite plus_IZR; lra).
    lia. }
  rewrite Hz; reflexivity.
Qed.

Lemma adaptive_amount_unfold (b m t : R) :
  FlavorOptimizerV2._calculate_adaptive_amount b m t = round1 (clamped_amount b m t).
Proof.
  unfold FlavorOptimizerV2._calculate_adaptive_amount, clamped_amount, raw_amount,
    balance_factor, severity_factor; cbv zeta.
  replace 0.0 with 0 by lra. replace 1.0 with 1 by lra.
  replace 2.0 with 2 by lra. replace 5.0 with 5 by lra.
  replace 30.0 with 30 by lra.
  reflexivity.
Qed.

Example round1_down : round1 12.12 = 12.1.
Proof. rewrite (round1_eval 12.12 121); simpl; lra. Qed.

(** A tie goes to the even tenth. *)
Example round1_ties_to_even : round1 0.25 = 0.2 /\ round1 0.75 = 0.8.
Proof.
  assert (H2 : Zfloor (0.25 * 10) = 2%Z) by (apply Zfloor_eq; simpl; lra).
  assert (H7 : Zfloor (0.75 * 10) = 7%Z) by (apply Zfloor_eq; simpl; lra).
  unfold round1, round_half_even; rewrite H2, H7; simpl.
  decide_cmp; simpl; lra.
Qed.

(** At a balance of 0.98 or more the product is 0 and the formula would
    give the 5 ml minimum. *)
Lemma adaptive_amount_at_excellent_balance (b m t : R) :
  b >= 0.98 -> raw_amount b m t = 0 /\ FlavorOptimizerV2._calculate_adaptive_amount b m t = 5.
Proof.
  intros Hb.
  assert (Hraw : raw_amount b m t = 0).
  { unfold raw_amount, balance_factor.
    apply Rgeb_true in Hb; rewrite Hb; lra. }
  split; [exact Hraw|].
  rewrite adaptive_amount_unfold; unfold clamped_amount; rewrite Hraw.
  replace (Rmax 5 (Rmin 0 30)) with (IZR 50 / 10).
  - rewrite round1_tenth; lra.
  - unfold Rmax, Rmin; destruct (Rle_dec 0 30); destruct (Rle_dec 5 _); lra.
Qed.

(** Every recommendation of a report comes from an identified issue and
    carries the adaptive amount for the deviation of that issue's
    dimension. *)
Lemma produced_recommendation
    (identify : taste_scores -> option string -> list imbalance)
    (find_corrective_ingredients : dimension -> issue_type -> list string -> list suggestion)
    (adaptive : R -> R -> R -> R) (per_issue : nat)
    (cocktail_name : string) (target : option string) (a : analysis)
    (rec : recommendation) :
  let r := FlavorOptimizerV2.recommend_from_analysis
             FlavorOptimizerV2.should_recommend_changes identify
             find_corrective_ingredients adaptive per_issue cocktail_name target a in
  In rec (recommendations r) ->
  exists imb,
    In imb (identified_issues r)
    /\ issue rec = issue_text (imb_dimension imb) (imb_type imb)
    /\ sug_amount (rec_suggestion rec)
       = adaptive (overall_balance a)
           (deviation (balance_scores a) (imb_dimension imb))
           (total_volume (aggregated a)).
Proof.
  cbv zeta; unfold FlavorOptimizerV2.recommend_from_analysis; cbv zeta.
  destruct (FlavorOptimizerV2.should_recommend_changes (overall_balance a)
              (balance_scores a)) as [should_rec msg] eqn:E.
  destruct should_rec; cbn [negb]; [|intros []].
  cbn [recommendations identified_issues].
  intros Hin.
  apply in_flat_map in Hin; destruct Hin as (imb & Himb & Hin).
  apply in_map_iff in Hin; destruct Hin as (s & <- & _).
  exists imb; split; [exact Himb|]. split; reflexivity.
Qed.

Lemma round1_is_tenth (x : R) : exists z : Z, round1 x = IZR z / 10.
Proof. exists (round_half_even (x * 10)); reflexivity. Qed.

(** C8, amended: every recommendation produced by
    [recommend_improvements] (V2 and V3) names one of the identified
    issues, and its suggested amount comes from the dimension of that
    issue: with the product total_volume * 0.12 * balance_factor *
    severity_factor clamped into [5, 30] ml, the amount is a whole number
    of tenths of a millilitre that lies in [5, 30] and within 0.05 ml of
    the clamped product (where the product lies halfway between two
    tenths, nothing more is said).  balance_factor is the step function
    (0 at balance >= 0.98, 0.25 at >= 0.95, 0.5 at >= 0.90, 0.75 at
    >= 0.80, else 1.0) and severity_factor is
    min(|dimension_score - mean| / 0.3, 2.0); at balance 0.80 and
    deviation 0.3 the amount before clamping is
    total_volume * 0.12 * 0.75 * 1.0. *)
Theorem recommended_amount_is_rounded_clamp
    (an : CocktailAnalyzer) (p2 p3 : MolecularProfiler) (m2 m3 : CocktailModifier)
    (cocktail_name : string) (target : option string) (a : analysis)
    (r : report) (rec : recommendation) :
  analyze_cocktail an cocktail_name = Ok (AnalysisDict a) ->
  FlavorOptimizerV2.recommend_improvements (FlavorOptimizerV2.mk p2 an m2)
    cocktail_name target = Ok (ReportDict r)
  \/ FlavorOptimizerV3.recommend_improvements (FlavorOptimizerV3.mk p3 an m3)
       cocktail_name target = Ok (ReportDict r) ->
  In rec (recommendations r) ->
  (exists imb,
      In imb (identified_issues r)
      /\ issue rec = issue_text (imb_dimension imb) (imb_type imb)
      /\ let clamped :=
           clamped_amount (overall_balance a)
             (deviation (balance_scores a) (imb_dimension imb))
             (total_volume (aggregated a)) in
         5 <= clamped <= 30
         /\ 5 <= sug_amount (rec_suggestion rec) <= 30
         /\ Rabs (sug_amount (rec_suggestion rec) - clamped) <= 0.05
         /\ exists tenths : Z, sug_amount (rec_suggestion rec) = IZR tenths / 10)
  /\ (forall total, raw_amount 0.80 0.3 total = total * 0.12 * 0.75 * 1.0).
Proof.
  intros Ha Hr Hin; split.
  - assert (Hprod :
      exists imb,
        In imb (identified_issues r)
        /\ issue rec = issue_text (imb_dimension imb) (imb_type imb)
        /\ sug_amount (rec_suggestion rec)
           = FlavorOptimizerV2._calculate_adaptive_amount (overall_balance a)
               (deviation (balance_scores a) (imb_dimension imb))
               (total_volume (aggregated a))).
    { destruct Hr as [Hr|Hr];
        [unfold FlavorOptimizerV2.recommend_improvements in Hr
        |unfold FlavorOptimizerV3.recommend_improvements in Hr];
        cbn [FlavorOptimizerV2.analyzer FlavorOptimizerV3.analyzer] in Hr;
        rewrite Ha in Hr; cbn [bind] in Hr;
        inversion Hr as [Hrep]; clear Hr; subst r;
        apply produced_recommendation in Hin; exact Hin. }
    destruct Hprod as (imb & Himb & Hissue & Hamount).
    exists imb; split; [exact Himb|]. split; [exact Hissue|]. cbv zeta.
    rewrite Hamount, adaptive_amount_unfold.
    split; [apply clamped_bounds|].
    split; [apply round1_bounds, clamped_bounds|].
    split; [apply round1_near | apply round1_is_tenth].
  - intros total; unfold raw_amount, balance_factor, severity_factor.
    decide_cmp.
    replace (0.3 / 0.3) with 1 by lra.
    unfold Rmin; destruct (Rle_dec 1 2); lra.
Qed.

Lemma spiky_balance : _compute_overall_balance spiky_taste = 1 / (1 + 0.16).
Proof.
  rewrite balance_nonzero.
  - rewrite var_values; cbv zeta; rewrite spiky_mean; simpl.
    f_equal; lra.
  - intros H; specialize (H sweet); simpl in H; lra.
Qed.

Lemma spiky_should_recommend :
  FlavorOptimizerV2.should_recommend_changes (_compute_overall_balance spiky_taste)
    spiky_taste
  = (true, "Good cocktail with room for refinement"%string).
Proof.
  rewrite spiky_balance; unfold FlavorOptimizerV2.should_recommend_changes.
  decide_cmp; reflexivity.
Qed.

Lemma spiky_identified :
  FlavorOptimizerV2._identify_imbalances spiky_taste None = [spiky_issue].
Proof.
  change (FlavorOptimizerV2._identify_imbalances spiky_taste None)
    with (auto_detect
            (np_mean (values spiky_taste) + np_std (values spiky_taste) * 0.7)
            (np_mean (values spiky_taste) - np_std (values spiky_taste) * 0.7)
            spiky_taste).
  rewrite spiky_mean, spiky_std, spiky_detected by lra; reflexivity.
Qed.

Lemma spiky_clamped :
  clamped_amount (_compute_overall_balance spiky_taste) (deviation spiky_taste sweet)
    (0 + 101) = 18.18.
Proof.
  rewrite spiky_balance; unfold deviation; rewrite spiky_mean; simpl get.
  replace (Rabs (1 - 0.2)) with 0.8
    by (unfold Rabs; destruct (Rcase_abs _); lra).
  unfold clamped_amount, raw_amount, balance_factor, severity_factor.
  decide_cmp.
  replace (Rmin (0.8 / 0.3) 2) with 2
    by (unfold Rmin; destruct (Rle_dec _ _); lra).
  unfold Rmax, Rmin; destruct (Rle_dec _ 30); destruct (Rle_dec 5 _); lra.
Qed.

Lemma spiky_amount :
  FlavorOptimizerV2._calculate_adaptive_amount (_compute_overall_balance spiky_taste)
    (deviation spiky_taste sweet) (0 + 101) = 18.2.
Proof.
  rewrite adaptive_amount_unfold, spiky_clamped.
  rewrite (round1_eval 18.18 182); simpl; lra.
Qed.

(** The whole of [recommend_improvements] on that cocktail. *)
Lemma spiky_recommendations (m : CocktailModifier) :
  FlavorOptimizerV2.recommend_improvements
    (FlavorOptimizerV2.mk citrus_profiler (house_analyzer spiky_taste 101) m)
    "house" None
  = Ok (ReportDict (spiky_report 18.2)).
Proof.
  unfold FlavorOptimizerV2.recommend_improvements.
  cbn [FlavorOptimizerV2.analyzer].
  rewrite analyze_house by lra; cbn [bind].
  unfold FlavorOptimizerV2.recommend_from_analysis.
  cbn [house_analysis balance_scores overall_balance aggregated total_volume
       analysis_ingredients].
  cbv zeta.
  rewrite spiky_should_recommend; cbn [negb].
  rewrite spiky_identified.
  cbn [flat_map spiky_issue imb_dimension imb_type app].
  change (Rabs (get spiky_taste sweet - np_mean (values spiky_taste)))
    with (deviation spiky_taste sweet).
  rewrite spiky_amount.
  reflexivity.
Qed.

(** C8, counterexample: for 101 ml of an only-sweet ingredient (balance
    1/1.16, deviation of sweet 0.8) the recommendation produced by V2
    suggests 18.2 ml, whereas the clamped product is 18.18 ml. *)
Lemma amount_claim_fails_by_rounding :
  FlavorOptimizerV2.recommend_improvements
    (FlavorOptimizerV2.mk citrus_profiler (house_analyzer spiky_taste 101)
                          (house_modifier spiky_taste 101))
    "house" None
  = Ok (ReportDict (spiky_report 18.2))
  /\ clamped_amount (overall_balance spiky_analysis)
       (deviation (balance_scores spiky_analysis) sweet)
       (total_volume (aggregated spiky_analysis)) = 18.18
  /\ ~ amount_claim spiky_analysis (spiky_report 18.2).
Proof.
  split; [apply spiky_recommendations|].
  split; [exact spiky_clamped|].
  intros H.
  destruct (H (mkRecommendation "sweet is too high"
                 (mkSuggestion add "lemon juice" 18.2 lemon_taste)))
    as (imb & Himb & Hamount); [left; reflexivity|].
  destruct Himb as [<-|[]].
  cbn [rec_suggestion sug_amount spiky_issue imb_dimension] in Hamount.
  change (18.2 = clamped_amount (_compute_overall_balance spiky_taste)
                   (deviation spiky_taste sweet) (0 + 101)) in Hamount.
  rewrite spiky_clamped in Hamount; lra.
Qed.

Lemma recommended_amount_is_rounded_clamp_witness :
  exists imb,
    In imb (identified_issues (spiky_report 18.2))
    /\ "sweet is too high"%string = issue_text (imb_dimension imb) (imb_type imb)
    /\ let clamped :=
         clamped_amount (overall_balance spiky_analysis)
           (deviation (balance_scores spiky_analysis) (imb_dimension imb))
           (total_volume (aggregated spiky_analysis)) in
       5 <= clamped <= 30
       /\ 5 <= 18.2 <= 30
       /\ Rabs (18.2 - clamped) <= 0.05
       /\ exists tenths : Z, 18.2 = IZR tenths / 10.
Proof.
  apply (recommended_amount_is_rounded_clamp
           (house_analyzer spiky_taste 101) citrus_profiler citrus_profiler
           (house_modifier spiky_taste 101) (house_modifier spiky_taste 101)
           "house" None spiky_analysis (spiky_report 18.2)
           (mkRecommendation "sweet is too high"
              (mkSuggestion add "lemon juice" 18.2 lemon_taste))).
  - apply analyze_house; lra.
  - left; apply spiky_recommendations.
  - left; reflexivity.
Defined.

(** ** Selection among tested candidates *)

Section FirstMaximum.

Context {A : Type} (key : A -> R).

Lemma first_max_in (l : list A) (b : A) : first_max key l b -> In b l.
Proof. intros (l1 & l2 & -> & _); apply in_elt. Qed.

Lemma first_max_ge (l : list A) (b x : A) :
  first_max key l b -> In x l -> key x <= key b.
Proof.
  intros (l1 & l2 & -> & H1 & H2) Hin.
  rewrite Forall_forall in H1, H2.
  apply in_app_or in Hin; destruct Hin as [Hin|[<-|Hin]].
  - apply Rlt_le, H1, Hin.
  - lra.
  - apply H2, Hin.
Qed.

(** The invariant of the loop of [max]: [best] is the first maximum of
    what has been scanned. *)
Lemma max_by_spec (l : list A) :
  forall (l1 : list A) (best : A) (l2 : list A),
    Forall (fun x => key x < key best) l1 ->
    Forall (fun x => key x <= key best) l2 ->
    first_max key (l1 ++ best :: l2 ++ l) (max_by key best l).
Proof.
  induction l as [|x l IH]; intros l1 best l2 H1 H2; simpl.
  - exists l1, l2; rewrite app_nil_r; auto.
  - destruct (Rgtb (key x) (key best)) eqn:E.
    + apply Rgtb_true in E.
      replace (l1 ++ best :: l2 ++ x :: l) with ((l1 ++ best :: l2) ++ x :: [] ++ l)
        by (rewrite <- app_assoc; reflexivity).
      apply IH; [|constructor].
      apply Forall_app; split.
      * eapply Forall_impl; [|exact H1]; simpl; intros; lra.
      * constructor; [lra|].
        eapply Forall_impl; [|exact H2]; simpl; intros; lra.
    + apply Rgtb_false in E.
      replace (l1 ++ best :: l2 ++ x :: l) with (l1 ++ best :: (l2 ++ [x]) ++ l)
        by (rewrite <- (app_assoc l2); reflexivity).
      apply IH; [exact H1|].
      apply Forall_app; split; [exact H2|]. constructor; [exact E | constructor].
Qed.

Lemma max_by_first_max (c : A) (cs : list A) :
  first_max key (c :: cs) (max_by key c cs).
Proof. apply (max_by_spec cs [] c []); constructor. Qed.

Lemma insert_by_not_nil (reverse : bool) (x : A) (l : list A) :
  insert_by key reverse x l <> [].
Proof.
  destruct l; simpl; [discriminate|].
  destruct (if reverse then _ else _); discriminate.
Qed.

Lemma sorted_not_nil (reverse : bool) (x : A) (l : list A) :
  sorted key reverse (x :: l) <> [].
Proof. simpl; apply insert_by_not_nil. Qed.

(** The head of a descending stable sort is the first maximum of the
    original list. *)
Lemma sorted_head_first_max (l : list A) (b : A) (rest : list A) :
  sorted key true l = b :: rest -> first_max key l b.
Proof.
  revert b rest; induction l as [|x l IH]; intros b rest H; [discriminate|].
  simpl in H.
  destruct (sorted key true l) as [|b' rest'] eqn:Es.
  - destruct l as [|y l]; [|exfalso; exact (sorted_not_nil true y l Es)].
    simpl in H; inversion H; subst.
    exists [], []; repeat split; constructor.
  - specialize (IH b' rest' eq_refl).
    simpl in H.
    destruct (Rltb (key x) (key b')) eqn:E; inversion H; subst.
    + apply Rltb_true in E.
      destruct IH as (l1 & l2 & -> & H1 & H2).
      exists (x :: l1), l2; repeat split; [constructor|]; assumption.
    + apply Rltb_false in E.
      exists [], l; repeat split; [constructor|].
      apply Forall_forall; intros y Hy.
      pose proof (first_max_ge l b' y IH Hy); lra.
Qed.

Lemma insert_by_perm (reverse : bool) (x : A) (l : list A) :
  Permutation (insert_by key reverse x l) (x :: l).
Proof.
  induction l as [|y l IH]; simpl; [reflexivity|].
  destruct (if reverse then _ else _); [|reflexivity].
  rewrite IH; apply perm_swap.
Qed.

Lemma sorted_perm (reverse : bool) (l : list A) :
  Permutation (sorted key reverse l) l.
Proof.
  induction l as [|x l IH]; simpl; [reflexivity|].
  rewrite insert_by_perm, IH; reflexivity.
Qed.

End FirstMaximum.

Lemma StronglySorted_suffix {A : Type} (R : A -> A -> Prop) (l1 l2 : list A) :
  StronglySorted R (l1 ++ l2) -> StronglySorted R l2.
Proof.
  induction l1 as [|x l1 IH]; simpl; intros H; [exact H|].
  apply StronglySorted_inv in H; apply IH, H.
Qed.

Section CollaboratorFacts.

Variable analyze_cocktail_ : string -> result analysis_dict.
Variable recommend_improvements_ : string -> option string -> result recommend_dict.
Variable modify_cocktail_ : string -> list modification -> result modify_dict.
Variable minus : R -> R -> R.

Lemma test_candidates_with_spec (cocktail_name : string) (ob : R)
    (recs : list recommendation) :
  forall i,
    let cs := test_candidates_with modify_cocktail_ minus cocktail_name ob i recs in
    StronglySorted (fun a b => (FlavorOptimizerV3.rank a < FlavorOptimizerV3.rank b)%nat) cs
    /\ Forall (fun c => (i < FlavorOptimizerV3.rank c)%nat
                        /\ FlavorOptimizerV3.original_balance c = ob
                        /\ FlavorOptimizerV3.improvement c
                           = minus (FlavorOptimizerV3.new_balance c) ob) cs.
Proof.
  induction recs as [|rec recs IH]; intros i; cbv zeta; simpl.
  - split; constructor.
  - destruct (IH (S i)) as [Hs Hf]; cbv zeta in Hs, Hf.
    assert (Hf' : Forall (fun c => (i < FlavorOptimizerV3.rank c)%nat
                                   /\ FlavorOptimizerV3.original_balance c = ob
                                   /\ FlavorOptimizerV3.improvement c
                                      = minus (FlavorOptimizerV3.new_balance c) ob)
                         (test_candidates_with modify_cocktail_ minus cocktail_name ob (S i) recs)).
    { eapply Forall_impl; [|exact Hf]; simpl; intros c (H1 & H2 & H3).
      repeat split; try assumption; lia. }
    destruct (modify_cocktail_ _ _) as [[e|c]|e]; simpl; try (split; assumption).
    split.
    + constructor; [exact Hs|].
      eapply Forall_impl; [|exact Hf]; simpl; intros c' (H1 & _); lia.
    + constructor; [|exact Hf'].
      simpl; repeat split; try reflexivity; lia.
Qed.

Lemma find_best_modification_with_unfold (cocktail_name : string) (max_candidates : nat)
    (a : analysis) (r : report) :
  analyze_cocktail_ cocktail_name = Ok (AnalysisDict a) ->
  recommend_improvements_ cocktail_name None = Ok (ReportDict r) ->
  find_best_modification_with analyze_cocktail_ recommend_improvements_ modify_cocktail_
    minus cocktail_name max_candidates
  = match recommendations r with
    | [] =>
        Ok (FlavorOptimizerV3.NoBest cocktail_name
              (match message r with
               | Some m => m
               | None => "No recommendations available"%string
               end))
    | recs =>
        match test_candidates_with modify_cocktail_ minus cocktail_name (overall_balance a) 0
                (firstn max_candidates recs) with
        | [] => Ok (FlavorOptimizerV3.NoBest cocktail_name
                      "Could not test any modifications")
        | c :: candidates =>
            Ok (FlavorOptimizerV3.Best cocktail_name (overall_balance a)
                  (max_by FlavorOptimizerV3.improvement c candidates)
                  (c :: candidates) (length (c :: candidates)))
        end
    end.
Proof.
  intros Ha Hr. unfold find_best_modification_with.
  rewrite Ha; cbv beta iota delta [bind]. rewrite Hr; cbv beta iota delta [bind].
  reflexivity.
Qed.

End CollaboratorFacts.

(** The selection of V3 is the one above with its own analyzer, its own
    [recommend_improvements] and its own modifier. *)
Lemma test_candidates_with_self (self : FlavorOptimizerV3.t) (cocktail_name : string)
    (ob : R) (recs : list recommendation) :
  forall i,
    FlavorOptimizerV3.test_candidates self cocktail_name ob i recs
    = test_candidates_with (modify_cocktail (FlavorOptimizerV3.modifier self)) Rminus
        cocktail_name ob i recs.
Proof.
  induction recs as [|rec recs IH]; intros i; simpl; [reflexivity|].
  rewrite IH; reflexivity.
Qed.

Lemma find_best_modification_with_self (self : FlavorOptimizerV3.t)
    (cocktail_name : string) (max_candidates : nat) :
  FlavorOptimizerV3.find_best_modification self cocktail_name max_candidates
  = find_best_modification_with
      (analyze_cocktail (FlavorOptimizerV3.analyzer self))
      (FlavorOptimizerV3.recommend_improvements self)
      (modify_cocktail (FlavorOptimizerV3.modifier self)) Rminus
      cocktail_name max_candidates.
Proof.
  unfold FlavorOptimizerV3.find_best_modification, find_best_modification_with.
  destruct (analyze_cocktail _ _) as [[e|a]|e]; cbv beta iota delta [bind];
    try reflexivity.
  destruct (FlavorOptimizerV3.recommend_improvements _ _ _) as [[e|r]|e];
    cbv beta iota delta [bind]; try reflexivity.
  destruct (recommendations r) as [|rec recs]; [reflexivity|].
  rewrite test_candidates_with_self. reflexivity.
Qed.

(** C4: [find_best_modification] of V3, whatever its analyzer, its
    recommender and its modifier return and however the subtraction
    rounds: when the tested candidates are not empty it returns one of
    them as the best modification; every candidate's improvement is the
    difference balance_after - balance_before that was computed for it,
    none has a greater improvement than the best, and among those with
    the same improvement the best has the lowest rank.  The ranking of V4, for the
    exact product and for a rounded one alike, puts first the candidate
    whose stored combined_score is greatest, the earliest tested among
    equals.  But the selector that weights by plausibility,
    [find_best_modification] of V4, raises AttributeError on every input:
    it returns no candidate at all. *)
Theorem best_candidate_is_first_maximum
    (analyze_cocktail_ : string -> result analysis_dict)
    (recommend_improvements_ : string -> option string -> result recommend_dict)
    (modify_cocktail_ : string -> list modification -> result modify_dict)
    (minus : R -> R -> R)
    (cocktail_name : string) (max_candidates : nat)
    (a : analysis) (r : report)
    (c : FlavorOptimizerV3.candidate) (cs : list FlavorOptimizerV3.candidate) :
  analyze_cocktail_ cocktail_name = Ok (AnalysisDict a) ->
  recommend_improvements_ cocktail_name None = Ok (ReportDict r) ->
  test_candidates_with modify_cocktail_ minus cocktail_name (overall_balance a) 0
    (firstn max_candidates (recommendations r)) = c :: cs ->
  (exists best,
      find_best_modification_with analyze_cocktail_ recommend_improvements_ modify_cocktail_
        minus cocktail_name max_candidates
      = Ok (FlavorOptimizerV3.Best cocktail_name (overall_balance a) best (c :: cs)
              (length (c :: cs)))
      /\ first_max FlavorOptimizerV3.improvement (c :: cs) best
      /\ forall x, In x (c :: cs) ->
           FlavorOptimizerV3.improvement x
           = minus (FlavorOptimizerV3.new_balance x) (FlavorOptimizerV3.original_balance x)
           /\ FlavorOptimizerV3.improvement x <= FlavorOptimizerV3.improvement best
           /\ (FlavorOptimizerV3.improvement x = FlavorOptimizerV3.improvement best ->
               (FlavorOptimizerV3.rank best <= FlavorOptimizerV3.rank x)%nat))
  /\ (forall (times : R -> R -> R) (v4 : FlavorOptimizerV4.t)
             (c4 : FlavorOptimizerV4.candidate) (cs4 : list FlavorOptimizerV4.candidate),
        exists best4 rest,
          rank_with times v4 (c4 :: cs4) = best4 :: rest
          /\ Permutation (best4 :: rest) (scored_candidates_with times v4 (c4 :: cs4))
          /\ first_max FlavorOptimizerV4.combined_score
               (scored_candidates_with times v4 (c4 :: cs4)) best4)
  /\ (forall (v4 : FlavorOptimizerV4.t) (any_name : string) (n : nat),
        FlavorOptimizerV4.find_best_modification v4 any_name n
        = Raise (AttributeError "analyze_cocktail_by_name")).
Proof.
  intros Ha Hr Hcs; split; [|split].
  - exists (max_by FlavorOptimizerV3.improvement c cs).
    pose proof (max_by_first_max FlavorOptimizerV3.improvement c cs) as Hmax.
    destruct (test_candidates_with_spec modify_cocktail_ minus cocktail_name
                (overall_balance a)
                (firstn max_candidates (recommendations r)) 0%nat) as [Hsorted Hfacts].
    cbv zeta in Hsorted, Hfacts; rewrite Hcs in Hsorted, Hfacts.
    split; [|split].
    + rewrite (find_best_modification_with_unfold _ _ _ _ _ _ a r Ha Hr).
      destruct (recommendations r) as [|rec recs] eqn:Erecs.
      * rewrite firstn_nil in Hcs; discriminate Hcs.
      * rewrite Hcs; reflexivity.
    + exact Hmax.
    + intros x Hx.
      rewrite Forall_forall in Hfacts.
      destruct (Hfacts x Hx) as (_ & Hob & Himp).
      split; [rewrite Hob; exact Himp|].
      split; [exact (first_max_ge _ _ _ _ Hmax Hx)|].
      intros Heq.
      destruct Hmax as (l1 & l2 & Hl & H1 & H2).
      rewrite Hl in Hx, Hsorted.
      apply in_app_or in Hx; destruct Hx as [Hx|[<-|Hx]].
      * rewrite Forall_forall in H1; specialize (H1 x Hx); lra.
      * lia.
      * apply StronglySorted_suffix, StronglySorted_inv in Hsorted.
        destruct Hsorted as [_ Hlt]; rewrite Forall_forall in Hlt.
        specialize (Hlt x Hx); lia.
  - intros times v4 c4 cs4.
    unfold rank_with; cbv zeta. fold (scored_candidates_with times v4 (c4 :: cs4)).
    destruct (sorted FlavorOptimizerV4.combined_score true
                (scored_candidates_with times v4 (c4 :: cs4))) as [|best4 rest] eqn:E.
    + exfalso; revert E; unfold scored_candidates_with; simpl; apply insert_by_not_nil.
    + exists best4, rest; split; [reflexivity|]. split.
      * rewrite <- E; apply sorted_perm.
      * exact (sorted_head_first_max _ _ _ _ E).
  - intros v4 any_name n. reflexivity.
Qed.

Lemma spiky_recommendations_v3 :
  FlavorOptimizerV3.recommend_improvements spiky_v3 "house" None
  = Ok (ReportDict (spiky_report 18.2)).
Proof.
  unfold FlavorOptimizerV3.recommend_improvements, spiky_v3.
  cbn [FlavorOptimizerV3.analyzer].
  rewrite analyze_house by lra; cbn [bind].
  unfold FlavorOptimizerV2.recommend_from_analysis,
    FlavorOptimizerV3._should_recommend_changes, FlavorOptimizerV3._identify_imbalances,
    FlavorOptimizerV3._calculate_adaptive_amount.
  cbn [house_analysis balance_scores overall_balance aggregated total_volume
       analysis_ingredients].
  cbv zeta.
  rewrite spiky_should_recommend; cbn [negb].
  rewrite spiky_identified.
  cbn [flat_map spiky_issue imb_dimension imb_type app].
  change (Rabs (get spiky_taste sweet - np_mean (values spiky_taste)))
    with (deviation spiky_taste sweet).
  rewrite spiky_amount.
  reflexivity.
Qed.

Lemma tasting_candidates_tested :
  test_candidates_with tasting_modifier Rminus "house" (overall_balance spiky_analysis) 0
    (firstn 5 (recommendations tasting_report))
  = tasting_candidates.
Proof. reflexivity. Qed.

(** Of the three candidates that could be tested, the second one is
    returned: it improves the balance more than the first, and as much as
    the last, which was tested later. *)
Example tasting_selects_earlier_of_equals :
  find_best_modification_with tasting_analyzer tasting_recommender tasting_modifier Rminus
    "house" 5
  = Ok (FlavorOptimizerV3.Best "house" (overall_balance spiky_analysis)
          (tasting_candidate 2 "lime juice" 0.91) tasting_candidates 3).
Proof.
  rewrite (find_best_modification_with_unfold tasting_analyzer tasting_recommender
             tasting_modifier Rminus "house" 5 spiky_analysis tasting_report eq_refl eq_refl).
  change (recommendations tasting_report)
    with (map tasting_recommendation
            ["lemon juice"; "lime juice"; "vinegar"; "grapefruit juice"]%string).
  cbn [map].
  match goal with
  | |- context [test_candidates_with ?m ?f ?n ?o ?i ?l] =>
      change (test_candidates_with m f n o i l) with tasting_candidates
  end.
  unfold tasting_candidates; cbv iota.
  cbn [max_by].
  repeat (cbn [FlavorOptimizerV3.improvement tasting_candidate]; decide_cmp; cbv iota).
  reflexivity.
Qed.

Lemma best_candidate_is_first_maximum_witness :
  find_best_modification_with tasting_analyzer tasting_recommender tasting_modifier
    Rminus "house" 5
  = Ok (FlavorOptimizerV3.Best "house" (overall_balance spiky_analysis)
          (tasting_candidate 2 "lime juice" 0.91) tasting_candidates 3)
  /\ first_max FlavorOptimizerV3.improvement tasting_candidates
       (tasting_candidate 2 "lime juice" 0.91)
  /\ forall x, In x tasting_candidates ->
       FlavorOptimizerV3.improvement x
       <= FlavorOptimizerV3.improvement (tasting_candidate 2 "lime juice" 0.91)
       /\ (FlavorOptimizerV3.improvement x
           = FlavorOptimizerV3.improvement (tasting_candidate 2 "lime juice" 0.91) ->
           (2 <= FlavorOptimizerV3.rank x)%nat).
Proof.
  destruct (best_candidate_is_first_maximum tasting_analyzer tasting_recommender
              tasting_modifier Rminus "house" 5 spiky_analysis tasting_report
              (tasting_candidate 1 "lemon juice" 0.88)
              [tasting_candidate 2 "lime juice" 0.91;
               tasting_candidate 4 "grapefruit juice" 0.91]
              eq_refl eq_refl tasting_candidates_tested)
    as [(best & Hbest & Hmax & Hall) _].
  rewrite tasting_selects_earlier_of_equals in Hbest.
  injection Hbest as <-.
  split; [exact tasting_selects_earlier_of_equals|]. split; [exact Hmax|].
  intros x Hx. destruct (Hall x Hx) as (_ & Hle & Htie).
  split; [exact Hle | exact Htie].
Defined.

(** ** Unknown cocktail names *)

Lemma analyze_unknown (an : CocktailAnalyzer) (cocktail_name : string) :
  _find_cocktail an cocktail_name = None ->
  analyze_cocktail an cocktail_name = Ok (ErrorDict (not_found_message cocktail_name)).
Proof. intros H; unfold analyze_cocktail; rewrite H; reflexivity. Qed.

(** C5: for a name that matches no known cocktail, analysis,
    modification, the recommendation operation of every optimizer and
    the best-modification selection of V3 return the dictionary with the
    single key 'error'; the best-modification selection of V4 does not:
    it raises [AttributeError], the analyzer having no method
    [analyze_cocktail_by_name]. *)
Theorem unknown_cocktail_results
    (an : CocktailAnalyzer) (p : MolecularProfiler) (m : CocktailModifier)
    (available : list string) (plausibility_table : list (string * R))
    (cocktail_name : string) (modifications : list modification)
    (target : option string) (max_candidates : nat) :
  _find_cocktail an cocktail_name = None ->
  let msg := not_found_message cocktail_name in
  analyze_cocktail an cocktail_name = Ok (ErrorDict msg)
  /\ modify_cocktail (mkModifier p an) cocktail_name modifications = Ok (ModifyError msg)
  /\ FlavorOptimizer.recommend_improvements (FlavorOptimizer.mk p an m available)
       cocktail_name target = Ok (RecommendError msg)
  /\ FlavorOptimizerV2.recommend_improvements (FlavorOptimizerV2.mk p an m)
       cocktail_name target = Ok (RecommendError msg)
  /\ FlavorOptimizerV3.recommend_improvements (FlavorOptimizerV3.mk p an m)
       cocktail_name target = Ok (RecommendError msg)
  /\ FlavorOptimizerV3.find_best_modification (FlavorOptimizerV3.mk p an m)
       cocktail_name max_candidates = Ok (FlavorOptimizerV3.BestError msg)
  /\ FlavorOptimizerV4.find_best_modification
       (FlavorOptimizerV4.mk (FlavorOptimizerV3.mk p an m) plausibility_table)
       cocktail_name max_candidates
     = Raise (AttributeError "analyze_cocktail_by_name").
Proof.
  intros H; cbv zeta.
  pose proof (analyze_unknown an cocktail_name H) as Ha.
  split; [exact Ha|].
  unfold modify_cocktail, FlavorOptimizer.recommend_improvements,
    FlavorOptimizerV2.recommend_improvements, FlavorOptimizerV3.recommend_improvements,
    FlavorOptimizerV3.find_best_modification.
  cbn [modifier_analyzer FlavorOptimizer.analyzer FlavorOptimizerV2.analyzer
       FlavorOptimizerV3.analyzer].
  rewrite Ha; cbn [bind].
  repeat split.
Qed.

Lemma unknown_cocktail_results_witness :
  FlavorOptimizerV4.find_best_modification
    (FlavorOptimizerV4.mk spiky_v3 [])
    "No Such Cocktail" 5
  = Raise (AttributeError "analyze_cocktail_by_name")
  /\ FlavorOptimizerV3.find_best_modification spiky_v3 "No Such Cocktail" 5
     = Ok (FlavorOptimizerV3.BestError "Cocktail 'No Such Cocktail' not found").
Proof.
  destruct (unknown_cocktail_results (house_analyzer spiky_taste 101) citrus_profiler
              (mkModifier bar_profiler (house_analyzer spiky_taste 101)) [] []
              "No Such Cocktail" [] None 5 eq_refl)
    as (_ & _ & _ & _ & _ & H3 & H4).
  split; [exact H4 | exact H3].
Defined.

(** * Further properties of the code *)

(** ** Scores of one ingredient *)

Lemma sqrt_ratio_bounds (r m : nat) :
  (r <= m)%nat -> (1 <= m)%nat -> 0 <= sqrt (INR r) / sqrt (INR m) <= 1.
Proof.
  intros Hrm Hm.
  assert (H1 : 1 <= INR m) by (replace 1 with (INR 1) by reflexivity; apply le_INR, Hm).
  assert (Hr : 0 <= INR r) by apply pos_INR.
  assert (Hle : INR r <= INR m) by apply le_INR, Hrm.
  assert (Hsm : 0 < sqrt (INR m)) by (apply sqrt_lt_R0; lra).
  pose proof (sqrt_pos (INR r)) as Hsr.
  pose proof (sqrt_le_1_alt _ _ Hle) as Hs.
  split.
  - apply Rmult_le_pos; [exact Hsr | apply Rlt_le, Rinv_0_lt_compat, Hsm].
  - apply (Rmult_le_reg_r (sqrt (INR m))); [exact Hsm|].
    unfold Rdiv; rewrite Rmult_assoc, Rinv_l by lra; lra.
Qed.

Lemma sqrt_ratio_one (m : nat) : (1 <= m)%nat -> sqrt (INR m) / sqrt (INR m) = 1.
Proof.
  intros Hm.
  assert (H1 : 1 <= INR m) by (replace 1 with (INR 1) by reflexivity; apply le_INR, Hm).
  assert (Hsm : 0 < sqrt (INR m)) by (apply sqrt_lt_R0; lra).
  unfold Rdiv; apply Rinv_r; lra.
Qed.

Lemma sqrt_ratio_zero (m : nat) : sqrt (INR 0) / sqrt (INR m) = 0.
Proof. simpl; rewrite sqrt_0; unfold Rdiv; lra. Qed.

Lemma compute_taste_scores_legal (fp : flavor_profile) :
  legal (_compute_taste_scores fp).
Proof.
  intros d.
  set (m := Nat.max (raw_taste fp sweet)
              (Nat.max (raw_taste fp bitter)
                 (Nat.max (raw_taste fp sour)
                    (Nat.max (raw_taste fp savory) (Nat.max (raw_taste fp aromatic) 1))))).
  assert (Hget : get (_compute_taste_scores fp) d
                 = sqrt (INR (raw_taste fp d)) / sqrt (INR m))
    by (destruct d; reflexivity).
  rewrite Hget; apply sqrt_ratio_bounds; destruct d; unfold m; lia.
Qed.

(** X1: the taste scores that [_compute_taste_scores] gives an
    ingredient all lie in [[0,1]]; a dimension with no raw count scores
    0, and as soon as one raw count is positive the dimension with the
    greatest raw count scores exactly 1. *)
Theorem taste_scores_are_normalised (fp : flavor_profile) :
  legal (_compute_taste_scores fp)
  /\ (forall d, raw_taste fp d = 0%nat -> get (_compute_taste_scores fp) d = 0)
  /\ (forall d, (1 <= raw_taste fp d)%nat ->
                (forall d', (raw_taste fp d' <= raw_taste fp d)%nat) ->
                get (_compute_taste_scores fp) d = 1)
  /\ ((exists d, (1 <= raw_taste fp d)%nat) ->
      exists d, get (_compute_taste_scores fp) d = 1).
Proof.
  set (m := Nat.max (raw_taste fp sweet)
              (Nat.max (raw_taste fp bitter)
                 (Nat.max (raw_taste fp sour)
                    (Nat.max (raw_taste fp savory) (Nat.max (raw_taste fp aromatic) 1))))).
  assert (Hm1 : (1 <= m)%nat) by (unfold m; lia).
  assert (Hle : forall d, (raw_taste fp d <= m)%nat) by (intros []; unfold m; lia).
  assert (Hget : forall d, get (_compute_taste_scores fp) d
                           = sqrt (INR (raw_taste fp d)) / sqrt (INR m))
    by (intros []; reflexivity).
  assert (Hmax : forall d, (1 <= raw_taste fp d)%nat ->
                           (forall d', (raw_taste fp d' <= raw_taste fp d)%nat) ->
                           get (_compute_taste_scores fp) d = 1).
  { intros d Hd Hall.
    assert (Heq : raw_taste fp d = m).
    { pose proof (Hall sweet); pose proof (Hall bitter); pose proof (Hall sour);
        pose proof (Hall savory); pose proof (Hall aromatic); pose proof (Hle d).
      unfold m in *; lia. }
    rewrite Hget, Heq; apply sqrt_ratio_one, Hm1. }
  split; [|split; [|split]].
  - intros d; rewrite Hget; apply sqrt_ratio_bounds; [apply Hle | exact Hm1].
  - intros d Hd; rewrite Hget, Hd; apply sqrt_ratio_zero.
  - exact Hmax.
  - intros [d0 Hd0].
    assert (Hex : exists d, raw_taste fp d = m).
    { pose proof (Hle d0) as Hd0m.
      destruct (Nat.eq_dec (raw_taste fp sweet) m) as [E|N1]; [exists sweet; exact E|].
      destruct (Nat.eq_dec (raw_taste fp bitter) m) as [E|N2]; [exists bitter; exact E|].
      destruct (Nat.eq_dec (raw_taste fp sour) m) as [E|N3]; [exists sour; exact E|].
      destruct (Nat.eq_dec (raw_taste fp savory) m) as [E|N4]; [exists savory; exact E|].
      destruct (Nat.eq_dec (raw_taste fp aromatic) m) as [E|N5]; [exists aromatic; exact E|].
      exfalso; destruct d0; unfold m in *; lia. }
    destruct Hex as [d Hd]; exists d.
    rewrite Hget, Hd; apply sqrt_ratio_one, Hm1.
Qed.

Lemma tanh_bounds (x : R) : 0 <= x -> 0 <= tanh x <= 1.
Proof.
  intros Hx.
  pose proof (exp_pos x) as Hp; pose proof (exp_pos (- x)) as Hn.
  assert (Hle : exp (- x) <= exp x).
  { destruct (Req_dec x 0) as [->|Hne]; [rewrite Ropp_0; lra|].
    left; apply exp_increasing; lra. }
  unfold tanh, sinh, cosh.
  assert (Hc : 0 < (exp x + exp (- x)) / 2) by lra.
  split.
  - apply Rmult_le_pos; [lra | apply Rlt_le, Rinv_0_lt_compat, Hc].
  - apply (Rmult_le_reg_r ((exp x + exp (- x)) / 2)); [exact Hc|].
    unfold Rdiv at 1; rewrite Rmult_assoc, Rinv_l by lra; lra.
Qed.

Lemma sum_bounds (lo hi : R) (l : list R) :
  Forall (fun x => lo <= x <= hi) l ->
  INR (length l) * lo <= sum l <= INR (length l) * hi.
Proof.
  induction 1 as [|x l Hx _ IH].
  - rewrite sum_nil; simpl; lra.
  - rewrite sum_cons.
    change (length (x :: l)) with (S (length l)); rewrite S_INR; lra.
Qed.

Lemma mean_bounds (lo hi : R) (l : list R) :
  l <> [] -> Forall (fun x => lo <= x <= hi) l -> lo <= np_mean l <= hi.
Proof.
  intros Hne Hall.
  pose proof (sum_bounds lo hi l Hall) as [H1 H2].
  assert (Hn : 0 < INR (length l)).
  { destruct l as [|x l]; [contradiction|].
    change (length (x :: l)) with (S (length l)); rewrite S_INR.
    pose proof (pos_INR (length l)); lra. }
  unfold np_mean; split.
  - apply (Rmult_le_reg_r (INR (length l))); [exact Hn|].
    unfold Rdiv; rewrite Rmult_assoc, Rinv_l by lra; lra.
  - apply (Rmult_le_reg_r (INR (length l))); [exact Hn|].
    unfold Rdiv; rewrite Rmult_assoc, Rinv_l by lra; lra.
Qed.

Lemma molecule_volatility_bounds (mol : molecule) :
  Forall (fun x => 0.2 <= x <= 1) (molecule_volatility mol).
Proof.
  unfold molecule_volatility.
  destruct (Reqb _ 0); [constructor|].
  constructor; [|constructor].
  destruct (Rltb _ 100); [|destruct (Rltb _ 200); [|destruct (Rltb _ 300)]];
    destruct (contains "ester" _ || contains "aldehyde" _)%bool;
    destruct (contains "aromatic" _);
    unfold Rmin; destruct (Rle_dec _ _); lra.
Qed.

Lemma flat_map_Forall {A B : Type} (P : B -> Prop) (f : A -> list B) (l : list A) :
  (forall a, Forall P (f a)) -> Forall P (flat_map f l).
Proof.
  intros Hf; induction l as [|a l IH]; simpl; [constructor|].
  apply Forall_app; split; [apply Hf | exact IH].
Qed.

Lemma flat_map_Forall_in {A B : Type} (P : B -> Prop) (f : A -> list B) (l : list A) :
  (forall a, In a l -> Forall P (f a)) -> Forall P (flat_map f l).
Proof.
  induction l as [|a l IH]; intros Hf; simpl; [constructor|].
  apply Forall_app; split; [apply Hf; left; reflexivity|].
  apply IH; intros b Hb; apply Hf; right; exact Hb.
Qed.

Lemma estimate_volatility_bounds (molecules : list molecule) :
  0 <= _estimate_volatility molecules <= 1.
Proof.
  unfold _estimate_volatility.
  destruct molecules as [|mol rest]; [lra|].
  pose proof (flat_map_Forall (fun x => 0.2 <= x <= 1) molecule_volatility (mol :: rest)
                molecule_volatility_bounds) as Hall.
  destruct (flat_map molecule_volatility (mol :: rest)) as [|v vs]; [lra|].
  assert (0.2 <= np_mean (v :: vs) <= 1) by (apply mean_bounds; [discriminate | exact Hall]).
  lra.
Qed.

(** X2: the volatility estimate of a list of molecules is 0 exactly when
    no molecule carries a non-zero molecular weight (molecules without a
    weight are skipped, not counted as 0), and lies in [[0.2, 1]]
    otherwise. *)
Theorem volatility_estimate_range (molecules : list molecule) :
  (flat_map molecule_volatility molecules = [] /\ _estimate_volatility molecules = 0)
  \/ (flat_map molecule_volatility molecules <> []
      /\ 0.2 <= _estimate_volatility molecules <= 1).
Proof.
  unfold _estimate_volatility.
  destruct molecules as [|mol rest]; [left; split; [reflexivity | lra]|].
  pose proof (flat_map_Forall (fun x => 0.2 <= x <= 1) molecule_volatility (mol :: rest)
                molecule_volatility_bounds) as Hall.
  destruct (flat_map molecule_volatility (mol :: rest)) as [|v vs] eqn:E.
  - left; split; [reflexivity | lra].
  - right; split; [discriminate|].
    apply mean_bounds; [discriminate | exact Hall].
Qed.

(** The weight that [_compute_aromatic_intensity] reads for a molecule. *)
Lemma aromatic_totals_ok (molecules : list molecule) :
  (forall mol w, In mol molecules -> is_aromatic mol = true ->
                 mol_molecular_weight mol = Some w -> 0 < w) ->
  forall n t, 0 <= t ->
  exists n' t', aromatic_totals molecules n t = Ok (n', t')
                /\ (n <= n')%nat /\ (n' <= n + length molecules)%nat /\ 0 <= t'
                /\ (n' = n -> forall mol, In mol molecules -> is_aromatic mol = false).
Proof.
  induction molecules as [|mol rest IH]; intros Hpos n t Ht.
  - exists n, t; simpl; repeat split; try lia; try lra; try (intros _ mol []).
  - assert (Hrest : forall mol' w, In mol' rest -> is_aromatic mol' = true ->
                                   mol_molecular_weight mol' = Some w -> 0 < w)
      by (intros mol' w Hin; apply Hpos; right; exact Hin).
    simpl. destruct (is_aromatic mol) eqn:Ha.
    + set (mw := match mol_molecular_weight mol with Some w => w | None => 200 end).
      assert (Hmw : 0 < mw).
      { unfold mw; destruct (mol_molecular_weight mol) as [w|] eqn:Ew;
          [apply (Hpos mol w); [left; reflexivity | exact Ha | exact Ew] | lra]. }
      destruct (Rltb mw 300).
      * unfold truediv. rewrite (proj2 (Reqb_false (mw / 100.0) 0)) by (intro; lra).
        simpl.
        assert (Hc : 0 <= t + 1.0 / (mw / 100.0)).
        { assert (0 < 1.0 / (mw / 100.0))
            by (apply Rdiv_lt_0_compat; lra).
          lra. }
        destruct (IH Hrest (S n) _ Hc) as (n' & t' & E & H1 & H2 & H3 & _).
        exists n', t'; repeat split; try exact E; try lia; try exact H3.
      * destruct (IH Hrest (S n) t Ht) as (n' & t' & E & H1 & H2 & H3 & _).
        exists n', t'; repeat split; try exact E; try lia; try exact H3.
    + destruct (IH Hrest n t Ht) as (n' & t' & E & H1 & H2 & H3 & H4).
      exists n', t'; repeat split; try exact E; try lia; try exact H3.
      intros En mol' [<-|Hin]; [exact Ha | apply (H4 En), Hin].
Qed.

(** X3: when every aromatic molecule that carries a molecular weight has
    a positive one, [_compute_aromatic_intensity] returns a value in
    [[0,1]], and the value is 0 when no molecule is aromatic. *)
Theorem aromatic_intensity_range (molecules : list molecule)
    (Hpos : positive_aromatic_weights molecules) :
  exists v, _compute_aromatic_intensity molecules = Ok v /\ 0 <= v <= 1
            /\ ((forall mol, In mol molecules -> is_aromatic mol = false) -> v = 0).
Proof.
  unfold _compute_aromatic_intensity.
  destruct molecules as [|mol rest];
    [eexists; split; [reflexivity|]; split; [lra | intros; lra]|].
  destruct (aromatic_totals_ok (mol :: rest) Hpos 0%nat 0 (Rle_refl 0))
    as (n' & t' & E & _ & Hn & Ht & Hnone).
  rewrite E; cbv beta iota delta [bind].
  destruct (Nat.eqb n' 0) eqn:En.
  - eexists; split; [reflexivity|]; split; [lra | intros; lra].
  - apply Nat.eqb_neq in En.
    assert (Hn1 : 1 <= INR n')
      by (replace 1 with (INR 1) by reflexivity; apply le_INR; lia).
    assert (Hlen : INR n' <= INR (length (mol :: rest))) by (apply le_INR; lia).
    assert (Hfrac : 0 <= INR n' / INR (length (mol :: rest)) <= 1).
    { split.
      - apply Rmult_le_pos; [lra | apply Rlt_le, Rinv_0_lt_compat; lra].
      - apply (Rmult_le_reg_r (INR (length (mol :: rest)))); [lra|].
        unfold Rdiv; rewrite Rmult_assoc, Rinv_l by lra; lra. }
    assert (Harg : 0 <= t' / INR n')
      by (apply Rmult_le_pos; [lra | apply Rlt_le, Rinv_0_lt_compat; lra]).
    pose proof (tanh_bounds _ Harg) as Hth.
    eexists; split; [reflexivity|]. split.
    + assert (Hprod : 0 <= INR n' / INR (length (mol :: rest)) * tanh (t' / INR n'))
        by (apply Rmult_le_pos; lra).
      unfold Rmin; destruct (Rle_dec _ _); lra.
    + intros Hall. exfalso.
      assert (Hz : n' = 0%nat); [|lia].
      clear - E Hall.
      assert (G : forall l n t n' t', (forall m, In m l -> is_aromatic m = false) ->
                                      aromatic_totals l n t = Ok (n', t') -> n' = n).
      { induction l as [|m l IH]; intros n t n1 t1 Hl; simpl.
        - intros [= <- _]; reflexivity.
        - rewrite (Hl m (or_introl eq_refl)).
          apply IH; intros m' Hin; apply Hl; right; exact Hin. }
      apply (G _ _ _ _ _ Hall E).
Qed.

Lemma aromatic_intensity_range_witness :
  exists v, _compute_aromatic_intensity
              [mkMolecule None (Some "aromatic ring"%string) (Some 150) false false] = Ok v
            /\ 0 <= v <= 1.
Proof.
  destruct (aromatic_intensity_range
              [mkMolecule None (Some "aromatic ring"%string) (Some 150) false false])
    as (v & E & Hv & _).
  - intros mol w [<-|[]] _ [= <-]; lra.
  - exists v; split; [exact E | exact Hv].
Defined.

Lemma aromatic_totals_raises (molecules : list molecule) :
  (exists mol, In mol molecules /\ is_aromatic mol = true
               /\ mol_molecular_weight mol = Some 0) ->
  forall n t, aromatic_totals molecules n t
              = Raise (ZeroDivisionError "float division by zero").
Proof.
  induction molecules as [|m rest IH]; intros (mol & Hin & Ha & Hw) n t;
    [destruct Hin|].
  simpl. destruct Hin as [->|Hin].
  - rewrite Ha, Hw. rewrite (proj2 (Rltb_true 0 300)) by lra.
    unfold truediv. rewrite (proj2 (Reqb_true (0 / 100.0) 0)) by lra. reflexivity.
  - assert (Hex : exists mol, In mol rest /\ is_aromatic mol = true
                              /\ mol_molecular_weight mol = Some 0)
      by (exists mol; repeat split; assumption).
    destruct (is_aromatic m); [|apply IH, Hex].
    destruct (Rltb _ 300); [|apply IH, Hex].
    unfold truediv. destruct (Reqb _ 0); [reflexivity|].
    simpl; apply IH, Hex.
Qed.

(** X4: a single aromatic molecule recorded with molecular weight 0
    makes [_compute_aromatic_intensity] raise ZeroDivisionError, whereas
    [_estimate_volatility] skips that same molecule. *)
Theorem aromatic_intensity_raises_on_zero_weight (molecules : list molecule) (mol : molecule)
    (Hin : In mol molecules) (Ha : is_aromatic mol = true)
    (Hw : mol_molecular_weight mol = Some 0) :
  _compute_aromatic_intensity molecules
  = Raise (ZeroDivisionError "float division by zero")
  /\ molecule_volatility mol = [].
Proof.
  split.
  - unfold _compute_aromatic_intensity.
    destruct molecules as [|m rest]; [destruct Hin|].
    rewrite aromatic_totals_raises; [reflexivity|].
    exists mol; repeat split; assumption.
  - unfold molecule_volatility; rewrite Hw.
    rewrite (proj2 (Reqb_true 0 0)) by lra; reflexivity.
Qed.

Lemma aromatic_intensity_raises_on_zero_weight_witness :
  _compute_aromatic_intensity
    [mkMolecule None (Some "Aromatic"%string) (Some 0) false false]
  = Raise (ZeroDivisionError "float division by zero").
Proof.
  apply (aromatic_intensity_raises_on_zero_weight _
           (mkMolecule None (Some "Aromatic"%string) (Some 0) false false)).
  - left; reflexivity.
  - reflexivity.
  - reflexivity.
Defined.

(** ** Looking an ingredient up *)

Lemma lower_ascii_idempotent (c : ascii) : lower_ascii (lower_ascii c) = lower_ascii c.
Proof. destruct c as [[] [] [] [] [] [] [] []]; reflexivity. Qed.

Lemma lower_idempotent (s : string) : lower (lower s) = lower s.
Proof.
  induction s as [|c s IH]; simpl; [reflexivity|].
  rewrite lower_ascii_idempotent, IH; reflexivity.
Qed.

(** X5: the ingredient lookup of a patched profiler ignores the case of
    the name and tries its three sources in a fixed order: molecules
    filed under the lower-cased name itself win; otherwise the keyword
    table decides; the optimizer's fallback table is consulted only when
    both found nothing, by the exact lower-cased name; a name found
    nowhere has no molecules. *)
Theorem lookup_precedence (table : list (string * list string)) (loader : FlavorLoader)
    (ingredient_name : string) :
  patched_lookup table loader ingredient_name
  = patched_lookup table loader (lower ingredient_name)
  /\ (molecules_by_source loader (lower ingredient_name) <> [] ->
      patched_lookup table loader ingredient_name
      = molecules_by_source loader (lower ingredient_name))
  /\ (molecules_by_source loader (lower ingredient_name) = [] ->
      _fuzzy_match_ingredient loader (lower ingredient_name) <> [] ->
      patched_lookup table loader ingredient_name
      = _fuzzy_match_ingredient loader (lower ingredient_name))
  /\ (molecules_by_source loader (lower ingredient_name) = [] ->
      _fuzzy_match_ingredient loader (lower ingredient_name) = [] ->
      patched_lookup table loader ingredient_name
      = match assoc (lower ingredient_name) table with
        | Some bases => flat_map (fun base => molecules_by_source loader (lower base)) bases
        | None => []
        end).
Proof.
  unfold patched_lookup, get_molecules_for_ingredient, enhanced_fuzzy_match.
  rewrite !lower_idempotent.
  split; [reflexivity|].
  split; [|split].
  - intros Hd. destruct (molecules_by_source loader (lower ingredient_name));
      [contradiction | reflexivity].
  - intros -> Hf.
    destruct (_fuzzy_match_ingredient loader (lower ingredient_name));
      [contradiction | reflexivity].
  - intros -> ->. destruct (assoc (lower ingredient_name) table); reflexivity.
Qed.

Lemma lookup_precedence_witness :
  patched_lookup spirit_fallback_mappings_v2
    (mkLoader (fun s => if String.eqb s "lime"
                        then [mkMolecule None None (Some 136) false false] else []))
    "LIME"
  = [mkMolecule None None (Some 136) false false].
Proof.
  refine (proj1 (proj2 (lookup_precedence spirit_fallback_mappings_v2
            (mkLoader (fun s => if String.eqb s "lime"
                                then [mkMolecule None None (Some 136) false false] else []))
            "LIME")) _).
  simpl; discriminate.
Defined.

(** ** The profile of one ingredient and the profile cache *)

(** X6: a profile that [get_ingredient_profile] builds carries the name
    it was asked for, a positive molecule count equal to the number of
    molecules found, taste scores in [[0,1]], an aromatic intensity of at
    most 1 and a volatility in [[0,1]]. *)
Theorem built_profile_is_legal (loader : FlavorLoader) (fuzzy : string -> list molecule)
    (ingredient_ : string) (p : ingredient_profile)
    (Hbuilt : build_profile loader fuzzy ingredient_ = Ok (Some p)) :
  ingredient (core p) = ingredient_
  /\ num_molecules (core p)
     = length (get_molecules_for_ingredient loader fuzzy ingredient_)
  /\ has_molecules (core p) = true
  /\ legal (profile_taste (core p))
  /\ aromatic_intensity p <= 1
  /\ 0 <= volatility_estimate p <= 1.
Proof.
  unfold build_profile in Hbuilt.
  destruct (get_molecules_for_ingredient loader fuzzy ingredient_) as [|mol rest] eqn:Em;
    [discriminate|].
  destruct (_compute_aromatic_intensity (mol :: rest)) as [v|e] eqn:Ev; [|discriminate].
  cbv beta iota delta [bind] in Hbuilt.
  injection Hbuilt as <-.
  cbn [core ingredient num_molecules profile_taste aromatic_intensity volatility_estimate].
  split; [reflexivity|].
  split; [reflexivity|].
  split; [reflexivity|].
  split; [apply compute_taste_scores_legal|].
  split.
  - unfold _compute_aromatic_intensity in Ev.
    destruct (aromatic_totals (mol :: rest) 0 0) as [[n t]|]; [|discriminate].
    cbv beta iota delta [bind] in Ev.
    destruct (Nat.eqb n 0); injection Ev as <-; [lra|].
    eapply Rle_trans; [apply Rmin_r | lra].
  - exact (estimate_volatility_bounds (mol :: rest)).
Qed.

Lemma built_profile_is_legal_witness :
  exists p, build_profile lime_loader (_fuzzy_match_ingredient lime_loader) "Lime" = Ok (Some p)
            /\ legal (profile_taste (core p)).
Proof.
  eexists; split; [reflexivity|].
  refine (proj1 (proj2 (proj2 (proj2
            (built_profile_is_legal lime_loader (_fuzzy_match_ingredient lime_loader)
               "Lime" _ _))))).
  reflexivity.
Defined.

Lemma cache_lookup_store_same (k : string) (p : ingredient_profile) (cache : profile_cache) :
  cache_lookup k cache = None -> cache_lookup k (cache_store k p cache) = Some p.
Proof.
  unfold cache_store; induction cache as [|[k' q] cache IH]; simpl.
  - intros _; rewrite String.eqb_refl; reflexivity.
  - destruct (String.eqb k' k); [discriminate | exact IH].
Qed.

Lemma cache_lookup_store_found (k k' : string) (p q : ingredient_profile)
    (cache : profile_cache) :
  cache_lookup k cache = Some q -> cache_lookup k (cache_store k' p cache) = Some q.
Proof.
  unfold cache_store; induction cache as [|[k0 q0] cache IH]; simpl; [discriminate|].
  destruct (String.eqb k0 k); [trivial | exact IH].
Qed.

Lemma cache_lookup_store_inv (k k' : string) (p q : ingredient_profile)
    (cache : profile_cache) :
  cache_lookup k (cache_store k' p cache) = Some q ->
  cache_lookup k cache = Some q \/ (k = k' /\ q = p).
Proof.
  unfold cache_store; induction cache as [|[k0 q0] cache IH]; simpl.
  - destruct (String.eqb k' k) eqn:E; [|discriminate].
    apply String.eqb_eq in E; intros [= <-]; right; split; [symmetry; exact E | reflexivity].
  - destruct (String.eqb k0 k); [left; assumption | exact IH].
Qed.

(** X7: the profile cache never changes an answer.  Starting from a
    cache whose entries are the profiles the profiler builds, a lookup
    returns what an uncached lookup returns (the built profile, or the
    empty profile for an ingredient without molecules, which is not
    cached), keeps every earlier entry, leaves the cache consistent, and
    asking again returns the same profile without changing the cache. *)
Theorem profile_cache_is_transparent (loader : FlavorLoader)
    (fuzzy : string -> list molecule) (ingredient_ : string)
    (cache cache' : profile_cache) (p : ingredient_profile)
    (Hcache : cache_consistent loader fuzzy cache)
    (Hget : get_ingredient_profile_cached loader fuzzy ingredient_ cache = Ok (p, cache')) :
  (build_profile loader fuzzy ingredient_ = Ok (Some p)
   \/ (build_profile loader fuzzy ingredient_ = Ok None
       /\ p = empty_ingredient_profile /\ cache' = cache))
  /\ cache_consistent loader fuzzy cache'
  /\ (forall k q, cache_lookup k cache = Some q -> cache_lookup k cache' = Some q)
  /\ get_ingredient_profile_cached loader fuzzy ingredient_ cache' = Ok (p, cache').
Proof.
  unfold get_ingredient_profile_cached in Hget.
  destruct (cache_lookup ingredient_ cache) as [q|] eqn:El.
  - injection Hget as <- <-.
    split; [left; apply Hcache, El|].
    split; [exact Hcache|].
    split; [trivial|].
    unfold get_ingredient_profile_cached; rewrite El; reflexivity.
  - destruct (build_profile loader fuzzy ingredient_) as [[q|]|e] eqn:Eb;
      cbv beta iota delta [bind] in Hget; [| |discriminate].
    + injection Hget as <- <-.
      split; [left; reflexivity|].
      split.
      { intros k q' Hk.
        destruct (cache_lookup_store_inv _ _ _ _ _ Hk) as [Hold|[-> ->]];
          [apply Hcache, Hold | exact Eb]. }
      split; [intros k q' Hk; apply cache_lookup_store_found, Hk|].
      unfold get_ingredient_profile_cached.
      rewrite (cache_lookup_store_same _ _ _ El); reflexivity.
    + injection Hget as <- <-.
      split; [right; repeat split; reflexivity|].
      split; [exact Hcache|].
      split; [trivial|].
      unfold get_ingredient_profile_cached; rewrite El, Eb; reflexivity.
Qed.

Lemma profile_cache_is_transparent_witness :
  exists p cache',
    get_ingredient_profile_cached lime_loader (_fuzzy_match_ingredient lime_loader)
      "Lime" [] = Ok (p, cache')
    /\ get_ingredient_profile_cached lime_loader (_fuzzy_match_ingredient lime_loader)
         "Lime" cache' = Ok (p, cache').
Proof.
  eexists; eexists; split; [reflexivity|].
  refine (proj2 (proj2 (proj2
            (profile_cache_is_transparent lime_loader (_fuzzy_match_ingredient lime_loader)
               "Lime" [] _ _ _ _)))).
  - intros k q Hk; discriminate Hk.
  - reflexivity.
Defined.

(** ** Complexity *)

Lemma distinct_keys_incl (t1 t2 : list (list (string * nat))) :
  incl t1 t2 -> (distinct_keys t1 <= distinct_keys t2)%nat.
Proof.
  intros Hincl; unfold distinct_keys.
  apply NoDup_incl_length; [apply NoDup_nodup|].
  intros k Hk. apply nodup_In in Hk. apply nodup_In.
  apply in_flat_map in Hk as (t & Ht & Hk).
  apply in_flat_map; exists t; split; [apply Hincl, Ht | exact Hk].
Qed.

Lemma Rmin_div_bounds (n : nat) (c : R) : 0 < c -> 0 <= Rmin (INR n / c) 1.0 <= 1.
Proof.
  intros Hc. pose proof (pos_INR n) as Hn.
  assert (0 <= INR n / c)
    by (apply Rmult_le_pos; [exact Hn | apply Rlt_le, Rinv_0_lt_compat, Hc]).
  unfold Rmin; destruct (Rle_dec _ _); lra.
Qed.

Lemma Rmin_div_mono (n m : nat) (c : R) :
  0 < c -> (n <= m)%nat -> Rmin (INR n / c) 1.0 <= Rmin (INR m / c) 1.0.
Proof.
  intros Hc Hnm. apply le_INR in Hnm.
  assert (INR n / c <= INR m / c).
  { unfold Rdiv; apply Rmult_le_compat_r; [apply Rlt_le, Rinv_0_lt_compat, Hc | exact Hnm]. }
  unfold Rmin; destruct (Rle_dec _ _); destruct (Rle_dec _ _); lra.
Qed.

(** X8: the complexity score of a cocktail lies in [[0,1]], and a
    cocktail whose ingredient profiles include those of another one is at
    least as complex. *)
Theorem complexity_bounded_and_monotone (profiles more : list ingredient_profile) :
  0 <= _compute_complexity profiles <= 1
  /\ (incl profiles more -> _compute_complexity profiles <= _compute_complexity more).
Proof.
  assert (Hb : forall ps, 0 <= _compute_complexity ps <= 1).
  { intros ps; unfold _compute_complexity.
    destruct ps as [|p ps]; [lra|].
    pose proof (Rmin_div_bounds (distinct_keys (map flavor_keywords (p :: ps))) 30.0
                  ltac:(lra)).
    pose proof (Rmin_div_bounds (distinct_keys (map functional_groups (p :: ps))) 10.0
                  ltac:(lra)).
    lra. }
  split; [apply Hb|].
  intros Hincl.
  destruct profiles as [|p ps];
    [pose proof (Hb more); change (_compute_complexity []) with 0.0; lra|].
  destruct more as [|q qs]; [destruct (Hincl p (or_introl eq_refl))|].
  unfold _compute_complexity.
  assert (H1 : (distinct_keys (map flavor_keywords (p :: ps))
                <= distinct_keys (map flavor_keywords (q :: qs)))%nat)
    by (apply distinct_keys_incl, incl_map, Hincl).
  assert (H2 : (distinct_keys (map functional_groups (p :: ps))
                <= distinct_keys (map functional_groups (q :: qs)))%nat)
    by (apply distinct_keys_incl, incl_map, Hincl).
  pose proof (Rmin_div_mono _ _ 30.0 ltac:(lra) H1).
  pose proof (Rmin_div_mono _ _ 10.0 ltac:(lra) H2).
  lra.
Qed.

(** ** Modifying a cocktail *)

Lemma str_in_true (x : string) (l : list string) : str_in x l = true <-> In x l.
Proof.
  unfold str_in; rewrite existsb_exists; split.
  - intros (y & Hy & E); apply String.eqb_eq in E; subst; exact Hy.
  - intros H; exists x; split; [exact H | apply String.eqb_refl].
Qed.

Lemma list_index_lt (x : string) (l : list string) :
  str_in x l = true -> (list_index x l < length l)%nat.
Proof.
  induction l as [|y l IH]; simpl; [discriminate|].
  rewrite String.eqb_sym.
  destruct (String.eqb y x); simpl; [lia|].
  intros H; apply IH in H; lia.
Qed.

Lemma list_index_app_new (x : string) (l : list string) :
  str_in x l = false -> list_index x (l ++ [x]) = length l.
Proof.
  induction l as [|y l IH]; simpl.
  - intros _; rewrite String.eqb_refl; reflexivity.
  - rewrite String.eqb_sym. destruct (String.eqb y x); simpl; [discriminate|].
    intros H; rewrite (IH H); reflexivity.
Qed.

Lemma str_in_app_new (x : string) (l : list string) : str_in x (l ++ [x]) = true.
Proof. apply str_in_true, in_or_app; right; left; reflexivity. Qed.

Lemma pop_app_last {A : Type} (l : list A) (x : A) : pop (length l) (l ++ [x]) = Ok l.
Proof.
  induction l as [|y l IH]; simpl; [reflexivity|].
  rewrite IH; reflexivity.
Qed.

Lemma pop_ok {A : Type} (P : A -> Prop) (idx : nat) (l : list A) :
  (idx < length l)%nat -> Forall P l ->
  exists l', pop idx l = Ok l' /\ S (length l') = length l /\ Forall P l'.
Proof.
  revert idx; induction l as [|x l IH]; intros idx Hlt Hall; simpl in Hlt; [lia|].
  inversion Hall as [|? ? Hx Hl]; subst.
  destruct idx as [|i]; simpl.
  - exists l; repeat split; assumption.
  - destruct (IH i ltac:(lia) Hl) as (l' & E & Hlen & Hl').
    rewrite E; simpl. exists (x :: l'); repeat split; [simpl; lia | constructor; assumption].
Qed.

Lemma getitem_ok {A : Type} (P : A -> Prop) (idx : nat) (l : list A) :
  (idx < length l)%nat -> Forall P l -> exists x, getitem idx l = Ok x /\ P x.
Proof.
  intros Hlt Hall; unfold getitem.
  destruct (nth_error l idx) as [x|] eqn:E.
  - exists x; split; [reflexivity|].
    rewrite Forall_forall in Hall; apply Hall, (nth_error_In _ _ E).
  - apply nth_error_None in E; lia.
Qed.

Lemma setitem_length {A : Type} (idx : nat) (x : A) (l : list A) :
  length (setitem idx x l) = length l.
Proof.
  revert idx; induction l as [|y l IH]; intros [|i]; simpl; try reflexivity.
  rewrite IH; reflexivity.
Qed.

Lemma setitem_Forall {A : Type} (P : A -> Prop) (idx : nat) (x : A) (l : list A) :
  P x -> Forall P l -> Forall P (setitem idx x l).
Proof.
  intros Hx; revert idx; induction l as [|y l IH]; intros [|i] Hall; simpl;
    try constructor; inversion Hall; subst; auto.
Qed.

Lemma apply_modification_ok (m : modification) (state : list string * list measure) :
  paired state ->
  exists state',
    apply_modification m state = Ok state'
    /\ paired state'
    /\ (nonneg_amount m -> nonneg_volumes (snd state) -> nonneg_volumes (snd state')).
Proof.
  destruct state as [ings meas]; intros [Hlen Hval]; simpl in Hlen, Hval.
  unfold apply_modification.
  assert (Hsame : exists state', Ok (ings, meas) = Ok state' /\ paired state'
            /\ (nonneg_amount m -> nonneg_volumes (snd (ings, meas)) ->
                nonneg_volumes (snd state')))
    by (exists (ings, meas); split; [reflexivity|];
        split; [split; assumption | intros _ H; exact H]).
  destruct (mod_action m) eqn:Ea; try exact Hsame.
  - (* add *)
    eexists; split; [reflexivity|]. split; [split|]; simpl.
    + rewrite !length_app; simpl; lia.
    + apply Forall_app; split; [exact Hval | constructor; [discriminate | constructor]].
    + intros Hamt Hnn. apply Forall_app; split; [exact Hnn|].
      constructor; [|constructor].
      simpl; intros v [= <-]. unfold amount_or.
      destruct (mod_amount m) as [a|] eqn:Em; [apply Hamt; exact Em | lra].
  - (* remove *)
    destruct (str_in (mod_ingredient m) ings) eqn:Ein; [|exact Hsame].
    pose proof (list_index_lt _ _ Ein) as Hlt.
    destruct (pop_ok (fun _ => True) _ ings Hlt) as (ings' & E1 & Hl1 & _);
      [apply Forall_forall; trivial|].
    rewrite E1; cbv beta iota delta [bind].
    assert (Hlt' : (list_index (mod_ingredient m) ings < length meas)%nat) by lia.
    destruct (pop_ok (fun m => value m <> None) _ meas Hlt' Hval) as (meas' & E2 & Hl2 & Hv2).
    rewrite E2; cbv beta iota delta [bind].
    eexists; split; [reflexivity|]. split; [split; simpl; [lia | exact Hv2]|].
    simpl; intros _ Hnn.
    destruct (pop_ok _ _ meas Hlt' Hnn) as (meas'' & E3 & _ & Hn3).
    rewrite E2 in E3; injection E3 as <-; exact Hn3.
  - (* increase *)
    destruct (str_in (mod_ingredient m) ings) eqn:Ein; [|exact Hsame].
    pose proof (list_index_lt _ _ Ein) as Hlt.
    assert (Hlt' : (list_index (mod_ingredient m) ings < length meas)%nat) by lia.
    destruct (getitem_ok _ _ meas Hlt' Hval) as (entry & E1 & He).
    rewrite E1; cbv beta iota delta [bind].
    unfold measure_value. destruct (value entry) as [v|] eqn:Ev; [|contradiction].
    eexists; split; [reflexivity|]. split; [split; simpl|].
    + rewrite setitem_length; exact Hlen.
    + apply setitem_Forall; [discriminate | exact Hval].
    + simpl; intros Hamt Hnn.
      destruct (getitem_ok _ _ meas Hlt' Hnn) as (entry' & E1' & He').
      rewrite E1 in E1'; injection E1' as <-.
      apply setitem_Forall; [|exact Hnn].
      simpl; intros v' [= <-]. pose proof (He' v Ev).
      unfold amount_or; destruct (mod_amount m) as [a|] eqn:Em;
        [pose proof (Hamt a Em); lra | lra].
  - (* decrease *)
    destruct (str_in (mod_ingredient m) ings) eqn:Ein; [|exact Hsame].
    pose proof (list_index_lt _ _ Ein) as Hlt.
    assert (Hlt' : (list_index (mod_ingredient m) ings < length meas)%nat) by lia.
    destruct (getitem_ok _ _ meas Hlt' Hval) as (entry & E1 & He).
    rewrite E1; cbv beta iota delta [bind].
    unfold measure_value. destruct (value entry) as [v|] eqn:Ev; [|contradiction].
    eexists; split; [reflexivity|]. split; [split; simpl|].
    + rewrite setitem_length; exact Hlen.
    + apply setitem_Forall; [discriminate | exact Hval].
    + simpl; intros _ Hnn.
      apply setitem_Forall; [|exact Hnn].
      simpl; intros v' [= <-]. apply Rmax_l.
  - (* substitute *)
    destruct (str_in (mod_ingredient m) ings) eqn:Ein; [|exact Hsame].
    eexists; split; [reflexivity|]. split; [split; simpl|].
    + rewrite setitem_length; exact Hlen.
    + exact Hval.
    + simpl; intros _ Hnn; exact Hnn.
Qed.

Lemma apply_modifications_ok (mods : list modification) :
  forall state, paired state ->
  exists state',
    apply_modifications mods state = Ok state'
    /\ paired state'
    /\ (Forall nonneg_amount mods -> nonneg_volumes (snd state) ->
        nonneg_volumes (snd state')).
Proof.
  induction mods as [|m mods IH]; intros state Hp.
  - exists state; split; [reflexivity|]; split; [exact Hp | intros _ H; exact H].
  - destruct (apply_modification_ok m state Hp) as (s1 & E1 & Hp1 & Hn1).
    destruct (IH s1 Hp1) as (s2 & E2 & Hp2 & Hn2).
    exists s2; simpl; rewrite E1; cbv beta iota delta [bind].
    split; [exact E2|]. split; [exact Hp2|].
    intros Hall Hnn; inversion Hall; subst. apply Hn2; [assumption|].
    apply Hn1; assumption.
Qed.

(** X9: applied to lists that pair one measure holding a value with
    every ingredient, the modification loop of [modify_cocktail] never
    raises, whatever the modifications are; it keeps the two lists paired,
    and when no modification carries a negative amount it keeps every
    volume non-negative (a decrease stops at 0). *)
Theorem modifications_keep_lists_paired (mods : list modification)
    (state : list string * list measure) (Hpaired : paired state) :
  exists state',
    apply_modifications mods state = Ok state'
    /\ paired state'
    /\ (Forall nonneg_amount mods -> nonneg_volumes (snd state) ->
        nonneg_volumes (snd state')).
Proof.
  revert state Hpaired; induction mods as [|m mods IH]; intros state Hp.
  - exists state; split; [reflexivity|]; split; [exact Hp | intros _ H; exact H].
  - destruct (apply_modification_ok m state Hp) as (s1 & E1 & Hp1 & Hn1).
    destruct (IH s1 Hp1) as (s2 & E2 & Hp2 & Hn2).
    exists s2; simpl; rewrite E1; cbv beta iota delta [bind].
    split; [exact E2|]. split; [exact Hp2|].
    intros Hall Hnn.
    apply Hn2; [exact (Forall_inv_tail Hall)|].
    apply Hn1; [exact (Forall_inv Hall) | exact Hnn].
Qed.

Lemma modifications_keep_lists_paired_witness :
  exists state',
    apply_modifications [mkModification decrease "gin" (Some 100) EmptyString]
      (["gin"%string], [mkMeasure (Some 50)]) = Ok state'
    /\ paired state'.
Proof.
  destruct (modifications_keep_lists_paired
              [mkModification decrease "gin" (Some 100) EmptyString]
              (["gin"%string], [mkMeasure (Some 50)])) as (s & E & Hp & _).
  - split; [reflexivity | constructor; [discriminate | constructor]].
  - exists s; split; [exact E | exact Hp].
Defined.

(** X10: adding an ingredient that the cocktail does not contain yet and
    then removing it gives back the ingredient and measure lists
    unchanged. *)
Theorem add_then_remove_is_identity (x : string) (amount : option R)
    (ings : list string) (meas : list measure) (w1 w2 : string)
    (Hnew : str_in x ings = false) (Hlen : length ings = length meas) :
  apply_modifications [mkModification add x amount w1; mkModification remove x None w2]
    (ings, meas)
  = Ok (ings, meas).
Proof.
  simpl. cbv beta iota delta [bind].
  rewrite str_in_app_new, (list_index_app_new _ _ Hnew).
  rewrite pop_app_last. cbv beta iota delta [bind].
  rewrite Hlen, pop_app_last. reflexivity.
Qed.

Lemma add_then_remove_is_identity_witness :
  apply_modifications
    [mkModification add "lime" (Some 15) EmptyString;
     mkModification remove "lime" None EmptyString]
    (["gin"%string], [mkMeasure (Some 50)])
  = Ok (["gin"%string], [mkMeasure (Some 50)]).
Proof.
  apply (add_then_remove_is_identity "lime" (Some 15) ["gin"%string] [mkMeasure (Some 50)]);
    reflexivity.
Defined.

(** ** Aggregation *)

Lemma sum_app (l1 l2 : list R) : sum (l1 ++ l2) = sum l1 + sum l2.
Proof.
  induction l1 as [|x l1 IH]; simpl app; [rewrite sum_nil; lra|].
  rewrite !sum_cons, IH; lra.
Qed.

Lemma sum_map_div {A : Type} (f : A -> R) (t : R) (l : list A) :
  sum (map (fun a => f a / t) l) = sum (map f l) / t.
Proof.
  induction l as [|a l IH]; simpl map; [rewrite sum_nil; unfold Rdiv; lra|].
  rewrite !sum_cons, IH; unfold Rdiv; lra.
Qed.

Lemma weighted_div (d : dimension) (profiles : list profile) (t : R) :
  forall volumes,
  weighted d profiles (map (fun v => v / t) volumes) = weighted d profiles volumes / t.
Proof.
  unfold weighted; induction profiles as [|p ps IH]; intros [|v vs]; simpl;
    try (rewrite sum_nil; unfold Rdiv; lra).
  rewrite !sum_cons, IH; unfold Rdiv; lra.
Qed.

Lemma weighted_bounds (d : dimension) (profiles : list profile) :
  Forall (fun p => legal (profile_taste p)) profiles ->
  forall volumes, Forall (fun v => 0 <= v) volumes ->
  0 <= weighted d profiles volumes <= sum volumes.
Proof.
  unfold weighted; induction 1 as [|p ps Hp _ IH]; intros volumes Hv.
  - simpl; rewrite sum_nil.
    clear - Hv; induction Hv as [|v vs Hv0 _ IHv]; [rewrite sum_nil; lra|].
    rewrite sum_cons; lra.
  - destruct Hv as [|v vs Hv0 Hvs]; simpl; [rewrite !sum_nil; lra|].
    rewrite !sum_cons. specialize (IH vs Hvs). specialize (Hp d).
    assert (0 <= get (profile_taste p) d * v) by (apply Rmult_le_pos; lra).
    assert (get (profile_taste p) d * v <= 1 * v)
      by (apply Rmult_le_compat_r; lra).
    lra.
Qed.

Lemma sum_nonneg (l : list R) : Forall (fun v => 0 <= v) l -> 0 <= sum l.
Proof.
  induction 1 as [|v vs Hv _ IH]; [rewrite sum_nil; lra | rewrite sum_cons; lra].
Qed.

Lemma aggregate_profiles_normal (profiles : list profile) (measures : list measure) :
  profiles <> [] ->
  _aggregate_profiles profiles measures
  = (avg_mw <- mw_average profiles (fst (effective_volumes profiles measures)) ;;
     Ok (Some (mkAggregated
                 (weighted_taste profiles (fst (effective_volumes profiles measures))
                    (snd (effective_volumes profiles measures)))
                 avg_mw (snd (effective_volumes profiles measures))))).
Proof.
  intros Hne.
  pose proof (effective_total_nonzero profiles measures Hne) as Ht.
  unfold _aggregate_profiles.
  destruct profiles as [|p ps]; [contradiction|].
  destruct (effective_volumes (p :: ps) measures) as [vols total] eqn:Ev.
  simpl fst in *; simpl snd in *.
  destruct (aggregate_taste_ok total (p :: ps) Ht vols (mkTaste 0 0 0 0 0))
    as (taste & Hagg & Hget).
  rewrite Hagg; cbv beta iota delta [bind].
  assert (Htaste : taste = weighted_taste (p :: ps) vols total).
  { apply taste_ext; intros d; rewrite Hget, weighted_div.
    destruct d; simpl; lra. }
  rewrite Htaste; reflexivity.
Qed.

Lemma volumes_nonneg (measures : list measure) :
  nonneg_volumes measures -> Forall (fun v => 0 <= v) (volumes_of measures).
Proof.
  unfold nonneg_volumes, volumes_of; induction 1 as [|m ms Hm _ IH]; simpl;
    constructor; [|exact IH].
  destruct (value m) as [v|]; [apply Hm; reflexivity | lra].
Qed.

Lemma Forall_repeat {A : Type} (P : A -> Prop) (x : A) (n : nat) :
  P x -> Forall P (repeat x n).
Proof. intros Hx; induction n; simpl; constructor; assumption. Qed.

Lemma effective_volumes_nonneg (profiles : list profile) (measures : list measure) :
  profiles <> [] ->
  Forall (fun v => 0 <= v) (volumes_of measures) ->
  Forall (fun v => 0 <= v) (fst (effective_volumes profiles measures))
  /\ 0 < snd (effective_volumes profiles measures)
  /\ sum (fst (effective_volumes profiles measures))
     = snd (effective_volumes profiles measures).
Proof.
  intros Hne Hv.
  destruct (Req_dec_T (sum (volumes_of measures)) 0) as [H0|H0].
  - rewrite effective_volumes_zero by exact H0; simpl.
    assert (Hn : 0 < INR (length profiles))
      by (apply lt_0_INR; destruct profiles; [contradiction | simpl; lia]).
    split; [apply Forall_repeat; lra|]. split; [exact Hn|].
    rewrite sum_repeat; lra.
  - rewrite effective_volumes_nonzero by exact H0; simpl.
    pose proof (sum_nonneg _ Hv).
    split; [exact Hv|]. split; [lra | reflexivity].
Qed.

Lemma weighted_taste_legal (profiles : list profile) (volumes : list R) (total : R) :
  Forall (fun p => legal (profile_taste p)) profiles ->
  Forall (fun v => 0 <= v) volumes -> 0 < total -> sum volumes = total ->
  legal (weighted_taste profiles volumes total).
Proof.
  intros Hp Hv Ht Hs d.
  pose proof (weighted_bounds d profiles Hp volumes Hv) as [H1 H2].
  assert (Hget : get (weighted_taste profiles volumes total) d
                 = weighted d profiles volumes / total) by (destruct d; reflexivity).
  rewrite Hget; split.
  - apply Rmult_le_pos; [exact H1 | apply Rlt_le, Rinv_0_lt_compat, Ht].
  - apply (Rmult_le_reg_r total); [exact Ht|].
    unfold Rdiv; rewrite Rmult_assoc, Rinv_l by lra; lra.
Qed.

Lemma aggregate_profiles_legal (profiles : list profile) (measures : list measure)
    (agg : aggregated_profile) :
  Forall (fun p => legal (profile_taste p)) profiles ->
  Forall (fun v => 0 <= v) (volumes_of measures) ->
  _aggregate_profiles profiles measures = Ok (Some agg) ->
  legal (agg_taste_scores agg) /\ 0 < total_volume agg.
Proof.
  intros Hp Hv Hagg.
  destruct profiles as [|p ps]; [discriminate|].
  assert (Hne : p :: ps <> []) by discriminate.
  rewrite (aggregate_profiles_normal _ measures Hne) in Hagg.
  destruct (mw_average _ _) as [avg|e]; [|discriminate].
  cbv beta iota delta [bind] in Hagg; injection Hagg as <-.
  destruct (effective_volumes_nonneg _ measures Hne Hv) as (H1 & H2 & H3).
  split; [|exact H2].
  apply weighted_taste_legal; assumption.
Qed.

Lemma all_zero_dec (ts : taste_scores) : {all_zero ts} + {~ all_zero ts}.
Proof.
  destruct (Req_dec_T (t_sweet ts) 0) as [H1|H1];
    [|right; intros H; apply H1, (H sweet)].
  destruct (Req_dec_T (t_sour ts) 0) as [H2|H2];
    [|right; intros H; apply H2, (H sour)].
  destruct (Req_dec_T (t_bitter ts) 0) as [H3|H3];
    [|right; intros H; apply H3, (H bitter)].
  destruct (Req_dec_T (t_savory ts) 0) as [H4|H4];
    [|right; intros H; apply H4, (H savory)].
  destruct (Req_dec_T (t_aromatic ts) 0) as [H5|H5];
    [|right; intros H; apply H5, (H aromatic)].
  left; intros []; assumption.
Qed.

Lemma balance_range (ts : taste_scores) :
  legal ts -> balance_in_range (_compute_overall_balance ts).
Proof.
  intros Hl. destruct (all_zero_dec ts) as [Hz|Hnz].
  - left; apply balance_zero, Hz.
  - right; rewrite (balance_nonzero ts Hnz).
    pose proof (var_nonneg ts) as H0. pose proof (var_le_quarter ts Hl) as H1.
    split.
    + apply (Rmult_le_reg_r (1 + np_var (values ts))); [lra|].
      unfold Rdiv; rewrite Rmult_assoc, Rinv_l by lra; lra.
    + apply (Rmult_le_reg_r (1 + np_var (values ts))); [lra|].
      unfold Rdiv; rewrite Rmult_assoc, Rinv_l by lra; lra.
Qed.

Lemma profiler_legal (self : MolecularProfiler) (ings : list string) :
  legal_profiler self ->
  Forall (fun p => legal (profile_taste p)) (map (get_ingredient_profile self) ings).
Proof.
  intros Hb. apply Forall_forall. intros p Hin.
  apply in_map_iff in Hin as (ing & <- & _).
  unfold get_ingredient_profile.
  destruct (built_profile self ing) as [q|] eqn:E.
  - apply (Hb ing q E).
  - intros d; destruct d; simpl; lra.
Qed.

(** X11: when every profile of the profiler has its taste scores in
    [[0,1]] and every cocktail of the database has non-negative volumes,
    every analysis that [analyze_cocktail] returns has all five taste
    scores in [[0,1]], a positive total volume, and an overall balance
    that is 0 or lies in [[0.8, 1]]. *)
Theorem analysis_is_legal (self : CocktailAnalyzer) (cocktail_name_ : string) (a : analysis)
    (Hprofiler : legal_profiler (analyzer_profiler self))
    (Hdb : Forall (fun c => nonneg_volumes (measures c)) (cocktails self))
    (Hok : analyze_cocktail self cocktail_name_ = Ok (AnalysisDict a)) :
  legal (balance_scores a)
  /\ 0 < total_volume (aggregated a)
  /\ balance_in_range (overall_balance a)
  /\ overall_balance a = _compute_overall_balance (balance_scores a).
Proof.
  unfold analyze_cocktail in Hok.
  destruct (_find_cocktail self cocktail_name_) as [c|] eqn:Ef; [|discriminate].
  destruct (_aggregate_profiles _ _) as [[agg|]|e] eqn:Ea;
    cbv beta iota delta [bind] in Hok; try discriminate.
  injection Hok as <-; simpl.
  apply find_some in Ef as [Hin _].
  rewrite Forall_forall in Hdb.
  destruct (aggregate_profiles_legal _ _ _
              (profiler_legal _ (ingredients c) Hprofiler)
              (volumes_nonneg _ (Hdb c Hin)) Ea) as [Hl Hv].
  split; [exact Hl|]. split; [exact Hv|].
  split; [apply balance_range, Hl | reflexivity].
Qed.

Lemma house_profiler_legal (taste : taste_scores) :
  legal taste -> legal_profiler (house_profiler taste).
Proof.
  intros Hl ing p; simpl.
  destruct (String.eqb ing "house blend"); [|discriminate].
  intros [= <-]; exact Hl.
Qed.

Lemma house_db_nonneg (taste : taste_scores) (v : R) :
  0 <= v -> Forall (fun c => nonneg_volumes (measures c)) (cocktails (house_analyzer taste v)).
Proof.
  intros Hv. constructor; [|constructor].
  constructor; [|constructor].
  simpl; intros v' [= <-]; exact Hv.
Qed.

Lemma mild_taste_legal : legal mild_taste.
Proof. intros []; simpl; lra. Qed.

Lemma analysis_is_legal_witness :
  legal (balance_scores (house_analysis mild_taste 60))
  /\ balance_in_range (overall_balance (house_analysis mild_taste 60)).
Proof.
  assert (Hv : (60 : R) <> 0) by lra.
  pose proof (analysis_is_legal (house_analyzer mild_taste 60) "house"
                (house_analysis mild_taste 60)
                (house_profiler_legal mild_taste mild_taste_legal)
                (house_db_nonneg mild_taste 60 ltac:(lra))
                (analyze_house mild_taste 60 Hv)) as (H1 & _ & H2 & _).
  split; assumption.
Defined.

Lemma analyze_cocktail_inv (self : CocktailAnalyzer) (cocktail_name_ : string)
    (a : analysis) :
  analyze_cocktail self cocktail_name_ = Ok (AnalysisDict a) ->
  exists c agg,
    _find_cocktail self cocktail_name_ = Some c
    /\ In c (cocktails self)
    /\ _aggregate_profiles
         (map (get_ingredient_profile (analyzer_profiler self)) (ingredients c))
         (measures c) = Ok (Some agg)
    /\ a = mkAnalysis (name c) (category c) (length (ingredients c)) (ingredients c)
             (map (get_ingredient_profile (analyzer_profiler self)) (ingredients c))
             agg (agg_taste_scores agg)
             (_compute_overall_balance (agg_taste_scores agg)).
Proof.
  unfold analyze_cocktail; intros Hok.
  destruct (_find_cocktail self cocktail_name_) as [c|] eqn:Ef; [|discriminate].
  destruct (_aggregate_profiles _ _) as [[agg|]|e] eqn:Ea;
    cbv beta iota delta [bind] in Hok; try discriminate.
  injection Hok as <-.
  exists c, agg; split; [reflexivity|].
  split; [apply (find_some _ _ Ef)|].
  split; [exact Ea | reflexivity].
Qed.

(** X12: for a database whose cocktails pair one non-negative measure
    with every ingredient, and modifications without negative amounts,
    [modify_cocktail] never fails in its modification loop, and every
    comparison it returns reports modified taste scores in [[0,1]], a
    modified balance that is 0 or in [[0.8, 1]], and
    [balance_improved] exactly when the modified balance exceeds the
    original one. *)
Theorem modified_analysis_is_legal (self : CocktailModifier) (cocktail_name_ : string)
    (mods : list modification) (c : comparison)
    (Hprofiler : legal_profiler (modifier_profiler self))
    (Hdb : Forall well_formed_cocktail (cocktails (modifier_analyzer self)))
    (Hmods : Forall nonneg_amount mods)
    (Hok : modify_cocktail self cocktail_name_ mods = Ok (ComparisonDict c)) :
  legal (snap_taste_scores (modified c))
  /\ balance_in_range (snap_overall_balance (modified c))
  /\ length (snap_ingredients (modified c)) <> 0%nat
  /\ balance_change c
     = snap_overall_balance (modified c) - snap_overall_balance (original c)
  /\ (balance_improved c = true
      <-> snap_overall_balance (modified c) > snap_overall_balance (original c)).
Proof.
  unfold modify_cocktail in Hok.
  destruct (analyze_cocktail (modifier_analyzer self) cocktail_name_) as [[e|a]|e] eqn:Ea;
    cbv beta iota delta [bind] in Hok; try discriminate.
  destruct (analyze_cocktail_inv _ _ _ Ea) as (ck & agg0 & Ef & Hin & _ & Ha).
  rewrite Ef in Hok.
  rewrite Forall_forall in Hdb. destruct (Hdb ck Hin) as [Hp Hnn].
  assert (Hi : analysis_ingredients a = ingredients ck) by (rewrite Ha; reflexivity).
  rewrite Hi in Hok.
  destruct (apply_modifications_ok mods (ingredients ck, measures ck) Hp)
    as ([ings' meas'] & E & Hp' & Hnn').
  rewrite E in Hok; cbv beta iota delta [bind] in Hok.
  destruct (_aggregate_profiles _ meas') as [[agg|]|e] eqn:Eagg;
    cbv beta iota delta [bind] in Hok; try discriminate.
  injection Hok as <-; simpl.
  destruct (aggregate_profiles_legal _ _ _ (profiler_legal _ ings' Hprofiler)
              (volumes_nonneg _ (Hnn' Hmods Hnn)) Eagg) as [Hl _].
  split; [exact Hl|]. split; [apply balance_range, Hl|].
  split; [destruct ings'; [discriminate Eagg | discriminate]|].
  split; [reflexivity|].
  rewrite Rgtb_true; split; intros H; lra.
Qed.

Lemma modified_analysis_is_legal_witness :
  exists c,
    modify_cocktail (house_modifier mild_taste 60) "house" [] = Ok (ComparisonDict c)
    /\ legal (snap_taste_scores (modified c)).
Proof.
  assert (Hv : (60 : R) <> 0) by lra.
  assert (Hm : exists c, modify_cocktail (house_modifier mild_taste 60) "house" []
                         = Ok (ComparisonDict c)).
  { unfold modify_cocktail.
    change (modifier_analyzer (house_modifier mild_taste 60))
      with (house_analyzer mild_taste 60).
    rewrite (analyze_house mild_taste 60 Hv); cbv beta iota delta [bind].
    destruct (analyze_cocktail_inv _ _ _ (analyze_house mild_taste 60 Hv))
      as (ck & agg0 & Ef & _ & Eagg & Ha).
    rewrite Ef. simpl apply_modifications. cbv beta iota delta [bind].
    assert (Hi : analysis_ingredients (house_analysis mild_taste 60) = ingredients ck)
      by (rewrite Ha; reflexivity).
    change (modifier_profiler (house_modifier mild_taste 60))
      with (analyzer_profiler (house_analyzer mild_taste 60)).
    change (analysis_ingredients (house_analysis mild_taste 60))
      with ["house blend"%string] in Hi.
    rewrite <- Hi in Eagg.
    rewrite Eagg; cbv beta iota delta [bind]. eexists; reflexivity. }
  destruct Hm as [c Hc]. exists c; split; [exact Hc|].
  refine (proj1 (modified_analysis_is_legal (house_modifier mild_taste 60) "house" [] c
                   (house_profiler_legal mild_taste mild_taste_legal) _ _ Hc)).
  - constructor; [|constructor]. split.
    + split; [reflexivity | constructor; [discriminate | constructor]].
    + constructor; [|constructor]. simpl; intros v [= <-]; lra.
  - constructor.
Defined.

(** X13: when the modifications leave no ingredient at all, for
    instance when they remove every ingredient of the cocktail,
    [modify_cocktail] raises KeyError('taste_scores'): the aggregation
    returns the empty dictionary and the next line indexes it. *)
Theorem removing_every_ingredient_raises (self : CocktailModifier) (cocktail_name_ : string)
    (mods : list modification) (a : analysis) (ck : cocktail) (meas' : list measure)
    (Ha : analyze_cocktail (modifier_analyzer self) cocktail_name_ = Ok (AnalysisDict a))
    (Hf : _find_cocktail (modifier_analyzer self) cocktail_name_ = Some ck)
    (Hmods : apply_modifications mods (ingredients ck, measures ck) = Ok ([], meas')) :
  modify_cocktail self cocktail_name_ mods = Raise (KeyError "taste_scores").
Proof.
  unfold modify_cocktail. rewrite Ha; cbv beta iota delta [bind]. rewrite Hf.
  destruct (analyze_cocktail_inv _ _ _ Ha) as (ck' & agg0 & Ef & _ & _ & Hrec).
  rewrite Hf in Ef; injection Ef as <-.
  assert (Hi : analysis_ingredients a = ingredients ck) by (rewrite Hrec; reflexivity).
  rewrite Hi, Hmods; reflexivity.
Qed.

Lemma removing_every_ingredient_raises_witness :
  modify_cocktail (house_modifier mild_taste 60) "house"
    [mkModification remove "house blend" None EmptyString]
  = Raise (KeyError "taste_scores").
Proof.
  assert (Hv : (60 : R) <> 0) by lra.
  apply (removing_every_ingredient_raises (house_modifier mild_taste 60) "house"
           [mkModification remove "house blend" None EmptyString]
           (house_analysis mild_taste 60)
           (mkCocktail "House" "Cocktail" ["house blend"%string] [mkMeasure (Some 60)])
           []).
  - exact (analyze_house mild_taste 60 Hv).
  - reflexivity.
  - reflexivity.
Defined.

(** X14: with an empty modification list, and a modifier whose profiler
    is the one its analyzer uses, [modify_cocktail] reports the cocktail
    unchanged: the modified side equals the original side, the change of
    balance is 0 and no improvement is reported. *)
Theorem no_modification_changes_nothing (self : CocktailModifier) (cocktail_name_ : string)
    (a : analysis)
    (Hsame : modifier_profiler self = analyzer_profiler (modifier_analyzer self))
    (Ha : analyze_cocktail (modifier_analyzer self) cocktail_name_ = Ok (AnalysisDict a)) :
  exists c,
    modify_cocktail self cocktail_name_ [] = Ok (ComparisonDict c)
    /\ modified c = original c
    /\ snap_ingredients (original c) = analysis_ingredients a
    /\ snap_taste_scores (original c) = balance_scores a
    /\ snap_overall_balance (original c) = overall_balance a
    /\ balance_change c = 0
    /\ balance_improved c = false.
Proof.
  unfold modify_cocktail. rewrite Ha; cbv beta iota delta [bind].
  destruct (analyze_cocktail_inv _ _ _ Ha) as (ck & agg0 & Ef & _ & Eagg & Hrec).
  rewrite Ef. simpl apply_modifications. cbv beta iota delta [bind].
  assert (Hi : analysis_ingredients a = ingredients ck) by (rewrite Hrec; reflexivity).
  rewrite Hi, Hsame, Eagg; cbv beta iota delta [bind].
  eexists; split; [reflexivity|]. simpl.
  assert (Hb : overall_balance a = _compute_overall_balance (agg_taste_scores agg0))
    by (rewrite Hrec; reflexivity).
  assert (Ht : balance_scores a = agg_taste_scores agg0) by (rewrite Hrec; reflexivity).
  rewrite ?Hb, ?Ht, ?Hi.
  split; [reflexivity|]. split; [reflexivity|]. split; [reflexivity|].
  split; [reflexivity|]. split; [lra|].
  apply Rgtb_false; lra.
Qed.

Lemma no_modification_changes_nothing_witness :
  exists c,
    modify_cocktail (house_modifier mild_taste 60) "house" [] = Ok (ComparisonDict c)
    /\ modified c = original c.
Proof.
  assert (Hv : (60 : R) <> 0) by lra.
  destruct (no_modification_changes_nothing (house_modifier mild_taste 60) "house"
              (house_analysis mild_taste 60) eq_refl (analyze_house mild_taste 60 Hv))
    as (c & Hc & Hm & _).
  exists c; split; assumption.
Defined.

Lemma combine_app_eq {A B : Type} (l1 l2 : list A) (l1' l2' : list B) :
  length l1 = length l1' ->
  combine (l1 ++ l2) (l1' ++ l2') = combine l1 l1' ++ combine l2 l2'.
Proof.
  revert l1'; induction l1 as [|x l1 IH]; intros [|y l1'] Hlen; simpl in *;
    try discriminate; [reflexivity|].
  rewrite IH by lia; reflexivity.
Qed.

Lemma volumes_of_app (m1 m2 : list measure) :
  volumes_of (m1 ++ m2) = volumes_of m1 ++ volumes_of m2.
Proof. unfold volumes_of; apply map_app. Qed.

Lemma volumes_of_length (ms : list measure) : length (volumes_of ms) = length ms.
Proof. unfold volumes_of; apply length_map. Qed.

Lemma weighted_app_last (d : dimension) (ps : list profile) (vs : list R)
    (e : profile) (a : R) :
  length ps = length vs ->
  weighted d (ps ++ [e]) (vs ++ [a])
  = weighted d ps vs + get (profile_taste e) d * a.
Proof.
  intros Hlen; unfold weighted.
  rewrite combine_app_eq by exact Hlen.
  rewrite map_app, sum_app; simpl; rewrite sum_cons, sum_nil; lra.
Qed.

Lemma mw_average_app_empty (ps : list profile) (vs : list R) (a : R) :
  length ps = length vs ->
  mw_average (ps ++ [_empty_profile]) (vs ++ [a]) = mw_average ps vs.
Proof.
  intros Hlen; unfold mw_average.
  rewrite combine_app_eq by exact Hlen.
  rewrite !filter_app; simpl. rewrite !app_nil_r; reflexivity.
Qed.

Lemma scale_taste_get (c : R) (ts : taste_scores) (d : dimension) :
  get (scale_taste c ts) d = c * get ts d.
Proof. destruct d; reflexivity. Qed.

Lemma weighted_taste_get (ps : list profile) (vs : list R) (t : R) (d : dimension) :
  get (weighted_taste ps vs t) d = weighted d ps vs / t.
Proof. destruct d; reflexivity. Qed.

Lemma aggregate_with_unknown (ps : list profile) (ms : list measure) (a : R)
    (agg : aggregated_profile) :
  length ps = length ms ->
  sum (volumes_of ms) <> 0 -> sum (volumes_of ms) + a <> 0 ->
  _aggregate_profiles ps ms = Ok (Some agg) ->
  _aggregate_profiles (ps ++ [_empty_profile]) (ms ++ [mkMeasure (Some a)])
  = Ok (Some (mkAggregated
                (scale_taste (sum (volumes_of ms) / (sum (volumes_of ms) + a))
                   (agg_taste_scores agg))
                (agg_avg_molecular_weight agg)
                (sum (volumes_of ms) + a))).
Proof.
  intros Hlen HV HVa Hagg.
  assert (Hne : ps <> []) by (intros ->; discriminate Hagg).
  assert (Hne' : ps ++ [_empty_profile] <> []) by (destruct ps; discriminate).
  rewrite (aggregate_profiles_normal _ _ Hne) in Hagg.
  rewrite (aggregate_profiles_normal _ _ Hne').
  rewrite effective_volumes_nonzero in Hagg by exact HV.
  assert (Hs : sum (volumes_of (ms ++ [mkMeasure (Some a)])) = sum (volumes_of ms) + a).
  { rewrite volumes_of_app, sum_app; simpl; rewrite sum_cons, sum_nil; lra. }
  rewrite effective_volumes_nonzero by (rewrite Hs; exact HVa).
  simpl fst in *; simpl snd in *.
  rewrite Hs, volumes_of_app. simpl (volumes_of [_]).
  assert (Hlen' : length ps = length (volumes_of ms))
    by (rewrite volumes_of_length; exact Hlen).
  rewrite mw_average_app_empty by exact Hlen'.
  destruct (mw_average ps (volumes_of ms)) as [avg|e]; [|discriminate].
  cbv beta iota delta [bind] in *. injection Hagg as <-. simpl.
  do 3 f_equal.
  apply taste_ext; intros d.
  rewrite scale_taste_get, !weighted_taste_get, weighted_app_last by exact Hlen'.
  replace (get (profile_taste _empty_profile) d) with 0 by (destruct d; reflexivity).
  field; split; assumption.
Qed.

Lemma var_scale (c : R) (ts : taste_scores) :
  np_var (values (scale_taste c ts)) = c * c * np_var (values ts).
Proof.
  pose proof (var_values (scale_taste c ts)) as H1; cbv zeta in H1.
  pose proof (var_values ts) as H2; cbv zeta in H2.
  rewrite H1, H2, !mean_values. destruct ts; simpl. field.
Qed.

Lemma all_zero_scale (c : R) (ts : taste_scores) :
  c <> 0 -> (all_zero (scale_taste c ts) <-> all_zero ts).
Proof.
  intros Hc; split; intros H d; specialize (H d); rewrite scale_taste_get in *.
  - apply Rmult_integral in H; destruct H; [contradiction | assumption].
  - rewrite H; lra.
Qed.

Lemma all_zero_all_equal (ts : taste_scores) : all_zero ts -> all_equal ts.
Proof. intros H d d'; rewrite (H d), (H d'); reflexivity. Qed.

Lemma balance_scale (c : R) (ts : taste_scores) :
  0 < c < 1 ->
  _compute_overall_balance ts <= _compute_overall_balance (scale_taste c ts)
  /\ (_compute_overall_balance ts < _compute_overall_balance (scale_taste c ts)
      <-> ~ all_equal ts).
Proof.
  intros Hc.
  destruct (all_zero_dec ts) as [Hz|Hnz].
  - rewrite (balance_zero ts Hz).
    rewrite (balance_zero (scale_taste c ts))
      by (apply all_zero_scale; [lra | exact Hz]).
    split; [lra|]. split; [lra|].
    intros Hne; exfalso; apply Hne, all_zero_all_equal, Hz.
  - rewrite (balance_nonzero ts Hnz).
    rewrite (balance_nonzero (scale_taste c ts))
      by (intros H; apply Hnz; apply (all_zero_scale c); [lra | exact H]).
    rewrite var_scale.
    pose proof (var_nonneg ts) as Hv.
    set (v := np_var (values ts)) in *.
    assert (Hcc : 0 < c * c < 1) by nra.
    assert (Hcv : c * c * v <= v) by nra.
    assert (Hpos : 0 <= c * c * v) by nra.
    assert (Hdiff : 1 / (1 + c * c * v) - 1 / (1 + v)
                    = (v - c * c * v) / ((1 + c * c * v) * (1 + v)))
      by (field; split; lra).
    assert (Hden : 0 < (1 + c * c * v) * (1 + v)) by (apply Rmult_lt_0_compat; lra).
    split.
    + assert (0 <= (v - c * c * v) / ((1 + c * c * v) * (1 + v)))
        by (apply Rmult_le_pos; [lra | apply Rlt_le, Rinv_0_lt_compat, Hden]).
      lra.
    + split.
      * intros Hlt Heq. apply var_zero_iff in Heq. fold v in Heq.
        rewrite Heq in Hlt. replace (c * c * 0) with 0 in Hlt by lra. lra.
      * intros Hne.
        assert (Hv0 : v <> 0) by (intros H0; apply Hne, var_zero_iff; exact H0).
        assert (0 < v - c * c * v) by nra.
        assert (0 < (v - c * c * v) / ((1 + c * c * v) * (1 + v)))
          by (apply Rdiv_lt_0_compat; assumption).
        lra.
Qed.

(** X15: adding an ingredient for which the profiler has no molecules
    only dilutes the cocktail.  For a cocktail with positive total volume
    V and an added amount a > 0, [modify_cocktail] reports every taste
    score multiplied by V / (V + a) and a balance that is never lower
    than the original one.  It reports [balance_improved] only if the
    original taste scores are not all equal, and for taste scores in
    [0,1] it does report it as soon as their variance, times
    1 - (V / (V + a))^2, reaches 10^-9 (a smaller gain can be lost when
    the balance is computed in floating point). *)
Theorem unknown_ingredient_only_dilutes (self : CocktailModifier)
    (cocktail_name_ x w : string) (amount : R) (a : analysis) (ck : cocktail)
    (Hsame : modifier_profiler self = analyzer_profiler (modifier_analyzer self))
    (Hunknown : built_profile (modifier_profiler self) x = None)
    (Ha : analyze_cocktail (modifier_analyzer self) cocktail_name_ = Ok (AnalysisDict a))
    (Hf : _find_cocktail (modifier_analyzer self) cocktail_name_ = Some ck)
    (Hlen : length (ingredients ck) = length (measures ck))
    (HV : 0 < sum (volumes_of (measures ck)))
    (Hamount : 0 < amount) :
  exists c,
    modify_cocktail self cocktail_name_ [mkModification add x (Some amount) w]
    = Ok (ComparisonDict c)
    /\ snap_taste_scores (modified c)
       = scale_taste (sum (volumes_of (measures ck))
                      / (sum (volumes_of (measures ck)) + amount))
           (balance_scores a)
    /\ overall_balance a <= snap_overall_balance (modified c)
    /\ (balance_improved c = true -> ~ all_equal (balance_scores a))
    /\ (let ratio := sum (volumes_of (measures ck))
                     / (sum (volumes_of (measures ck)) + amount) in
        legal (balance_scores a) ->
        0.000000001 <= (1 - ratio * ratio) * np_var (values (balance_scores a)) ->
        balance_improved c = true).
Proof.
  unfold modify_cocktail. rewrite Ha; cbv beta iota delta [bind].
  destruct (analyze_cocktail_inv _ _ _ Ha) as (ck' & agg0 & Ef & _ & Eagg & Hrec).
  rewrite Hf in Ef; injection Ef as <-.
  rewrite Hf.
  assert (Hi : analysis_ingredients a = ingredients ck) by (rewrite Hrec; reflexivity).
  assert (Hb : overall_balance a = _compute_overall_balance (agg_taste_scores agg0))
    by (rewrite Hrec; reflexivity).
  assert (Ht : balance_scores a = agg_taste_scores agg0) by (rewrite Hrec; reflexivity).
  rewrite Hi, Hb, Ht.
  simpl apply_modifications. cbv beta iota delta [bind apply_modification].
  simpl mod_action. cbv iota. simpl mod_ingredient. simpl amount_or.
  rewrite map_app. simpl (map _ [x]).
  assert (Hx : get_ingredient_profile (modifier_profiler self) x = _empty_profile)
    by (unfold get_ingredient_profile; rewrite Hunknown; reflexivity).
  rewrite Hx, Hsame.
  rewrite (aggregate_with_unknown _ _ amount agg0); try exact Eagg;
    [| rewrite length_map; exact Hlen | lra | lra].
  cbv beta iota delta [bind].
  eexists; split; [reflexivity|]. simpl.
  set (V := sum (volumes_of (measures ck))) in *.
  assert (Hc : 0 < V / (V + amount) < 1).
  { split; [apply Rdiv_lt_0_compat; lra|].
    apply (Rmult_lt_reg_r (V + amount)); [lra|].
    unfold Rdiv; rewrite Rmult_assoc, Rinv_l by lra; lra. }
  destruct (balance_scale _ (agg_taste_scores agg0) Hc) as [Hle Hiff].
  split; [reflexivity|]. split; [exact Hle|].
  split.
  - intros Himp. apply Rgtb_true in Himp. apply Hiff. lra.
  - intros _ Hgain.
    assert (Hne : ~ all_equal (agg_taste_scores agg0)).
    { intros Heq. apply var_zero_iff in Heq. rewrite Heq in Hgain. lra. }
    apply Rgtb_true. apply Hiff in Hne. lra.
Qed.

Lemma mild_variance : np_var (values mild_taste) = 0.032.
Proof.
  pose proof (var_values mild_taste) as H; cbv zeta in H.
  rewrite H, mean_values; simpl; lra.
Qed.

Lemma unknown_ingredient_only_dilutes_witness :
  exists c,
    modify_cocktail (house_modifier mild_taste 60) "house"
      [mkModification add "water" (Some 30) EmptyString]
    = Ok (ComparisonDict c)
    /\ snap_taste_scores (modified c) = scale_taste (sum [60] / (sum [60] + 30)) mild_taste
    /\ balance_improved c = true.
Proof.
  assert (Hv : (60 : R) <> 0) by lra.
  destruct (unknown_ingredient_only_dilutes (house_modifier mild_taste 60) "house"
              "water" EmptyString 30 (house_analysis mild_taste 60)
              (mkCocktail "House" "Cocktail" ["house blend"%string] [mkMeasure (Some 60)])
              eq_refl eq_refl (analyze_house mild_taste 60 Hv) eq_refl eq_refl)
    as (c & Hc & Ht & _ & _ & Himproved).
  - unfold sum; simpl; lra.
  - lra.
  - exists c; split; [exact Hc|]. split; [exact Ht|].
    apply Himproved; [intros d; destruct d; simpl; lra|].
    change (balance_scores (house_analysis mild_taste 60)) with mild_taste.
    rewrite mild_variance. unfold sum; simpl.
    replace (0 + 60) with 60 by lra.
    assert (Hr : 60 / (60 + 30) = 2 / 3) by lra.
    rewrite Hr. lra.
Defined.

Lemma mw_average_no_molecules (ps : list profile) (vs : list R) :
  Forall (fun p => has_molecules p = false) ps ->
  mw_average ps vs = Raise (ZeroDivisionError "Weights sum to zero, can't be normalized").
Proof.
  intros Hall; unfold mw_average.
  assert (H1 : filter has_molecules ps = []).
  { clear - Hall; induction Hall as [|p ps Hp _ IH]; simpl; [reflexivity|].
    rewrite Hp; exact IH. }
  assert (H2 : filter (fun pv => has_molecules (fst pv)) (combine ps vs) = []).
  { clear - Hall; revert vs; induction Hall as [|p ps Hp _ IH]; intros [|v vs]; simpl;
      try reflexivity.
    rewrite Hp; apply IH. }
  rewrite H1, H2; unfold np_average; simpl.
  rewrite sum_nil. rewrite (proj2 (Reqb_true 0 0)) by reflexivity. reflexivity.
Qed.

(** X16: a cocktail that is found but has no ingredient with molecular
    data cannot be analysed: with at least one ingredient,
    [analyze_cocktail] raises the ZeroDivisionError of [np.average] on
    weights that sum to zero, and with an empty ingredient list it raises
    KeyError('taste_scores'). *)
Theorem analysis_without_molecular_data_raises (self : CocktailAnalyzer)
    (cocktail_name_ : string) (ck : cocktail)
    (Hf : _find_cocktail self cocktail_name_ = Some ck)
    (Hunknown : forall ing, In ing (ingredients ck) ->
                            built_profile (analyzer_profiler self) ing = None) :
  analyze_cocktail self cocktail_name_
  = match ingredients ck with
    | [] => Raise (KeyError "taste_scores")
    | _ => Raise (ZeroDivisionError "Weights sum to zero, can't be normalized")
    end.
Proof.
  unfold analyze_cocktail; rewrite Hf.
  destruct (ingredients ck) as [|ing ings] eqn:Ei; [reflexivity|].
  rewrite aggregate_profiles_normal by discriminate.
  rewrite mw_average_no_molecules; [reflexivity|].
  apply Forall_forall; intros p Hin.
  apply in_map_iff in Hin as (i & <- & Hi).
  unfold get_ingredient_profile; rewrite (Hunknown i Hi); reflexivity.
Qed.

Lemma analysis_without_molecular_data_raises_witness :
  analyze_cocktail
    (mkAnalyzer (mkProfiler (fun _ => None))
       [mkCocktail "Mystery" "Cocktail" ["unobtainium"%string] [mkMeasure (Some 30)]])
    "mystery"
  = Raise (ZeroDivisionError "Weights sum to zero, can't be normalized").
Proof.
  apply (analysis_without_molecular_data_raises
           (mkAnalyzer (mkProfiler (fun _ => None))
              [mkCocktail "Mystery" "Cocktail" ["unobtainium"%string] [mkMeasure (Some 30)]])
           "mystery"
           (mkCocktail "Mystery" "Cocktail" ["unobtainium"%string] [mkMeasure (Some 30)])).
  - reflexivity.
  - intros ing _; reflexivity.
Defined.

Lemma sum_map_mult (c : R) (l : list R) : sum (map (Rmult c) l) = c * sum l.
Proof.
  induction l as [|x l IH]; simpl map; [rewrite sum_nil; lra|].
  rewrite !sum_cons, IH; lra.
Qed.

Lemma np_average_scale (a w : list R) (c : R) :
  c <> 0 -> np_average a (map (Rmult c) w) = np_average a w.
Proof.
  intros Hc; unfold np_average. rewrite length_map.
  destruct (negb (Nat.eqb (length a) (length w))); [reflexivity|].
  rewrite sum_map_mult.
  assert (Hnum : sum (map (fun aw => fst aw * snd aw) (combine a (map (Rmult c) w)))
                 = c * sum (map (fun aw => fst aw * snd aw) (combine a w))).
  { clear; revert w; induction a as [|x a IH]; intros [|y w]; cbn [combine map fst snd];
      try (rewrite ?sum_nil; lra).
    rewrite !sum_cons, IH; lra. }
  rewrite Hnum.
  destruct (Req_dec_T (sum w) 0) as [H0|H0].
  - rewrite H0, Rmult_0_r. rewrite (proj2 (Reqb_true 0 0)) by reflexivity. reflexivity.
  - rewrite (proj2 (Reqb_false (c * sum w) 0)) by (apply Rmult_integral_contrapositive; tauto).
    rewrite (proj2 (Reqb_false (sum w) 0)) by exact H0.
    f_equal; field; split; assumption.
Qed.

Lemma filter_combine_map (f : profile -> bool) (g : R -> R) (ps : list profile) :
  forall vs,
  map snd (filter (fun pv => f (fst pv)) (combine ps (map g vs)))
  = map g (map snd (filter (fun pv => f (fst pv)) (combine ps vs))).
Proof.
  induction ps as [|p ps IH]; intros [|v vs]; simpl; try reflexivity.
  destruct (f p); simpl; rewrite IH; reflexivity.
Qed.

Lemma weighted_scale (d : dimension) (c : R) (ps : list profile) :
  forall vs, weighted d ps (map (Rmult c) vs) = c * weighted d ps vs.
Proof.
  unfold weighted; induction ps as [|p ps IH]; intros [|v vs]; cbn [combine map fst snd];
    try (rewrite ?sum_nil; lra).
  rewrite !sum_cons, IH; lra.
Qed.

(** X17: the analysis does not depend on the size of the drink.
    Multiplying every volume by the same non-zero factor leaves the
    aggregated taste scores and the average molecular weight unchanged
    (and so the balance), and multiplies the total volume by the factor;
    an error of the aggregation stays the same error. *)
Theorem aggregation_is_scale_invariant (profiles : list profile)
    (measures1 measures2 : list measure) (c : R)
    (Hc : c <> 0)
    (Hscaled : volumes_of measures2 = map (Rmult c) (volumes_of measures1))
    (Hnonzero : sum (volumes_of measures1) <> 0) :
  _aggregate_profiles profiles measures2
  = match _aggregate_profiles profiles measures1 with
    | Ok (Some agg) =>
        Ok (Some (mkAggregated (agg_taste_scores agg) (agg_avg_molecular_weight agg)
                    (c * total_volume agg)))
    | other => other
    end.
Proof.
  destruct profiles as [|p ps]; [reflexivity|].
  assert (Hne : p :: ps <> []) by discriminate.
  rewrite !(aggregate_profiles_normal _ _ Hne).
  assert (Hs2 : sum (volumes_of measures2) = c * sum (volumes_of measures1))
    by (rewrite Hscaled; apply sum_map_mult).
  rewrite (effective_volumes_nonzero _ measures1) by exact Hnonzero.
  rewrite (effective_volumes_nonzero _ measures2)
    by (rewrite Hs2; apply Rmult_integral_contrapositive; tauto).
  simpl fst; simpl snd. rewrite Hs2, Hscaled.
  unfold mw_average. rewrite filter_combine_map, np_average_scale by exact Hc.
  destruct (np_average _ _) as [avg|e]; [|reflexivity].
  cbv beta iota delta [bind]; simpl.
  do 2 f_equal. f_equal.
  apply taste_ext; intros d.
  rewrite !weighted_taste_get, weighted_scale. field; split; assumption.
Qed.

Lemma aggregation_is_scale_invariant_witness :
  _aggregate_profiles [mkProfile "house blend" 3 mild_taste 150] [mkMeasure (Some 120)]
  = match _aggregate_profiles [mkProfile "house blend" 3 mild_taste 150]
            [mkMeasure (Some 60)] with
    | Ok (Some agg) =>
        Ok (Some (mkAggregated (agg_taste_scores agg) (agg_avg_molecular_weight agg)
                    (2 * total_volume agg)))
    | other => other
    end.
Proof.
  apply (aggregation_is_scale_invariant [mkProfile "house blend" 3 mild_taste 150]
           [mkMeasure (Some 60)] [mkMeasure (Some 120)] 2).
  - lra.
  - simpl; f_equal; lra.
  - unfold sum; simpl; lra.
Defined.

(** ** The recommendation gate and the corrective suggestions *)


Lemma insert_by_sorted_desc {A : Type} (key : A -> R) (x : A) (l : list A) :
  StronglySorted (fun a b => key b <= key a) l ->
  StronglySorted (fun a b => key b <= key a) (insert_by key true x l).
Proof.
  induction 1 as [|y l Hs IH Hy]; simpl; [repeat constructor|].
  destruct (Rltb (key x) (key y)) eqn:E.
  - apply Rltb_true in E. constructor; [exact IH|].
    apply (Permutation_Forall (Permutation_sym (insert_by_perm key true x l))).
    constructor; [lra | exact Hy].
  - apply Rltb_false in E. constructor; [constructor; assumption|].
    constructor; [exact E|].
    apply (Forall_impl _ (P := fun b => key b <= key y)); [intros b Hb; lra | exact Hy].
Qed.

Lemma insert_by_sorted_asc {A : Type} (key : A -> R) (x : A) (l : list A) :
  StronglySorted (fun a b => key a <= key b) l ->
  StronglySorted (fun a b => key a <= key b) (insert_by key false x l).
Proof.
  induction 1 as [|y l Hs IH Hy]; simpl; [repeat constructor|].
  destruct (Rgtb (key x) (key y)) eqn:E.
  - apply Rgtb_true in E. constructor; [exact IH|].
    apply (Permutation_Forall (Permutation_sym (insert_by_perm key false x l))).
    constructor; [lra | exact Hy].
  - apply Rgtb_false in E. constructor; [constructor; assumption|].
    constructor; [exact E|].
    apply (Forall_impl _ (P := fun b => key y <= key b)); [intros b Hb; lra | exact Hy].
Qed.

Lemma sorted_sorted_desc {A : Type} (key : A -> R) (l : list A) :
  StronglySorted (fun a b => key b <= key a) (sorted key true l).
Proof.
  induction l as [|x l IH]; simpl; [constructor | apply insert_by_sorted_desc, IH].
Qed.

Lemma sorted_sorted_asc {A : Type} (key : A -> R) (l : list A) :
  StronglySorted (fun a b => key a <= key b) (sorted key false l).
Proof.
  induction l as [|x l IH]; simpl; [constructor | apply insert_by_sorted_asc, IH].
Qed.

Lemma In_firstn {A : Type} (x : A) (n : nat) (l : list A) :
  In x (firstn n l) -> In x l.
Proof.
  revert n; induction l as [|y l IH]; intros [|n]; simpl; try tauto.
  intros [->|H]; [left; reflexivity | right; apply (IH n H)].
Qed.

Lemma StronglySorted_firstn {A : Type} (R : A -> A -> Prop) (n : nat) (l : list A) :
  StronglySorted R l -> StronglySorted R (firstn n l).
Proof.
  intros H; revert n; induction H as [|x l Hs IH Hx]; intros [|n]; simpl;
    try constructor; [apply IH|].
  apply Forall_forall; intros y Hy. rewrite Forall_forall in Hx.
  apply Hx, (In_firstn _ _ _ Hy).
Qed.

Lemma find_corrective_In
    (table : dimension -> list string) (available : string -> bool)
    (profiler : MolecularProfiler) (dim : dimension) (ty : issue_type)
    (existing : list string) (s : suggestion) :
  In s (find_corrective table available profiler dim ty existing) ->
  sug_action s = add
  /\ sug_amount s = 15
  /\ In (sug_ingredient s)
        (table (match ty with too_low => dim | too_high => contrasting dim end))
  /\ available (sug_ingredient s) = true
  /\ ~ In (lower (sug_ingredient s)) (map lower existing)
  /\ exists p, built_profile profiler (sug_ingredient s) = Some p
               /\ (0 < num_molecules p)%nat
               /\ ingredient_taste_profile s = profile_taste p.
Proof.
  unfold find_corrective; intros Hin.
  apply In_firstn in Hin.
  apply (Permutation_in _ (sorted_perm _ _ _)) in Hin.
  apply in_flat_map in Hin as (ing & Hing & Hs).
  apply filter_In in Hing as [Htab Hf].
  apply Bool.andb_true_iff in Hf as [Hav Hnew].
  apply Bool.negb_true_iff in Hnew.
  unfold get_ingredient_profile in Hs.
  destruct (built_profile profiler ing) as [p|] eqn:Ep; [|destruct Hs].
  destruct (Nat.eqb (num_molecules p) 0) eqn:En; [destruct Hs|].
  destruct Hs as [<-|[]]; simpl.
  split; [reflexivity|]. split; [reflexivity|].
  split; [destruct ty; exact Htab|].
  split; [exact Hav|].
  split.
  - intros Hc; apply str_in_true in Hc; congruence.
  - exists p; split; [exact Ep|]. split; [|reflexivity].
    apply Nat.eqb_neq in En; lia.
Qed.

(** X19: whatever the table and the profiler, the corrective
    suggestions for an imbalance are at most five additions of 15 ml,
    each of an ingredient of the table row that was consulted (the
    dimension itself when it is too low, the contrasting one when it is
    too high) which passes the availability filter, is not in the
    cocktail under any letter case and has molecular data; they come
    strongest first for a dimension that is too low and weakest first for
    one that is too high. *)
Theorem corrective_suggestions_are_sound
    (table : dimension -> list string) (available : string -> bool)
    (profiler : MolecularProfiler) (dim : dimension) (ty : issue_type)
    (existing : list string) :
  let suggestions := find_corrective table available profiler dim ty existing in
  (length suggestions <= 5)%nat
  /\ (forall s, In s suggestions ->
        sug_action s = add /\ sug_amount s = 15
        /\ In (sug_ingredient s)
              (table (match ty with too_low => dim | too_high => contrasting dim end))
        /\ available (sug_ingredient s) = true
        /\ ~ In (lower (sug_ingredient s)) (map lower existing)
        /\ exists p, built_profile profiler (sug_ingredient s) = Some p
                     /\ (0 < num_molecules p)%nat
                     /\ ingredient_taste_profile s = profile_taste p)
  /\ match ty with
     | too_low =>
         StronglySorted (fun a b => get (ingredient_taste_profile b) dim
                                    <= get (ingredient_taste_profile a) dim) suggestions
     | too_high =>
         StronglySorted (fun a b => get (ingredient_taste_profile a) dim
                                    <= get (ingredient_taste_profile b) dim) suggestions
     end.
Proof.
  cbv zeta. split; [|split].
  - unfold find_corrective; apply firstn_le_length.
  - intros s; apply find_corrective_In.
  - unfold find_corrective; destruct ty; apply StronglySorted_firstn.
    + apply (sorted_sorted_asc (fun s => get (ingredient_taste_profile s) dim)).
    + apply (sorted_sorted_desc (fun s => get (ingredient_taste_profile s) dim)).
Qed.

(** ** The reports of the optimizers *)

Lemma flat_map_length_le {A B : Type} (f : A -> list B) (k : nat) (l : list A) :
  (forall a, length (f a) <= k)%nat -> (length (flat_map f l) <= k * length l)%nat.
Proof.
  intros Hf; induction l as [|a l IH]; simpl; [lia|].
  rewrite length_app. specialize (Hf a). lia.
Qed.

Lemma target_imbalances_length (target : option string) :
  (length (target_imbalances target) <= 1)%nat.
Proof.
  unfold target_imbalances. destruct target as [[|c s]|]; simpl; try lia.
  destruct (target_map (String c s)) as [[[dim dir]|]|]; simpl; lia.
Qed.

Lemma identify_length_v1 (taste : taste_scores) (target : option string) :
  (length (FlavorOptimizer._identify_imbalances taste target) <= 6)%nat.
Proof.
  unfold FlavorOptimizer._identify_imbalances; cbv zeta. rewrite length_app.
  pose proof (target_imbalances_length target).
  match goal with |- (_ + length (flat_map ?f ?l) <= _)%nat =>
    assert (length (flat_map f l) <= 1 * length l)%nat
  end.
  { apply flat_map_length_le. intros [dim score].
    destruct (Rgtb _ _); [simpl; lia|]. destruct (_ && _)%bool; simpl; lia. }
  simpl in *; lia.
Qed.

Lemma identify_length_v2 (taste : taste_scores) (target : option string) :
  (length (FlavorOptimizerV2._identify_imbalances taste target) <= 6)%nat.
Proof.
  unfold FlavorOptimizerV2._identify_imbalances; cbv zeta. rewrite length_app.
  pose proof (target_imbalances_length target).
  match goal with |- (_ + length (flat_map ?f ?l) <= _)%nat =>
    assert (length (flat_map f l) <= 1 * length l)%nat
  end.
  { apply flat_map_length_le. intros [dim score].
    destruct (Rgtb _ _); [simpl; lia|]. destruct (_ && _)%bool; simpl; lia. }
  simpl in *; lia.
Qed.

Lemma adaptive_amount_bounds (b m t : R) :
  5 <= FlavorOptimizerV2._calculate_adaptive_amount b m t <= 30.
Proof. rewrite adaptive_amount_unfold. apply round1_bounds, clamped_bounds. Qed.

Lemma recommend_from_analysis_sound
    (should : R -> taste_scores -> bool * string)
    (table : dimension -> list string) (available : string -> bool)
    (prof : MolecularProfiler) (per_issue : nat)
    (cocktail_name_ : string) (target : option string) (a : analysis) :
  let r := FlavorOptimizerV2.recommend_from_analysis should
             FlavorOptimizerV2._identify_imbalances
             (find_corrective table available prof)
             FlavorOptimizerV2._calculate_adaptive_amount per_issue
             cocktail_name_ target a in
  (length (identified_issues r) <= 6)%nat
  /\ (length (recommendations r) <= per_issue * length (identified_issues r))%nat
  /\ forall rec, In rec (recommendations r) ->
       sug_action (rec_suggestion rec) = add
       /\ 5 <= sug_amount (rec_suggestion rec) <= 30
       /\ ~ In (lower (sug_ingredient (rec_suggestion rec)))
               (map lower (analysis_ingredients a))
       /\ exists p, built_profile prof (sug_ingredient (rec_suggestion rec)) = Some p
                    /\ (0 < num_molecules p)%nat.
Proof.
  cbv zeta. unfold FlavorOptimizerV2.recommend_from_analysis.
  destruct (should (overall_balance a) (balance_scores a)) as [should_rec msg].
  destruct should_rec; simpl negb; cbv iota.
  - cbn [identified_issues recommendations].
    split; [apply identify_length_v2|].
    split.
    + apply flat_map_length_le. intros imb. cbv beta zeta.
      rewrite length_map. apply firstn_le_length.
    + intros rec Hin.
      apply in_flat_map in Hin as (imb & _ & Hin).
      apply in_map_iff in Hin as (s & <- & Hs).
      apply In_firstn in Hs.
      destruct (find_corrective_In _ _ _ _ _ _ _ Hs) as (Ha & _ & _ & _ & Hnew & p & Hp & Hn & _).
      cbn [rec_suggestion sug_action sug_amount sug_ingredient].
      split; [exact Ha|]. split; [apply adaptive_amount_bounds|].
      split; [exact Hnew|]. exists p; split; assumption.
  - cbn [identified_issues recommendations]. simpl.
    split; [lia|]. split; [lia|]. intros rec [].
Qed.

Lemma report_dict_inj (x y : report) :
  @Ok recommend_dict (ReportDict x) = Ok (ReportDict y) -> x = y.
Proof. congruence. Qed.

Lemma v1_report_sound (self : FlavorOptimizer.t) (cocktail_name_ : string)
    (target : option string) (r : report) :
  FlavorOptimizer.recommend_improvements self cocktail_name_ target = Ok (ReportDict r) ->
  (length (identified_issues r) <= 6)%nat
  /\ (length (recommendations r) <= 3 * length (identified_issues r))%nat
  /\ forall rec, In rec (recommendations r) ->
       new_ingredient (FlavorOptimizer.analyzer self) (FlavorOptimizer.profiler self)
         cocktail_name_ rec
       /\ sug_amount (rec_suggestion rec) = 15
       /\ In (sug_ingredient (rec_suggestion rec))
             (FlavorOptimizer.available_ingredients self).
Proof.
  intros Hr. unfold FlavorOptimizer.recommend_improvements in Hr.
  destruct (analyze_cocktail (FlavorOptimizer.analyzer self) cocktail_name_)
    as [[e|a]|e] eqn:Ea; cbv beta iota delta [bind] in Hr; try discriminate.
  apply report_dict_inj in Hr; subst r. cbn [identified_issues recommendations].
  destruct (analyze_cocktail_inv _ _ _ Ea) as (ck & agg & Ef & _ & _ & Hrec).
  assert (Hi : analysis_ingredients a = ingredients ck) by (rewrite Hrec; reflexivity).
  split; [apply identify_length_v1|].
  split.
  - apply flat_map_length_le. intros imb. cbv beta zeta.
    rewrite length_map. apply firstn_le_length.
  - intros rec Hin.
    apply in_flat_map in Hin as (imb & _ & Hin).
    apply in_map_iff in Hin as (s & <- & Hs).
    apply In_firstn in Hs.
    destruct (find_corrective_In _ _ _ _ _ _ _ Hs)
      as (Hadd & Hamt & _ & Hav & Hnew & p & Hp & Hn & _).
    cbn [rec_suggestion]. rewrite Hi in Hnew.
    split; [|split; [exact Hamt | apply str_in_true, Hav]].
    exists ck; split; [exact Ef|]. split; [exact Hadd|]. split; [exact Hnew|].
    exists p; split; assumption.
Qed.

(** X20: every report of [recommend_improvements] names at most six
    issues and at most three recommendations for each issue (five in V3).
    Every recommendation adds an ingredient that is not in the cocktail
    under any letter case and that has molecular data; V1 always suggests
    15 ml of an ingredient of its available list, V2 and V3 an amount in
    [[5, 30]] ml. *)
Theorem recommendations_are_new_ingredients (cocktail_name_ : string)
    (target : option string) (r : report) :
  (forall self : FlavorOptimizer.t,
      FlavorOptimizer.recommend_improvements self cocktail_name_ target
      = Ok (ReportDict r) ->
      (length (identified_issues r) <= 6)%nat
      /\ (length (recommendations r) <= 3 * length (identified_issues r))%nat
      /\ forall rec, In rec (recommendations r) ->
           new_ingredient (FlavorOptimizer.analyzer self) (FlavorOptimizer.profiler self)
             cocktail_name_ rec
           /\ sug_amount (rec_suggestion rec) = 15
           /\ In (sug_ingredient (rec_suggestion rec))
                 (FlavorOptimizer.available_ingredients self))
  /\ (forall self : FlavorOptimizerV2.t,
      FlavorOptimizerV2.recommend_improvements self cocktail_name_ target
      = Ok (ReportDict r) ->
      (length (identified_issues r) <= 6)%nat
      /\ (length (recommendations r) <= 3 * length (identified_issues r))%nat
      /\ forall rec, In rec (recommendations r) ->
           new_ingredient (FlavorOptimizerV2.analyzer self) (FlavorOptimizerV2.profiler self)
             cocktail_name_ rec
           /\ 5 <= sug_amount (rec_suggestion rec) <= 30)
  /\ (forall self : FlavorOptimizerV3.t,
      FlavorOptimizerV3.recommend_improvements self cocktail_name_ target
      = Ok (ReportDict r) ->
      (length (identified_issues r) <= 6)%nat
      /\ (length (recommendations r) <= 5 * length (identified_issues r))%nat
      /\ forall rec, In rec (recommendations r) ->
           new_ingredient (FlavorOptimizerV3.analyzer self) (FlavorOptimizerV3.profiler self)
             cocktail_name_ rec
           /\ 5 <= sug_amount (rec_suggestion rec) <= 30).
Proof.
  split; [|split].
  - intros self Hr. exact (v1_report_sound self cocktail_name_ target r Hr).
  - intros self Hr. unfold FlavorOptimizerV2.recommend_improvements in Hr.
    destruct (analyze_cocktail (FlavorOptimizerV2.analyzer self) cocktail_name_)
      as [[e|a]|e] eqn:Ea; cbv beta iota delta [bind] in Hr; try discriminate.
    apply report_dict_inj in Hr; subst r.
    destruct (analyze_cocktail_inv _ _ _ Ea) as (ck & agg & Ef & _ & _ & Hrec).
    assert (Hi : analysis_ingredients a = ingredients ck) by (rewrite Hrec; reflexivity).
    destruct (recommend_from_analysis_sound FlavorOptimizerV2.should_recommend_changes
                FlavorOptimizerV2.dimension_ingredients (fun _ => true)
                (FlavorOptimizerV2.profiler self) 3 cocktail_name_ target a)
      as (H1 & H2 & H3).
    split; [exact H1|]. split; [exact H2|].
    intros rec Hin. destruct (H3 rec Hin) as (Hadd & Hamt & Hnew & p & Hp & Hn).
    rewrite Hi in Hnew.
    split; [|exact Hamt].
    exists ck; split; [exact Ef|]. split; [exact Hadd|]. split; [exact Hnew|].
    exists p; split; assumption.
  - intros self Hr. unfold FlavorOptimizerV3.recommend_improvements in Hr.
    destruct (analyze_cocktail (FlavorOptimizerV3.analyzer self) cocktail_name_)
      as [[e|a]|e] eqn:Ea; cbv beta iota delta [bind] in Hr; try discriminate.
    apply report_dict_inj in Hr; subst r.
    destruct (analyze_cocktail_inv _ _ _ Ea) as (ck & agg & Ef & _ & _ & Hrec).
    assert (Hi : analysis_ingredients a = ingredients ck) by (rewrite Hrec; reflexivity).
    destruct (recommend_from_analysis_sound FlavorOptimizerV3._should_recommend_changes
                FlavorOptimizerV3.dimension_ingredients (fun _ => true)
                (FlavorOptimizerV3.profiler self) 5 cocktail_name_ target a)
      as (H1 & H2 & H3).
    split; [exact H1|]. split; [exact H2|].
    intros rec Hin. destruct (H3 rec Hin) as (Hadd & Hamt & Hnew & p & Hp & Hn).
    rewrite Hi in Hnew.
    split; [|exact Hamt].
    exists ck; split; [exact Ef|]. split; [exact Hadd|]. split; [exact Hnew|].
    exists p; split; assumption.
Qed.

Lemma recommendations_are_new_ingredients_witness :
  5 <= sug_amount (rec_suggestion
                     (mkRecommendation "sweet is too high"
                        (mkSuggestion add "lemon juice" 18.2 lemon_taste))) <= 30.
Proof.
  refine (proj2 (proj2 (proj2 (proj2 (proj2
            (recommendations_are_new_ingredients "house" None (spiky_report 18.2)))
            spiky_v3 spiky_recommendations_v3)) _ _)).
  left; reflexivity.
Defined.

(** ** Recall of the evaluator *)

Lemma filter_nil {A : Type} (f : A -> bool) (l : list A) :
  (forall x, In x l -> f x = false) -> filter f l = [].
Proof.
  induction l as [|x l IH]; intros H; simpl; [reflexivity|].
  rewrite (H x (or_introl eq_refl)). apply IH. intros y Hy; apply H; right; exact Hy.
Qed.

Lemma recall_at_zero (ingredients_ : list string) (recs : list recommendation) (k : nat) :
  (forall rec, In rec recs ->
     ~ In (lower (sug_ingredient (rec_suggestion rec))) (map lower ingredients_)) ->
  recall_at ingredients_ recs k = 0.
Proof.
  intros Hnew. unfold recall_at; cbv zeta.
  assert (Hov : overlap_size
                  (map lower (filter (fun ing => negb (is_empty ing)) ingredients_))
                  (map (fun rec => lower (sug_ingredient (rec_suggestion rec)))
                     (firstn k recs)) = 0%nat).
  { unfold overlap_size. rewrite filter_nil; [reflexivity|].
    intros x Hx.
    destruct (str_in x _) eqn:E; [|reflexivity]. exfalso.
    apply str_in_true in E. apply in_map_iff in E as (rec & <- & Hrec).
    apply In_firstn in Hrec. apply (Hnew rec Hrec).
    apply in_map_iff in Hx as (ing & Heq & Hing).
    apply filter_In in Hing as [Hing _].
    apply in_map_iff; exists ing; split; assumption. }
  rewrite Hov.
  destruct (nodup string_dec _); [lra|]. simpl INR at 1. unfold Rdiv; lra.
Qed.

Lemma mean_of_zeros (l : list R) : Forall (fun x => x = 0) l -> l <> [] -> np_mean l = 0.
Proof.
  intros Hall _. unfold np_mean.
  assert (Hs : sum l = 0).
  { induction Hall as [|x l Hx _ IH]; [apply sum_nil | rewrite sum_cons, Hx, IH; lra]. }
  rewrite Hs; unfold Rdiv; lra.
Qed.

Lemma analyze_trio :
  exists a, analyze_cocktail trio_analyzer "Trio" = Ok (AnalysisDict a)
    /\ balance_scores a = spiky_taste
    /\ analysis_ingredients a = ingredients trio_cocktail.
Proof.
  unfold analyze_cocktail.
  change (_find_cocktail trio_analyzer "Trio") with (Some trio_cocktail).
  cbn [ingredients measures map trio_analyzer trio_cocktail analyzer_profiler name category].
  change (get_ingredient_profile trio_profiler "house blend")
    with (mkProfile "house blend" 3 spiky_taste 150).
  change (get_ingredient_profile trio_profiler "cane syrup")
    with (mkProfile "cane syrup" 3 spiky_taste 150).
  change (get_ingredient_profile trio_profiler "honey water")
    with (mkProfile "honey water" 3 spiky_taste 150).
  unfold _aggregate_profiles, effective_volumes, sum; simpl.
  decide_cmp; simpl. unfold truediv; decide_cmp; simpl.
  unfold np_average, sum; simpl; decide_cmp; simpl.
  eexists; split; [reflexivity|]. split; [|reflexivity].
  cbn [balance_scores].
  apply taste_ext; intros d; rewrite !get_accumulate.
  destruct d; simpl; lra.
Qed.

Lemma spiky_identified_v1 :
  FlavorOptimizer._identify_imbalances spiky_taste None = [spiky_issue].
Proof.
  change (FlavorOptimizer._identify_imbalances spiky_taste None)
    with (auto_detect (np_mean (values spiky_taste) + np_std (values spiky_taste))
            (np_mean (values spiky_taste) - np_std (values spiky_taste)) spiky_taste).
  rewrite spiky_mean, spiky_std.
  replace (0.2 + 0.4) with (0.2 + 0.4 * 1) by lra.
  replace (0.2 - 0.4) with (0.2 - 0.4 * 1) by lra.
  rewrite spiky_detected by lra; reflexivity.
Qed.

Lemma trio_recommendations :
  exists r,
    FlavorOptimizer.recommend_improvements (evaluator_optimizer trio_evaluator) "Trio" None
    = Ok (ReportDict r)
    /\ recommendations r = [trio_recommendation].
Proof.
  destruct analyze_trio as (a & Ea & Eb & Ei).
  unfold FlavorOptimizer.recommend_improvements.
  cbn [trio_evaluator evaluator_optimizer FlavorOptimizer.analyzer].
  rewrite Ea; cbv beta iota delta [bind]; cbv zeta.
  eexists; split; [reflexivity|].
  cbn [recommendations]. rewrite Eb, Ei, spiky_identified_v1.
  reflexivity.
Qed.

(** X21: [calculate_recall] is 0 for every k.  It compares the
    ingredients that a cocktail already has with the ingredients that V1
    recommends for it, and V1 never recommends an ingredient that the
    cocktail has; the only assumption is that looking a cocktail of the
    evaluator up by name finds a cocktail with the same ingredients. *)
Theorem recall_is_always_zero (self : CocktailIQEvaluator) (k : nat)
    (Hsame : forall c ck,
        In c (evaluator_cocktails self) ->
        _find_cocktail (FlavorOptimizer.analyzer (evaluator_optimizer self)) (name c)
        = Some ck ->
        ingredients ck = ingredients c) :
  calculate_recall self k = 0.
Proof.
  assert (Hall : Forall (fun x => x = 0) (recall_results self k)).
  { unfold recall_results. apply flat_map_Forall_in. intros c Hc.
    apply In_firstn in Hc.
    destruct (Nat.ltb _ 3); [constructor|].
    destruct (FlavorOptimizer.recommend_improvements _ _ _) as [[e|r]|e] eqn:Er;
      try constructor.
    destruct (recommendations r) as [|rec0 recs] eqn:Erecs; [constructor|].
    constructor; [|constructor].
    apply recall_at_zero. intros rec Hrec.
    destruct (v1_report_sound _ _ _ _ Er) as (_ & _ & Hsound).
    rewrite Erecs in Hsound.
    destruct (Hsound rec Hrec) as [(ck & Ef & _ & Hnew & _) _].
    rewrite (Hsame c ck Hc Ef) in Hnew. exact Hnew. }
  unfold calculate_recall.
  destruct (recall_results self k) as [|x l] eqn:E; [lra|].
  apply mean_of_zeros; [exact Hall | discriminate].
Qed.

Lemma recall_is_always_zero_witness :
  recall_results trio_evaluator 5
  = [recall_at (ingredients trio_cocktail) [trio_recommendation] 5]
  /\ calculate_recall trio_evaluator 5 = 0.
Proof.
  split.
  - destruct trio_recommendations as (r & Er & Erecs).
    unfold recall_results.
    cbn [trio_evaluator evaluator_cocktails trio_analyzer cocktails firstn flat_map
         ingredients name length Nat.ltb Nat.leb app trio_cocktail].
    rewrite Er, Erecs. reflexivity.
  - apply recall_is_always_zero.
    intros c ck [<-|[<-|[]]] Hf.
    + change (_find_cocktail trio_analyzer "House")
        with (Some (mkCocktail "House" "Cocktail" ["house blend"%string]
                      [mkMeasure (Some 101)])) in Hf.
      injection Hf as <-; reflexivity.
    + change (_find_cocktail trio_analyzer "Trio") with (Some trio_cocktail) in Hf.
      injection Hf as <-; reflexivity.
Defined.

(** ** The adaptive amount *)

Lemma round_half_even_mono (x y : R) :
  x <= y -> (round_half_even x <= round_half_even y)%Z.
Proof.
  intros H; destruct H as [Hlt | ->]; [|lia].
  pose proof (round_half_even_near x) as Hx.
  pose proof (round_half_even_near y) as Hy.
  assert (H : IZR (round_half_even x) < IZR (round_half_even y + 1)).
  { rewrite plus_IZR; simpl IZR; lra. }
  apply lt_IZR in H; lia.
Qed.

Lemma round1_mono (x y : R) : x <= y -> round1 x <= round1 y.
Proof.
  intros H; unfold round1.
  assert (Hz : (round_half_even (x * 10) <= round_half_even (y * 10))%Z)
    by (apply round_half_even_mono; lra).
  apply IZR_le in Hz. lra.
Qed.

Lemma clamp_mono (x y : R) : x <= y -> Rmax 5 (Rmin x 30) <= Rmax 5 (Rmin y 30).
Proof.
  intros H. unfold Rmax, Rmin.
  repeat (destruct (Rle_dec _ _)); lra.
Qed.

Lemma balance_factor_range (b : R) : 0 <= balance_factor b <= 1.
Proof.
  unfold balance_factor.
  destruct (Rgeb b 0.98); [lra|]. destruct (Rgeb b 0.95); [lra|].
  destruct (Rgeb b 0.90); [lra|]. destruct (Rgeb b 0.80); lra.
Qed.

Lemma balance_factor_antitone (b1 b2 : R) :
  b1 <= b2 -> balance_factor b2 <= balance_factor b1.
Proof.
  intros H; unfold balance_factor.
  destruct (Rgeb b2 0.98) eqn:E1; [pose proof (balance_factor_range b1) as Hr;
                                   unfold balance_factor in Hr; lra|].
  apply Rgeb_false in E1.
  rewrite (proj2 (Rgeb_false b1 0.98)) by lra.
  destruct (Rgeb b2 0.95) eqn:E2.
  { destruct (Rgeb b1 0.95); [lra|]. destruct (Rgeb b1 0.90); [lra|].
    destruct (Rgeb b1 0.80); lra. }
  apply Rgeb_false in E2.
  rewrite (proj2 (Rgeb_false b1 0.95)) by lra.
  destruct (Rgeb b2 0.90) eqn:E3.
  { destruct (Rgeb b1 0.90); [lra|]. destruct (Rgeb b1 0.80); lra. }
  apply Rgeb_false in E3.
  rewrite (proj2 (Rgeb_false b1 0.90)) by lra.
  destruct (Rgeb b2 0.80) eqn:E4.
  { destruct (Rgeb b1 0.80); lra. }
  apply Rgeb_false in E4.
  rewrite (proj2 (Rgeb_false b1 0.80)) by lra. lra.
Qed.

Lemma severity_factor_mono (m1 m2 : R) :
  m1 <= m2 -> severity_factor m1 <= severity_factor m2.
Proof.
  intros H; unfold severity_factor, Rmin.
  repeat (destruct (Rle_dec _ _)); lra.
Qed.

Lemma severity_factor_nonneg (m : R) : 0 <= m -> 0 <= severity_factor m.
Proof.
  intros H; unfold severity_factor, Rmin. destruct (Rle_dec _ _); lra.
Qed.

(** X22: the adaptive amount of V2 and V3 never decreases when the
    total volume of the cocktail grows or when the dimension lies further
    from the mean, and never increases when the current balance is
    better (for a non-negative volume and distance, as the callers
    pass). *)
Theorem adaptive_amount_is_monotone (b m t : R) (Hm : 0 <= m) (Ht : 0 <= t) :
  (forall t', t <= t' ->
     FlavorOptimizerV2._calculate_adaptive_amount b m t
     <= FlavorOptimizerV2._calculate_adaptive_amount b m t')
  /\ (forall m', m <= m' ->
        FlavorOptimizerV2._calculate_adaptive_amount b m t
        <= FlavorOptimizerV2._calculate_adaptive_amount b m' t)
  /\ (forall b', b <= b' ->
        FlavorOptimizerV2._calculate_adaptive_amount b' m t
        <= FlavorOptimizerV2._calculate_adaptive_amount b m t).
Proof.
  pose proof (balance_factor_range b) as Hbf.
  pose proof (severity_factor_nonneg m Hm) as Hsf.
  split; [|split].
  - intros t' Hle. rewrite !adaptive_amount_unfold.
    apply round1_mono, clamp_mono. unfold raw_amount.
    assert (0 <= 0.12 * balance_factor b * severity_factor m)
      by (apply Rmult_le_pos; [lra | exact Hsf]).
    nra.
  - intros m' Hle. rewrite !adaptive_amount_unfold.
    apply round1_mono, clamp_mono. unfold raw_amount.
    pose proof (severity_factor_mono m m' Hle).
    assert (0 <= t * 0.12 * balance_factor b) by nra.
    nra.
  - intros b' Hle. rewrite !adaptive_amount_unfold.
    apply round1_mono, clamp_mono. unfold raw_amount.
    pose proof (balance_factor_antitone b b' Hle).
    pose proof (balance_factor_range b').
    assert (0 <= t * 0.12) by lra.
    assert (t * 0.12 * balance_factor b' <= t * 0.12 * balance_factor b) by nra.
    nra.
Qed.

Lemma adaptive_amount_is_monotone_witness :
  FlavorOptimizerV2._calculate_adaptive_amount 0.9 0.3 100
  <= FlavorOptimizerV2._calculate_adaptive_amount 0.9 0.3 200.
Proof.
  refine (proj1 (adaptive_amount_is_monotone 0.9 0.3 100 _ _) 200 _); lra.
Defined.

(** ** Searching for the best modification (V3) *)

Lemma find_best_unfold (self : FlavorOptimizerV3.t) (cocktail_name_ : string)
    (max_candidates : nat) (a : analysis) :
  analyze_cocktail (FlavorOptimizerV3.analyzer self) cocktail_name_ = Ok (AnalysisDict a) ->
  let r := FlavorOptimizerV2.recommend_from_analysis
             FlavorOptimizerV3._should_recommend_changes
             FlavorOptimizerV3._identify_imbalances
             (FlavorOptimizerV3._find_corrective_ingredients self)
             FlavorOptimizerV3._calculate_adaptive_amount 5 cocktail_name_ None a in
  FlavorOptimizerV3.find_best_modification self cocktail_name_ max_candidates
  = match recommendations r with
    | [] =>
        Ok (FlavorOptimizerV3.NoBest cocktail_name_
              (match message r with
               | Some m => m
               | None => "No recommendations available"%string
               end))
    | recs =>
        match FlavorOptimizerV3.test_candidates self cocktail_name_ (overall_balance a) 0
                (firstn max_candidates recs) with
        | [] => Ok (FlavorOptimizerV3.NoBest cocktail_name_
                      "Could not test any modifications")
        | c :: candidates =>
            Ok (FlavorOptimizerV3.Best cocktail_name_ (overall_balance a)
                  (max_by FlavorOptimizerV3.improvement c candidates)
                  (c :: candidates) (length (c :: candidates)))
        end
    end.
Proof.
  intros Ha; cbv zeta.
  unfold FlavorOptimizerV3.find_best_modification, FlavorOptimizerV3.recommend_improvements.
  rewrite Ha; cbv beta iota delta [bind]. reflexivity.
Qed.

Lemma test_candidates_with_bounds
    (modify_cocktail_ : string -> list modification -> result modify_dict)
    (minus : R -> R -> R) (cocktail_name_ : string) (ob : R) (recs : list recommendation) :
  forall i,
    let cs := test_candidates_with modify_cocktail_ minus cocktail_name_ ob i recs in
    (length cs <= length recs)%nat
    /\ Forall (fun c =>
                 (i < FlavorOptimizerV3.rank c <= i + length recs)%nat
                 /\ exists rec cmp,
                      nth_error recs (FlavorOptimizerV3.rank c - S i) = Some rec
                      /\ FlavorOptimizerV3.cand_ingredient c
                         = sug_ingredient (rec_suggestion rec)
                      /\ FlavorOptimizerV3.cand_amount c = sug_amount (rec_suggestion rec)
                      /\ FlavorOptimizerV3.cand_modification c
                         = [mkModification add (FlavorOptimizerV3.cand_ingredient c)
                              (Some (FlavorOptimizerV3.cand_amount c)) EmptyString]
                      /\ modify_cocktail_ cocktail_name_
                           (FlavorOptimizerV3.cand_modification c)
                         = Ok (ComparisonDict cmp)
                      /\ FlavorOptimizerV3.new_balance c
                         = snap_overall_balance (modified cmp)) cs.
Proof.
  induction recs as [|rec recs IH]; intros i; cbv zeta; simpl.
  - split; [lia | constructor].
  - destruct (IH (S i)) as [Hl Hf]; cbv zeta in Hl, Hf.
    assert (Hf' : Forall (fun c =>
                 (i < FlavorOptimizerV3.rank c <= i + S (length recs))%nat
                 /\ exists rec0 cmp,
                      nth_error (rec :: recs) (FlavorOptimizerV3.rank c - S i) = Some rec0
                      /\ FlavorOptimizerV3.cand_ingredient c
                         = sug_ingredient (rec_suggestion rec0)
                      /\ FlavorOptimizerV3.cand_amount c = sug_amount (rec_suggestion rec0)
                      /\ FlavorOptimizerV3.cand_modification c
                         = [mkModification add (FlavorOptimizerV3.cand_ingredient c)
                              (Some (FlavorOptimizerV3.cand_amount c)) EmptyString]
                      /\ modify_cocktail_ cocktail_name_
                           (FlavorOptimizerV3.cand_modification c)
                         = Ok (ComparisonDict cmp)
                      /\ FlavorOptimizerV3.new_balance c
                         = snap_overall_balance (modified cmp))
                 (test_candidates_with modify_cocktail_ minus cocktail_name_ ob (S i) recs)).
    { eapply Forall_impl; [|exact Hf]; simpl.
      intros c (H1 & rec0 & cmp & H2 & H3).
      split; [lia|]. exists rec0, cmp; split; [|exact H3].
      replace (FlavorOptimizerV3.rank c - S i)%nat
        with (S (FlavorOptimizerV3.rank c - S (S i)))%nat by lia.
      exact H2. }
    destruct (modify_cocktail_ cocktail_name_ _) as [[e|cmp]|e] eqn:Em; simpl;
      try (split; [lia | exact Hf']).
    split; [lia|].
    constructor; [|exact Hf'].
    simpl; split; [lia|].
    exists rec, cmp.
    replace (i + 1 - S i)%nat with 0%nat by lia.
    repeat split; try reflexivity. exact Em.
Qed.

(** X23: the outcomes of [find_best_modification] of V3, whatever its
    analyzer, its recommender and its modifier do and however the
    subtraction rounds.  It raises exactly
    when the analysis raises or, the analysis having succeeded, when
    [recommend_improvements] raises; an exception of the modifier only
    drops the candidate.  It passes the analyzer's error dictionary on.
    When it returns a best modification, between 1 and [max_candidates]
    candidates were tested, the best is one of them, and the candidate of
    rank k is the single addition of the k-th recommendation, with its
    ingredient and amount and with the balance that the modifier
    reported for it. *)
Theorem find_best_modification_outcomes
    (analyze_cocktail_ : string -> result analysis_dict)
    (recommend_improvements_ : string -> option string -> result recommend_dict)
    (modify_cocktail_ : string -> list modification -> result modify_dict)
    (minus : R -> R -> R) (cocktail_name_ : string) (max_candidates : nat) :
  let found := find_best_modification_with analyze_cocktail_ recommend_improvements_
                 modify_cocktail_ minus cocktail_name_ max_candidates in
  match analyze_cocktail_ cocktail_name_ with
  | Raise e => found = Raise e
  | Ok (ErrorDict e) => found = Ok (FlavorOptimizerV3.BestError e)
  | Ok (AnalysisDict a) =>
      match recommend_improvements_ cocktail_name_ None with
      | Raise e => found = Raise e
      | Ok (RecommendError _) =>
          found = Ok (FlavorOptimizerV3.NoBest cocktail_name_ "No recommendations available")
      | Ok (ReportDict r) =>
          (exists msg, found = Ok (FlavorOptimizerV3.NoBest cocktail_name_ msg))
          \/ (exists best all,
                 found = Ok (FlavorOptimizerV3.Best cocktail_name_ (overall_balance a)
                               best all (length all))
                 /\ (1 <= length all <= max_candidates)%nat
                 /\ (length all <= length (recommendations r))%nat
                 /\ In best all
                 /\ Forall (fun c =>
                              (1 <= FlavorOptimizerV3.rank c <= max_candidates)%nat
                              /\ exists rec cmp,
                                   nth_error (recommendations r)
                                     (FlavorOptimizerV3.rank c - 1) = Some rec
                                   /\ FlavorOptimizerV3.cand_ingredient c
                                      = sug_ingredient (rec_suggestion rec)
                                   /\ FlavorOptimizerV3.cand_amount c
                                      = sug_amount (rec_suggestion rec)
                                   /\ FlavorOptimizerV3.cand_modification c
                                      = [mkModification add
                                           (FlavorOptimizerV3.cand_ingredient c)
                                           (Some (FlavorOptimizerV3.cand_amount c))
                                           EmptyString]
                                   /\ modify_cocktail_ cocktail_name_
                                        (FlavorOptimizerV3.cand_modification c)
                                      = Ok (ComparisonDict cmp)
                                   /\ FlavorOptimizerV3.new_balance c
                                      = snap_overall_balance (modified cmp))
                           all)
      end
  end.
Proof.
  cbv zeta.
  destruct (analyze_cocktail_ cocktail_name_) as [[e|a]|e] eqn:Ea.
  - unfold find_best_modification_with; rewrite Ea; reflexivity.
  - destruct (recommend_improvements_ cocktail_name_ None) as [[e|r]|e] eqn:Er.
    + unfold find_best_modification_with; rewrite Ea; cbv beta iota delta [bind].
      rewrite Er; reflexivity.
    + rewrite (find_best_modification_with_unfold _ _ _ _ _ _ a r Ea Er).
      destruct (recommendations r) as [|rec0 recs] eqn:Erecs;
        [left; eexists; reflexivity|].
      destruct (test_candidates_with_bounds modify_cocktail_ minus cocktail_name_
                  (overall_balance a) (firstn max_candidates (rec0 :: recs)) 0)
        as [Hlen Hall].
      cbv zeta in Hlen, Hall.
      destruct (test_candidates_with _ _ _ _ _ _) as [|c cs];
        [left; eexists; reflexivity|].
      right. eexists; eexists; split; [reflexivity|].
      pose proof (firstn_le_length max_candidates (rec0 :: recs)) as Hn.
      assert (Hn' : (length (firstn max_candidates (rec0 :: recs))
                     <= length (rec0 :: recs))%nat)
        by (rewrite length_firstn; lia).
      split; [simpl in *; lia|].
      split; [simpl in *; lia|].
      split; [apply (first_max_in FlavorOptimizerV3.improvement), max_by_first_max|].
      eapply Forall_impl; [|exact Hall]. cbv beta.
      intros x ((H1 & H2) & rec & cmp & Hnth & Hrest).
      split; [lia|]. exists rec, cmp. split; [|exact Hrest].
      rewrite nth_error_firstn in Hnth.
      destruct (FlavorOptimizerV3.rank x - 1 <? max_candidates)%nat;
        [exact Hnth | discriminate].
    + unfold find_best_modification_with; rewrite Ea; cbv beta iota delta [bind].
      rewrite Er; reflexivity.
  - unfold find_best_modification_with; rewrite Ea; reflexivity.
Qed.

(** X24: for a cocktail that the recommendation gate leaves alone
    (balance of at least 0.98, or at least 0.95 with every dimension
    within 0.25 of the mean), [find_best_modification] of V3 tests nothing
    and returns no modification, together with the message of the gate. *)
Theorem balanced_cocktail_gets_no_modification (self : FlavorOptimizerV3.t)
    (cocktail_name_ : string) (max_candidates : nat) (a : analysis)
    (Ha : analyze_cocktail (FlavorOptimizerV3.analyzer self) cocktail_name_
          = Ok (AnalysisDict a))
    (Hgate : fst (FlavorOptimizerV2.should_recommend_changes (overall_balance a)
                    (balance_scores a)) = false) :
  FlavorOptimizerV3.find_best_modification self cocktail_name_ max_candidates
  = Ok (FlavorOptimizerV3.NoBest cocktail_name_
          (snd (FlavorOptimizerV2.should_recommend_changes (overall_balance a)
                  (balance_scores a)))).
Proof.
  rewrite (find_best_unfold self cocktail_name_ max_candidates a Ha); cbv zeta.
  destruct (FlavorOptimizerV2.should_recommend_changes (overall_balance a)
              (balance_scores a)) as [b msg] eqn:Es.
  simpl in Hgate; subst b.
  change FlavorOptimizerV3._should_recommend_changes
    with FlavorOptimizerV2.should_recommend_changes.
  rewrite (recommend_silent _ _ _ _ _ _ _ msg Es). reflexivity.
Qed.

Lemma balanced_cocktail_gets_no_modification_witness :
  FlavorOptimizerV3.find_best_modification
    (FlavorOptimizerV3.mk citrus_profiler (house_analyzer even_taste 60)
       (house_modifier even_taste 60)) "house" 5
  = Ok (FlavorOptimizerV3.NoBest "house"
          (snd (FlavorOptimizerV2.should_recommend_changes
                  (overall_balance (house_analysis even_taste 60))
                  (balance_scores (house_analysis even_taste 60))))).
Proof.
  assert (Hv : (60 : R) <> 0) by lra.
  apply (balanced_cocktail_gets_no_modification
           (FlavorOptimizerV3.mk citrus_profiler (house_analyzer even_taste 60)
              (house_modifier even_taste 60)) "house" 5 (house_analysis even_taste 60)
           (analyze_house even_taste 60 Hv)).
  rewrite should_recommend_excellent; [reflexivity|].
  change (overall_balance (house_analysis even_taste 60))
    with (_compute_overall_balance even_taste).
  rewrite even_balance; lra.
Defined.

(** ** Plausibility and ranking (V4) *)

Lemma is_space_lower (c : ascii) : is_space (lower_ascii c) = is_space c.
Proof. destruct c as [[] [] [] [] [] [] [] []]; reflexivity. Qed.

Lemma lower_list (s : string) :
  list_ascii_of_string (lower s) = map lower_ascii (list_ascii_of_string s).
Proof. induction s as [|c s IH]; simpl; [reflexivity | rewrite IH; reflexivity]. Qed.

Lemma lower_of_list (l : list ascii) :
  lower (string_of_list_ascii l) = string_of_list_ascii (map lower_ascii l).
Proof. induction l as [|c l IH]; simpl; [reflexivity | rewrite IH; reflexivity]. Qed.

Lemma lstrip_map_lower (l : list ascii) :
  lstrip (map lower_ascii l) = map lower_ascii (lstrip l).
Proof.
  induction l as [|c l IH]; simpl; [reflexivity|].
  rewrite is_space_lower. destruct (is_space c); [exact IH | reflexivity].
Qed.

Lemma strip_lower (s : string) : strip (lower s) = lower (strip s).
Proof.
  unfold strip. rewrite lower_of_list, lower_list.
  rewrite lstrip_map_lower, <- map_rev, lstrip_map_lower, <- map_rev. reflexivity.
Qed.

Lemma lstrip_head (l : list ascii) :
  lstrip l = [] \/ exists c l', lstrip l = c :: l' /\ is_space c = false.
Proof.
  induction l as [|c l IH]; simpl; [left; reflexivity|].
  destruct (is_space c) eqn:E; [exact IH|].
  right; exists c, l; split; [reflexivity | exact E].
Qed.

Lemma lstrip_fixed (c : ascii) (l : list ascii) :
  is_space c = false -> lstrip (c :: l) = c :: l.
Proof. intros H; simpl; rewrite H; reflexivity. Qed.

Lemma lstrip_idempotent (l : list ascii) : lstrip (lstrip l) = lstrip l.
Proof.
  destruct (lstrip_head l) as [->|(c & l' & -> & Hc)];
    [reflexivity | apply lstrip_fixed, Hc].
Qed.

Lemma lstrip_app_last (m : list ascii) (c : ascii) :
  is_space c = false -> exists m', lstrip (m ++ [c]) = m' ++ [c].
Proof.
  intros H; induction m as [|x m IH]; simpl.
  - rewrite H; exists []; reflexivity.
  - destruct (is_space x); [exact IH|]. exists (x :: m); reflexivity.
Qed.

Lemma strip_list_idempotent (l : list ascii) :
  rev (lstrip (rev (lstrip (rev (lstrip (rev (lstrip l)))))))
  = rev (lstrip (rev (lstrip l))).
Proof.
  destruct (lstrip_head l) as [->|(c & l' & -> & Hc)]; [reflexivity|].
  set (u := lstrip (rev (c :: l'))).
  assert (Hu : lstrip u = u) by apply lstrip_idempotent.
  assert (Hm : exists m', u = m' ++ [c])
    by (unfold u; simpl rev; apply lstrip_app_last; exact Hc).
  destruct Hm as [m' Hm].
  assert (Ht : rev u = c :: rev m') by (rewrite Hm, rev_app_distr; reflexivity).
  rewrite Ht, (lstrip_fixed _ _ Hc), <- Ht, rev_involutive, Hu. reflexivity.
Qed.

Lemma strip_idempotent (s : string) : strip (strip s) = strip s.
Proof.
  unfold strip. rewrite list_ascii_of_string_of_list_ascii, strip_list_idempotent.
  reflexivity.
Qed.

Lemma find_in_or_none {A : Type} (f : A -> bool) (l : list A) :
  (exists x, find f l = Some x /\ In x l) \/ find f l = None.
Proof.
  destruct (find f l) as [x|] eqn:E; [left | right; reflexivity].
  exists x; split; [reflexivity | apply (find_some _ _ E)].
Qed.

(** X25: the plausibility score of an ingredient does not depend on
    letter case or on surrounding white space; it is 0.5 without book
    data and otherwise 0.5 or one of the scores of the table, so it stays
    within any bounds that hold for the table and for 0.5; and a name
    that is blank once stripped receives the score of the first entry of
    the table. *)
Theorem plausibility_score_properties (self : FlavorOptimizerV4.t) (ingredient_ : string) :
  FlavorOptimizerV4.get_plausibility_score self ingredient_
  = FlavorOptimizerV4.get_plausibility_score self (lower ingredient_)
  /\ FlavorOptimizerV4.get_plausibility_score self ingredient_
     = FlavorOptimizerV4.get_plausibility_score self (strip ingredient_)
  /\ (FlavorOptimizerV4.ingredient_plausibility self = [] ->
      FlavorOptimizerV4.get_plausibility_score self ingredient_ = 0.5)
  /\ (forall lo hi,
        lo <= 0.5 <= hi ->
        Forall (fun kv => lo <= snd kv <= hi) (FlavorOptimizerV4.ingredient_plausibility self) ->
        lo <= FlavorOptimizerV4.get_plausibility_score self ingredient_ <= hi)
  /\ (forall kv rest,
        FlavorOptimizerV4.ingredient_plausibility self = kv :: rest ->
        strip (lower ingredient_) = EmptyString ->
        (forall kv', In kv' (kv :: rest) -> fst kv' <> EmptyString) ->
        FlavorOptimizerV4.get_plausibility_score self ingredient_ = snd kv).
Proof.
  unfold FlavorOptimizerV4.get_plausibility_score.
  split; [|split; [|split; [|split]]].
  - rewrite lower_idempotent. reflexivity.
  - cbv zeta. rewrite (strip_lower (strip ingredient_)), strip_idempotent, <- strip_lower.
    reflexivity.
  - intros ->. reflexivity.
  - intros lo hi Hmid Hall.
    destruct (FlavorOptimizerV4.ingredient_plausibility self) as [|kv0 rest] eqn:Et; [lra|].
    cbv zeta. rewrite Forall_forall in Hall.
    destruct (find_in_or_none
                (fun kv => String.eqb (fst kv) (strip (lower ingredient_))) (kv0 :: rest))
      as [(x & -> & Hx)| ->]; [apply Hall, Hx|].
    destruct (find_in_or_none
                (fun kv => (contains (fst kv) (strip (lower ingredient_))
                            || contains (strip (lower ingredient_)) (fst kv))%bool)
                (kv0 :: rest))
      as [(x & -> & Hx)| ->]; [apply Hall, Hx | lra].
  - intros kv rest -> Hblank Hkeys. cbv zeta. rewrite Hblank.
    assert (Hnone : find (fun kv0 : string * R => String.eqb (fst kv0) EmptyString)
                      (kv :: rest) = None).
    { destruct (find _ (kv :: rest)) as [x|] eqn:E; [|reflexivity].
      apply find_some in E as [Hin Heq]. apply String.eqb_eq in Heq.
      exfalso; apply (Hkeys x Hin Heq). }
    rewrite Hnone. simpl find.
    assert (Hc : contains EmptyString (fst kv) = true) by (destruct (fst kv); reflexivity).
    rewrite Hc, Bool.orb_true_r. reflexivity.
Qed.

Lemma plausibility_score_properties_witness :
  FlavorOptimizerV4.get_plausibility_score
    (FlavorOptimizerV4.mk spiky_v3 [("lime juice"%string, 0.9)]) "  "
  = 0.9.
Proof.
  refine (proj2 (proj2 (proj2 (proj2
            (plausibility_score_properties
               (FlavorOptimizerV4.mk spiky_v3 [("lime juice"%string, 0.9)]) "  "))))
            ("lime juice"%string, 0.9) [] eq_refl eq_refl _).
  intros kv' [<-|[]]; discriminate.
Defined.

Lemma insert_by_stable {A : Type} (key : A -> R) (reverse : bool) (c : R) (x : A)
    (l : list A) :
  filter (fun y => Reqb (key y) c) (insert_by key reverse x l)
  = filter (fun y => Reqb (key y) c) (x :: l).
Proof.
  induction l as [|y l IH]; [reflexivity|].
  simpl insert_by.
  destruct (if reverse then Rltb (key x) (key y) else Rgtb (key x) (key y)) eqn:E;
    [|reflexivity].
  assert (Hne : key x <> key y).
  { destruct reverse; [apply Rltb_true in E | apply Rgtb_true in E]; lra. }
  simpl filter at 1. rewrite IH. simpl.
  destruct (Reqb (key x) c) eqn:Ex; destruct (Reqb (key y) c) eqn:Ey; try reflexivity.
  apply Reqb_true in Ex, Ey. exfalso; apply Hne; congruence.
Qed.

Lemma sorted_stable {A : Type} (key : A -> R) (reverse : bool) (c : R) (l : list A) :
  filter (fun y => Reqb (key y) c) (sorted key reverse l)
  = filter (fun y => Reqb (key y) c) l.
Proof.
  induction l as [|x l IH]; [reflexivity|].
  simpl sorted. rewrite insert_by_stable. simpl. rewrite IH. reflexivity.
Qed.

(** X26: the ranking of V4 is a stable descending sort by the
    combined score stored in each candidate, whether that score is the
    exact product improvement * plausibility or the product rounded as
    the program computes it: the result is a permutation of the scored
    candidates, every element's stored score is at least that of all
    those after it, candidates with equal stored score keep the order in
    which they were tested, and the stored score and plausibility are the
    product and the plausibility score of the candidate's ingredient. *)
Theorem plausibility_ranking_is_a_stable_sort (times : R -> R -> R)
    (self : FlavorOptimizerV4.t) (candidates : list FlavorOptimizerV4.candidate) :
  let ranked := rank_with times self candidates in
  Permutation ranked (scored_candidates_with times self candidates)
  /\ length ranked = length candidates
  /\ StronglySorted (fun a b => FlavorOptimizerV4.combined_score b
                                <= FlavorOptimizerV4.combined_score a) ranked
  /\ (forall c,
        filter (fun s => Reqb (FlavorOptimizerV4.combined_score s) c) ranked
        = filter (fun s => Reqb (FlavorOptimizerV4.combined_score s) c)
            (scored_candidates_with times self candidates))
  /\ Forall (fun s =>
               FlavorOptimizerV4.plausibility s
               = FlavorOptimizerV4.get_plausibility_score self
                   (FlavorOptimizerV4.cand_ingredient (FlavorOptimizerV4.scored_candidate s))
               /\ FlavorOptimizerV4.combined_score s
                  = times
                      (FlavorOptimizerV4.improvement (FlavorOptimizerV4.scored_candidate s))
                      (FlavorOptimizerV4.plausibility s)) ranked
  /\ rank_with Rmult self candidates
     = FlavorOptimizerV4.rank_recommendations_with_plausibility self candidates.
Proof.
  cbv zeta. unfold rank_with; cbv zeta.
  fold (scored_candidates_with times self candidates).
  pose proof (sorted_perm FlavorOptimizerV4.combined_score true
                (scored_candidates_with times self candidates)) as Hperm.
  split; [exact Hperm|].
  split; [rewrite (Permutation_length Hperm); unfold scored_candidates_with;
          apply length_map|].
  split; [apply sorted_sorted_desc|].
  split; [intros c; apply sorted_stable|].
  split; [|reflexivity].
  apply (Permutation_Forall (Permutation_sym Hperm)).
  unfold scored_candidates_with. apply Forall_forall. intros s Hs.
  apply in_map_iff in Hs as (c & <- & _). split; reflexivity.
Qed.

Lemma first_max_unique {A : Type} (key : A -> R) (l : list A) (b1 b2 : A) :
  first_max key l b1 -> first_max key l b2 -> b1 = b2.
Proof.
  intros (l1 & l2 & E1 & Hlt1 & Hle1) (l1' & l2' & E2 & Hlt2 & Hle2).
  rewrite E1 in E2. apply app_eq_app in E2 as (m & [[Ha Hb]|[Ha Hb]]).
  - destruct m as [|z m].
    + simpl in Hb; congruence.
    + simpl in Hb. injection Hb as Hz Hb.
      rewrite Ha in Hlt1. apply Forall_app in Hlt1 as [_ Hz1].
      apply Forall_inv in Hz1.
      rewrite Hb in Hle2. apply Forall_app in Hle2 as [_ Hb1].
      apply Forall_inv in Hb1. rewrite <- Hz in Hz1. lra.
  - destruct m as [|z m].
    + simpl in Hb; congruence.
    + simpl in Hb. injection Hb as Hz Hb.
      rewrite Ha in Hlt2. apply Forall_app in Hlt2 as [_ Hz1].
      apply Forall_inv in Hz1.
      rewrite Hb in Hle1. apply Forall_app in Hle1 as [_ Hb1].
      apply Forall_inv in Hb1. rewrite <- Hz in Hz1. lra.
Qed.

Lemma first_max_scaled (self : FlavorOptimizerV4.t)
    (l : list FlavorOptimizerV4.candidate) (b : FlavorOptimizerV4.scored) :
  FlavorOptimizerV4.ingredient_plausibility self = [] ->
  first_max FlavorOptimizerV4.combined_score (scored_candidates self l) b ->
  first_max FlavorOptimizerV4.improvement l (FlavorOptimizerV4.scored_candidate b)
  /\ b = FlavorOptimizerV4.mkScored (FlavorOptimizerV4.scored_candidate b) 0.5
           (FlavorOptimizerV4.improvement (FlavorOptimizerV4.scored_candidate b) * 0.5).
Proof.
  intros Ht (l1 & l2 & E & Hlt & Hle).
  assert (Hs : forall c, FlavorOptimizerV4.get_plausibility_score self c = 0.5)
    by (intros c; unfold FlavorOptimizerV4.get_plausibility_score; rewrite Ht; reflexivity).
  unfold scored_candidates in E.
  apply map_eq_app in E as (k1 & k2' & -> & E1 & E2).
  apply map_eq_cons in E2 as (x & k2 & -> & Ex & E2).
  rewrite Hs in Ex. subst b l1 l2. simpl.
  split; [|reflexivity].
  exists k1, k2; split; [reflexivity|]. simpl in Hlt, Hle.
  split; apply Forall_forall; intros y Hy.
  - rewrite Forall_forall in Hlt.
    specialize (Hlt _ (in_map _ _ _ Hy)). simpl in Hlt. rewrite Hs in Hlt. lra.
  - rewrite Forall_forall in Hle.
    specialize (Hle _ (in_map _ _ _ Hy)). simpl in Hle. rewrite Hs in Hle. lra.
Qed.

(** X27: without book data (an empty plausibility table) the ranking
    of V4 puts first the candidate that V3 would select, the first one of
    greatest improvement, with plausibility 0.5. *)
Theorem without_book_data_v4_selects_like_v3 (self : FlavorOptimizerV4.t)
    (c : FlavorOptimizerV4.candidate) (cs : list FlavorOptimizerV4.candidate)
    (Hempty : FlavorOptimizerV4.ingredient_plausibility self = []) :
  exists rest,
    FlavorOptimizerV4.rank_recommendations_with_plausibility self (c :: cs)
    = FlavorOptimizerV4.mkScored (max_by FlavorOptimizerV4.improvement c cs) 0.5
        (FlavorOptimizerV4.improvement (max_by FlavorOptimizerV4.improvement c cs) * 0.5)
      :: rest.
Proof.
  unfold FlavorOptimizerV4.rank_recommendations_with_plausibility.
  fold (scored_candidates self (c :: cs)).
  destruct (sorted FlavorOptimizerV4.combined_score true (scored_candidates self (c :: cs)))
    as [|b rest] eqn:Es.
  - exfalso. revert Es. unfold scored_candidates; simpl map. apply sorted_not_nil.
  - pose proof (sorted_head_first_max _ _ _ _ Es) as Hb.
    destruct (first_max_scaled self (c :: cs) b Hempty Hb) as [Hfm Hrec].
    pose proof (max_by_first_max FlavorOptimizerV4.improvement c cs) as Hmax.
    rewrite (first_max_unique _ _ _ _ Hmax Hfm).
    exists rest. rewrite <- Hrec. reflexivity.
Qed.

Lemma without_book_data_v4_selects_like_v3_witness :
  exists rest,
    FlavorOptimizerV4.rank_recommendations_with_plausibility
      (FlavorOptimizerV4.mk spiky_v3 [])
      [FlavorOptimizerV4.mkCandidate "honey" 10 0.01 0.9 0.91]
    = FlavorOptimizerV4.mkScored
        (FlavorOptimizerV4.mkCandidate "honey" 10 0.01 0.9 0.91) 0.5 (0.01 * 0.5)
      :: rest.
Proof.
  exact (without_book_data_v4_selects_like_v3 (FlavorOptimizerV4.mk spiky_v3 [])
           (FlavorOptimizerV4.mkCandidate "honey" 10 0.01 0.9 0.91) [] eq_refl).
Defined.



(** ** Synthetic validation *)

(** X29: a synthetic imbalance is exactly the modifier's prediction for
    adding the given amount of the breaking ingredient.  With a modifier
    made of the generator's analyzer and profiler, [create_too_sweet],
    [create_too_sour] and [create_too_bitter] return the error that
    [modify_cocktail] returns, raise what it raises, and otherwise record
    the balance, taste scores and ingredients of its modified side next
    to the balance and scores of its original side. *)
Theorem synthetic_imbalance_is_a_modification (added type_ expected w : string)
    (self : SyntheticImbalanceGenerator) (cocktail_name_ : string) (amount_ml : R) :
  match modify_cocktail (mkModifier (generator_profiler self) (generator_analyzer self))
          cocktail_name_ [mkModification add added (Some amount_ml) w] with
  | Raise e => create_broken added type_ expected self cocktail_name_ amount_ml = Raise e
  | Ok (ModifyError e) =>
      create_broken added type_ expected self cocktail_name_ amount_ml
      = Ok (SyntheticError e)
  | Ok (ComparisonDict c) =>
      exists s,
        create_broken added type_ expected self cocktail_name_ amount_ml
        = Ok (SyntheticDict s)
        /\ original_name s = cocktail_name_
        /\ synthetic_type s = type_
        /\ expected_issue s = expected
        /\ synthetic_original_balance s = snap_overall_balance (original c)
        /\ original_scores s = snap_taste_scores (original c)
        /\ broken_balance s = snap_overall_balance (modified c)
        /\ broken_scores s = snap_taste_scores (modified c)
        /\ synthetic_ingredients s = snap_ingredients (modified c)
  end.
Proof.
  unfold modify_cocktail, create_broken. cbn [modifier_analyzer modifier_profiler].
  destruct (analyze_cocktail (generator_analyzer self) cocktail_name_) as [[e|a]|e];
    cbv beta iota delta [bind]; try reflexivity.
  destruct (_find_cocktail (generator_analyzer self) cocktail_name_) as [ck|];
    [|reflexivity].
  simpl apply_modifications. cbv beta iota delta [bind].
  destruct (_aggregate_profiles _ _) as [[agg|]|e]; cbv beta iota delta [bind];
    try reflexivity.
  eexists; split; [reflexivity|]. simpl.
  repeat (split; [reflexivity|]). reflexivity.
Qed.

(** X30: [test_can_fix_imbalance] queries the optimizer with the name
    of the original cocktail, not with the broken recipe.  So for an
    original that the recommendation gate leaves alone the test reports
    that the expected issue was not detected and that no modification was
    found, and fails, whatever imbalance was injected. *)
Theorem synthetic_test_fails_on_balanced_original (self : SyntheticValidator)
    (s : synthetic) (a : analysis) (word : string)
    (Ha : analyze_cocktail (FlavorOptimizerV3.analyzer (validator_optimizer self))
            (original_name s) = Ok (AnalysisDict a))
    (Hgate : fst (FlavorOptimizerV2.should_recommend_changes (overall_balance a)
                    (balance_scores a)) = false)
    (Hword : first_word (expected_issue s) = Ok word) :
  test_can_fix_imbalance self s = Ok (NoModificationFound false).
Proof.
  unfold test_can_fix_imbalance; cbv zeta.
  rewrite (find_best_unfold _ _ 5 a Ha); cbv zeta.
  unfold FlavorOptimizerV3.recommend_improvements. rewrite Ha.
  cbv beta iota delta [bind].
  destruct (FlavorOptimizerV2.should_recommend_changes (overall_balance a)
              (balance_scores a)) as [b msg] eqn:Es.
  simpl in Hgate; subst b.
  change FlavorOptimizerV3._should_recommend_changes
    with FlavorOptimizerV2.should_recommend_changes.
  rewrite (recommend_silent _ _ _ _ _ _ _ msg Es).
  rewrite Hword. reflexivity.
Qed.

Lemma synthetic_test_fails_on_balanced_original_witness :
  test_can_fix_imbalance
    (mkValidator (FlavorOptimizerV3.mk citrus_profiler (house_analyzer even_taste 60)
                    (house_modifier even_taste 60)))
    (mkSynthetic "house" "too_sweet" 1 even_taste 0.9 spiky_taste
       ["house blend"; "simple syrup"]%string
       [mkMeasure (Some 60); mkMeasure (Some 20)] "sweet too high")
  = Ok (NoModificationFound false).
Proof.
  assert (Hv : (60 : R) <> 0) by lra.
  refine (synthetic_test_fails_on_balanced_original
            (mkValidator (FlavorOptimizerV3.mk citrus_profiler
                            (house_analyzer even_taste 60)
                            (house_modifier even_taste 60)))
            (mkSynthetic "house" "too_sweet" 1 even_taste 0.9 spiky_taste
               ["house blend"; "simple syrup"]%string
               [mkMeasure (Some 60); mkMeasure (Some 20)] "sweet too high")
            (house_analysis even_taste 60) "sweet"
            (analyze_house even_taste 60 Hv) _ eq_refl).
  rewrite should_recommend_excellent; [reflexivity|].
  change (overall_balance (house_analysis even_taste 60))
    with (_compute_overall_balance even_taste).
  rewrite even_balance; lra.
Defined.
